(** * PolicyCheck frontend: session, HTTP client and crawl polling

    A shallow embedding of the session and API-access layer of the
    PolicyCheck admin dashboard (TypeScript/React):

    - [frontend/src/api/client.ts]     the axios instance and its interceptors
    - [frontend/src/api/documents.ts]  documents resource client
    - [frontend/src/api/audit.ts]      audit-log resource client
    - [api/crawl], [api/stats], [api/auth]   the other resource clients
    - [context/AuthContext]            the session controller (AuthProvider)
    - [pages/CrawlPage], [pages/Progress.tsx]   the two crawl-status pollers

    Conventions of the embedding.

    - JavaScript [number]s that hold counts, page numbers and identifiers are
      [Z].  The only arithmetic in the code is [Math.ceil(total / limit)];
      on integers below 2^53 the double quotient rounds to the same ceiling,
      so it is written with integer division.  NaN and infinities are not
      represented.
    - An optional argument or state cell is an [option]; [None] stands for
      [undefined]/[null].  A key of a JSON body is a [Js.field]: missing,
      present with [null], or present with a value; only a spread tells the
      first two apart.  The truthiness tests of the code ([x || d],
      [if (x)], [!!x]) are written out on these.
    - [localStorage] is a [gmap string string]; the browser location is a
      path name together with the log of assignments to
      [window.location.href].
    - A promise is a function of the browser state that returns how it
      settled and the browser state afterwards.  What the server answers is
      an argument of each call. *)

From Stdlib Require Import ZArith Lia Bool.
From stdpp Require Import base gmap strings list.

Local Open Scope Z_scope.
Local Open Scope string_scope.

(** ** JavaScript truthiness *)

Module Js.

(** [!!s] for a string: the empty string is falsy. *)
Definition truthy_string (s : string) : bool :=
  negb (String.eqb s "").

(** [!!x] for [x : string | null]. *)
Definition truthy_opt_string (o : option string) : bool :=
  match o with
  | Some s => truthy_string s
  | None => false
  end.

(** [!!n] for [n : number | undefined]: zero is falsy. *)
Definition truthy_opt_number (o : option Z) : bool :=
  match o with
  | Some n => negb (Z.eqb n 0)
  | None => false
  end.

(** [x || d] where [x : number | undefined] and [d : number]. *)
Definition or_number (o : option Z) (d : Z) : Z :=
  match o with
  | Some n => if Z.eqb n 0 then d else n
  | None => d
  end.

(** [a || b] where both are [number | undefined]. *)
Definition or_opt_number (a b : option Z) : option Z :=
  if truthy_opt_number a then a else b.

(** [x || d] where [x] is an array or missing: every array is truthy. *)
Definition or_array {A : Type} (o : option (list A)) (d : list A) : list A :=
  match o with
  | Some l => l
  | None => d
  end.

(** One key of a JSON object as it arrived. *)
Inductive field (A : Type) : Type :=
| Missing              (* the key is not there: reading it gives [undefined] *)
| Null                 (* the key is there and holds [null] *)
| Value (a : A).
Arguments Missing {A}.
Arguments Null {A}.
Arguments Value {A} a.

(** Reading the key for a test or a default ([data.k || d], [data.k ? .. : ..]):
    [undefined] and [null] are both falsy and are not told apart. *)
Definition read {A : Type} (f : field A) : option A :=
  match f with
  | Value a => Some a
  | Missing | Null => None
  end.

(** An object literal that sets the key only when there is a value. *)
Definition key {A : Type} (o : option A) : field A :=
  match o with
  | Some a => Value a
  | None => Missing
  end.

(** A spread [{...defaults, ...data}] restricted to one key that [defaults]
    has: a key present in [data] is copied, a [null] included ([None] in the
    result), and the value of [defaults] stays when the key is missing. *)
Definition spread {A : Type} (defaults : option A) (data : field A) : option A :=
  match data with
  | Missing => defaults
  | Null => None
  | Value a => Some a
  end.

(** [x || {}] where [x] is an object or missing. *)
Definition or_object {A : Type} (o : option A) (empty : A) : A :=
  match o with
  | Some a => a
  | None => empty
  end.

(** [Math.ceil(a / b)] on integers, [b] non-zero. *)
Definition Math_ceil_div (a b : Z) : Z := - ((- a) / b).

End Js.

(** ** The browser: localStorage and window.location *)

Module Browser.

Record World : Type := mkWorld {
  localStorage : gmap string string;
  pathname : string;                (* window.location.pathname *)
  href_assignments : list string    (* every [window.location.href = ...], latest first *)
}.

Definition getItem (k : string) (w : World) : option string :=
  localStorage w !! k.

Definition setItem (k v : string) (w : World) : World :=
  mkWorld (<[k := v]> (localStorage w)) (pathname w) (href_assignments w).

Definition removeItem (k : string) (w : World) : World :=
  mkWorld (delete k (localStorage w)) (pathname w) (href_assignments w).

(** [window.location.href = target] for a same-origin absolute path: the
    assignment is recorded and [pathname] is that of the document the
    browser loads for it. *)
Definition assign_href (target : string) (w : World) : World :=
  mkWorld (localStorage w) target (target :: href_assignments w).

End Browser.

(** ** api/client.ts *)

Module Client.
Import Browser.

(** [error.response.data.detail] when it is there: the API sends a text,
    and for a request that fails validation a list of error objects.  Such a
    value that is not a text is carried as the text [JSON.stringify] makes of
    it; it is truthy (every array and object is). *)
Inductive DetailValue : Type :=
| Text (s : string)
| Structured (stringified : string).

(** The part of [AxiosError] the code reads: [error.response?.status] and
    [error.response?.data?.detail]; [url] is the request it belongs to. *)
Record ErrorResponse : Type := mkErrorResponse {
  status : Z;
  detail : option DetailValue
}.

Record AxiosError : Type := mkAxiosError {
  url : string;
  response : option ErrorResponse
}.

Inductive settled (A : Type) : Type :=
| Fulfilled (a : A)
| Rejected (e : AxiosError).
Arguments Fulfilled {A} a.
Arguments Rejected {A} e.

Definition promise (A : Type) : Type := World -> settled A * World.

Definition resolve {A : Type} (a : A) : promise A :=
  fun w => (Fulfilled a, w).

Definition reject {A : Type} (e : AxiosError) : promise A :=
  fun w => (Rejected e, w).

(** [await p; k] *)
Definition bind {A B : Type} (p : promise A) (k : A -> promise B) : promise B :=
  fun w =>
    match p w with
    | (Fulfilled a, w') => k a w'
    | (Rejected e, w') => (Rejected e, w')
    end.

(** [try { await p } catch { h }] *)
Definition try_catch {A : Type} (p : promise A) (h : AxiosError -> promise A) : promise A :=
  fun w =>
    match p w with
    | (Fulfilled a, w') => (Fulfilled a, w')
    | (Rejected e, w') => h e w'
    end.

(** [error.response?.status === 401] *)
Definition is_unauthorized (error : AxiosError) : bool :=
  match response error with
  | Some r => Z.eqb (status r) 401
  | None => false
  end.

(** [window.location.pathname.startsWith('/login')] *)
Definition on_login_page (w : World) : bool :=
  String.prefix "/login" (pathname w).

(** The response interceptor, fulfilled side: [(response) => response]. *)
Definition response_fulfilled {T : Type} (r : T) : promise T := resolve r.

(** The response interceptor, rejected side. *)
Definition response_rejected {T : Type} (error : AxiosError) : promise T :=
  fun w =>
    let w' :=
      if is_unauthorized error then
        let w1 := removeItem "access_token" w in
        let w2 := removeItem "user" w1 in
        if negb (on_login_page w2) then assign_href "/login" w2 else w2
      else w in
    reject error w'.

(** One request through the client: [server] is how the transport
    settled; the response interceptor then sees it. *)
Definition request {T : Type} (server : settled T) : promise T :=
  match server with
  | Fulfilled r => response_fulfilled r
  | Rejected e => response_rejected e
  end.

End Client.

Notation "'await' x <~ p ; k" := (Client.bind p (fun x => k))
  (at level 10, x name, p at level 100, k at level 200).

(** ** types/index.ts *)

Module Types.

Record User : Type := mkUser {
  user_id : Z;
  username : string;
  name : string;
  role : string;                 (* 'admin' | 'reviewer' *)
  user_country : string;
  created_at : option string
}.

(** [confidence], [metadata_json] and [warnings] are carried by the real
    record and read only by the views; they are left out. *)
Record Document : Type := mkDocument {
  document_id : Z;
  source_url : string;
  insurer : string;
  document_country : string;
  policy_type : string;
  document_type : string;
  classification : string;
  document_status : string
}.

Record CrawlConfig : Type := mkCrawlConfig {
  config_country : string;
  seed_urls : list string;
  policy_types : list string;
  keywords : list string;
  max_pages : Z;
  max_time : Z
}.

Record Crawl : Type := mkCrawl {
  crawl_id : Z;
  crawl_status : string;
  message : string;
  active_crawls : Z;
  max_concurrent_crawls : Z
}.

Record CrawlStatusResponse : Type := mkCrawlStatusResponse {
  id : Z;
  status : string;
  country : string;
  progress_pct : Z;
  pages_scanned : Z;
  pdfs_found : Z;
  pdfs_downloaded : Z;
  pdfs_filtered : Z;
  errors_count : Z;
  started_at : option string;
  completed_at : option string
}.

Record AuditLogEntry : Type := mkAuditLogEntry {
  entry_id : Z;
  timestamp : string;
  entry_user : string;
  action : string;
  entry_document_id : option Z
}.

(** The numbers of [PipelineStats] are carried, never computed with.  The
    record is built by a spread over the body, so each field holds what the
    body had there: [None] is a [null]. *)
Record PipelineStats : Type := mkPipelineStats {
  stages : option (gmap string Z);
  funnel_rates : option (gmap string Z);
  total_processed : option Z;
  avg_confidence : option Z;
  error_rate : option Z
}.

End Types.

(** ** api/documents.ts *)

Module Documents.
Import Browser Client Types.

(** Only [limit] and [page] are read once the query string is built; the
    query string itself does not reach the response handling. *)
Record DocumentFilters : Type := mkDocumentFilters {
  filter_status : option string;
  filter_classification : option string;
  filter_country : option string;
  filter_skip : option Z;
  filter_limit : option Z;
  filter_page : option Z;
  filter_search : option string;
  filter_crawl_session_id : option Z
}.

(** [filters = {}] *)
Definition no_filters : DocumentFilters :=
  mkDocumentFilters None None None None None None None None.

(** [response.data] as the server sent it: any of the keys may be missing
    or hold [null].  Keys [items], [pages], [page] and [page_size] in the
    body would be overwritten by the object literal, so they are not
    carried. *)
Record DocumentsData : Type := mkBody {
  key_documents : Js.field (list Document);
  key_total : Js.field Z;
  key_limit : Js.field Z;
  key_offset : Js.field Z;
  key_has_more : Js.field bool
}.

(** [data.documents], [data.total] and [data.limit] as the tests [x || d]
    see them. *)
Definition data_documents (data : DocumentsData) : option (list Document) :=
  Js.read (key_documents data).
Definition data_total (data : DocumentsData) : option Z :=
  Js.read (key_total data).
Definition data_limit (data : DocumentsData) : option Z :=
  Js.read (key_limit data).

(** A body without [null]s: each key is there exactly when it has a value. *)
Definition mkDocumentsData (documents : option (list Document))
  (total limit offset : option Z) (has_more : option bool) : DocumentsData :=
  mkBody (Js.key documents) (Js.key total) (Js.key limit) (Js.key offset)
    (Js.key has_more).

(** [{}] *)
Definition empty_data : DocumentsData :=
  mkDocumentsData None None None None None.

(** [response.data] when the body was not JSON: axios hands over the text
    as it came.  A text has none of the named keys (spreading it adds index
    keys only), and the empty text is falsy, so [response.data || {}] reads
    it as [{}] either way. *)
Definition text_body (text : string) : option DocumentsData :=
  if Js.truthy_string text then Some empty_data else None.

(** [limit], [offset] and [has_more] come out of the spread [...data] and
    hold [None] when the body had [null] there. *)
Record DocumentListResponse : Type := mkDocumentListResponse {
  documents : list Document;
  total : Z;
  limit : option Z;
  offset : option Z;
  has_more : option bool;
  items : list Document;
  pages : Z;
  page : Z;
  page_size : Z
}.

Definition EMPTY_RESPONSE : DocumentListResponse :=
  {| documents := [];
     total := 0;
     limit := Some 20;
     offset := Some 0;
     has_more := Some false;
     items := [];
     pages := 1;
     page := 1;
     page_size := 20 |}.

(** The body of the [try] after [await client.get(...)]. *)
Definition normalize (filters : DocumentFilters) (response_data : option DocumentsData)
  : DocumentListResponse :=
  let data := Js.or_object response_data empty_data in       (* response.data || {} *)
  let docs := Js.or_array (data_documents data) [] in
  let total := Js.or_number (data_total data) 0 in
  let limit :=
    Js.or_number (Js.or_opt_number (data_limit data) (filter_limit filters)) 20 in
  {| documents := docs;
     total := total;
     limit := Js.spread (Documents.limit EMPTY_RESPONSE) (key_limit data);
     offset := Js.spread (Documents.offset EMPTY_RESPONSE) (key_offset data);
     has_more := Js.spread (Documents.has_more EMPTY_RESPONSE) (key_has_more data);
     items := docs;
     pages := Js.or_number (Some (Js.Math_ceil_div total limit)) 1;
     page := Js.or_number (filter_page filters) 1;
     page_size := limit |}.

Definition getDocuments (filters : DocumentFilters)
  (server : settled (option DocumentsData)) : promise DocumentListResponse :=
  try_catch
    (await response_data <~ request server;
     resolve (normalize filters response_data))
    (fun _ => resolve EMPTY_RESPONSE).

Definition getDocument (documentId : Z) (server : settled Document) : promise Document :=
  await response_data <~ request server;
  resolve response_data.

Definition approveDocument (documentId : Z) (server : settled Document) : promise Document :=
  await response_data <~ request server;
  resolve response_data.

Definition reclassifyDocument (documentId : Z) (classification : string)
  (server : settled Document) : promise Document :=
  await response_data <~ request server;
  resolve response_data.

Definition deleteDocument (documentId : Z) (server : settled unit) : promise unit :=
  await _r <~ request server;
  resolve tt.

Definition archiveDocument (documentId : Z) (server : settled Document) : promise Document :=
  await response_data <~ request server;
  resolve response_data.

End Documents.

(** ** api/audit.ts *)

Module Audit.
Import Browser Client Types.

Record AuditLogFilters : Type := mkAuditLogFilters {
  filter_user_id : option Z;
  filter_document_id : option Z;
  filter_action : option string;
  filter_skip : option Z;
  filter_limit : option Z
}.

(** The envelope is built by a spread over the body, so each field holds
    what the body had there: [None] is a [null]. *)
Record AuditLogListResponse : Type := mkAuditLogListResponse {
  entries : option (list AuditLogEntry);
  total : option Z;
  page : option Z;
  page_size : option Z
}.

(** [response.data] as the server sent it. *)
Record AuditData : Type := mkAuditData {
  data_entries : Js.field (list AuditLogEntry);
  data_total : Js.field Z;
  data_page : Js.field Z;
  data_page_size : Js.field Z
}.

(** [{}] *)
Definition empty_data : AuditData :=
  mkAuditData Js.Missing Js.Missing Js.Missing Js.Missing.

(** [response.data] when the body was not JSON: axios hands over the text
    as it came; spreading a text adds index keys only, none of the four. *)
Definition text_body (text : string) : option AuditData := Some empty_data.

Definition EMPTY_RESPONSE : AuditLogListResponse :=
  {| entries := Some []; total := Some 0; page := Some 1; page_size := Some 50 |}.

(** [{ ...EMPTY_RESPONSE, ...response.data }]; spreading a missing body adds
    nothing. *)
Definition merge (response_data : option AuditData) : AuditLogListResponse :=
  match response_data with
  | None => EMPTY_RESPONSE
  | Some data =>
      {| entries := Js.spread (entries EMPTY_RESPONSE) (data_entries data);
         total := Js.spread (total EMPTY_RESPONSE) (data_total data);
         page := Js.spread (page EMPTY_RESPONSE) (data_page data);
         page_size := Js.spread (page_size EMPTY_RESPONSE) (data_page_size data) |}
  end.

Definition getAuditLog (filters : AuditLogFilters)
  (server : settled (option AuditData)) : promise AuditLogListResponse :=
  try_catch
    (await response_data <~ request server;
     resolve (merge response_data))
    (fun _ => resolve EMPTY_RESPONSE).

End Audit.

(** ** api/crawl.ts *)

Module CrawlApi.
Import Browser Client Types.

Definition startCrawl (config : CrawlConfig) (server : settled Crawl) : promise Crawl :=
  await response_data <~ request server;
  resolve response_data.

Definition getCrawlStatus (crawlId : Z) (server : settled CrawlStatusResponse)
  : promise CrawlStatusResponse :=
  await response_data <~ request server;
  resolve response_data.

End CrawlApi.

(** ** api/stats.ts *)

Module Stats.
Import Browser Client Types.

Record PipelineData : Type := mkPipelineData {
  data_stages : Js.field (gmap string Z);
  data_funnel_rates : Js.field (gmap string Z);
  data_total_processed : Js.field Z;
  data_avg_confidence : Js.field Z;
  data_error_rate : Js.field Z
}.

Definition EMPTY_PIPELINE : PipelineStats :=
  {| stages := Some ∅; funnel_rates := Some ∅; total_processed := Some 0;
     avg_confidence := Some 0; error_rate := Some 0 |}.

Definition merge (response_data : option PipelineData) : PipelineStats :=
  match response_data with
  | None => EMPTY_PIPELINE
  | Some data =>
      {| stages := Js.spread (stages EMPTY_PIPELINE) (data_stages data);
         funnel_rates := Js.spread (funnel_rates EMPTY_PIPELINE) (data_funnel_rates data);
         total_processed := Js.spread (total_processed EMPTY_PIPELINE) (data_total_processed data);
         avg_confidence := Js.spread (avg_confidence EMPTY_PIPELINE) (data_avg_confidence data);
         error_rate := Js.spread (error_rate EMPTY_PIPELINE) (data_error_rate data) |}
  end.

Definition getPipelineStats (server : settled (option PipelineData)) : promise PipelineStats :=
  try_catch
    (await response_data <~ request server;
     resolve (merge response_data))
    (fun _ => resolve EMPTY_PIPELINE).

End Stats.

(** ** api/auth.ts *)

Module AuthApi.
Import Browser Client Types.

Record LoginCredentials : Type := mkLoginCredentials {
  cred_username : string;
  cred_password : option string;     (* [password!] of an omitted argument *)
  cred_country : option string
}.

Record RegisterData : Type := mkRegisterData {
  reg_username : string;
  reg_password : string;
  reg_name : string;
  reg_role : option string;
  reg_country : option string
}.

Record LoginResponse : Type := mkLoginResponse {
  access_token : string;
  token_type : string;
  user : User
}.

Definition login (credentials : LoginCredentials) (server : settled LoginResponse)
  : promise LoginResponse :=
  await response_data <~ request server;
  resolve response_data.

Definition register (data : RegisterData) (server : settled User) : promise User :=
  await response_data <~ request server;
  resolve response_data.

End AuthApi.

(** ** context/AuthContext.tsx *)

Module AuthContext.
Import Browser Client Types.

(** The three [useState] cells of [AuthProvider]. *)
Record AuthState : Type := mkAuthState {
  user : option User;
  token : option string;
  loading : bool
}.

(** [useState(null)], [useState(null)], [useState(true)] *)
Definition initial : AuthState := mkAuthState None None true.

Definition setUser (u : option User) (s : AuthState) : AuthState :=
  mkAuthState u (token s) (loading s).

Definition setToken (t : option string) (s : AuthState) : AuthState :=
  mkAuthState (user s) t (loading s).

Definition setLoading (b : bool) (s : AuthState) : AuthState :=
  mkAuthState (user s) (token s) b.

(** [!!user && !!token] *)
Definition isAuthenticated (s : AuthState) : bool :=
  match user s with Some _ => true | None => false end
  && Js.truthy_opt_string (token s).

(** [user?.role === 'admin'] *)
Definition isAdmin (s : AuthState) : bool :=
  match user s with
  | Some u => String.eqb (role u) "admin"
  | None => false
  end.

Definition logout (s : AuthState) (w : World) : AuthState * World :=
  let w1 := removeItem "access_token" w in
  let w2 := removeItem "user" w1 in
  (setToken None (setUser None s), w2).

Definition register (data : AuthApi.RegisterData) (server : settled User) : promise User :=
  await newUser <~ AuthApi.register data server;
  resolve newUser.

Section WithJSON.

(** The platform's [JSON] object on user records.  [JSON_parse] gives [None]
    when it throws, [Some None] for the text [null], and the record
    otherwise. *)
Variable JSON_stringify : User -> string.
Variable JSON_parse : string -> option (option User).

(** The mount effect; [None] when it is aborted by an exception of
    [JSON.parse]. *)
Definition boot (w : World) (s : AuthState) : option AuthState :=
  let storedUser := getItem "user" w in
  let storedToken := getItem "access_token" w in
  let after_user :=
    match storedUser with
    | Some text =>
        if Js.truthy_string text then
          match JSON_parse text with
          | Some u => Some (setUser u s)
          | None => None
          end
        else Some s
    | None => Some s
    end in
  match after_user with
  | Some s1 =>
      let s2 :=
        match storedToken with
        | Some t => if Js.truthy_string t then setToken (Some t) s1 else s1
        | None => s1
        end in
      Some (setLoading false s2)
  | None => None
  end.

(** [login]: how the promise settles, the provider state and the browser
    state afterwards. *)
Definition login (usernameOrCredentials : string + AuthApi.LoginCredentials)
  (password country : option string) (server : settled AuthApi.LoginResponse)
  (s : AuthState) (w : World) : settled unit * AuthState * World :=
  let credentials :=
    match usernameOrCredentials with
    | inl username => AuthApi.mkLoginCredentials username password country
    | inr c => c
    end in
  match AuthApi.login credentials server w with
  | (Fulfilled response, w0) =>
      let w1 := setItem "access_token" (AuthApi.access_token response) w0 in
      let w2 := setItem "user" (JSON_stringify (AuthApi.user response)) w1 in
      let s1 := setUser (Some (AuthApi.user response)) s in
      let s2 := setToken (Some (AuthApi.access_token response)) s1 in
      (Fulfilled tt, s2, w2)
  | (Rejected e, w0) => (Rejected e, s, w0)
  end.

End WithJSON.

End AuthContext.

(** ** The crawl-status pollers of pages/CrawlPage and pages/Progress.tsx

    Both pages keep the handle of one repeating timer in [pollRef], call
    [getCrawlStatus] once at start and once per timer tick, and store the
    latest answer with a state setter.  The browser side is a table of
    active intervals and the set of requests not yet answered; the event
    loop picks which timer fires and which request is answered next.  The
    log [fetches] records every call of [getCrawlStatus]; what a request
    does to [localStorage] and the location on its way through the client
    is the business of [Client.request] and is not repeated here.
    [snapshot] is the last value handed to the state setter. *)

Module Poller.
Import Client Types.

(** Which continuation waits for a request: the [.then/.catch] chain of the
    first call, or the [await] inside the interval callback. *)
Inductive origin : Type := Initial | Tick.

Section WithJob.

(** What [getCrawlStatus] is asked for. *)
Context {Job : Type}.

(** An active [setInterval]: the crawl id captured by its callback. *)
Record interval : Type := mkInterval {
  crawlId : Job;
  delay : Z
}.

Record state : Type := mkState {
  snapshot : option CrawlStatusResponse;    (* [crawlStatus] / [crawl] *)
  error : string;
  pollRef : option positive;                (* [pollRef.current]; handles are positive *)
  cleanup_registered : bool;                (* the effect returned its cleanup *)
  timers : gmap positive interval;
  next_timer : positive;
  inflight : gmap positive (Job * origin);
  next_request : positive;
  fetches : list Job                        (* latest first *)
}.

(** [setCrawlStatus(status)] / [setCrawl(status)] *)
Definition setSnapshot (v : CrawlStatusResponse) (s : state) : state :=
  mkState (Some v) (error s) (pollRef s) (cleanup_registered s)
    (timers s) (next_timer s) (inflight s) (next_request s) (fetches s).

Definition setError (msg : string) (s : state) : state :=
  mkState (snapshot s) msg (pollRef s) (cleanup_registered s)
    (timers s) (next_timer s) (inflight s) (next_request s) (fetches s).

Definition set_pollRef (t : positive) (s : state) : state :=
  mkState (snapshot s) (error s) (Some t) (cleanup_registered s)
    (timers s) (next_timer s) (inflight s) (next_request s) (fetches s).

Definition set_cleanup_registered (b : bool) (s : state) : state :=
  mkState (snapshot s) (error s) (pollRef s) b
    (timers s) (next_timer s) (inflight s) (next_request s) (fetches s).

(** A call of [getCrawlStatus(j)]: the request leaves, its promise is
    pending. *)
Definition getCrawlStatus (j : Job) (o : origin) (s : state) : state :=
  mkState (snapshot s) (error s) (pollRef s) (cleanup_registered s)
    (timers s) (next_timer s)
    (<[next_request s := (j, o)]> (inflight s)) (Pos.succ (next_request s))
    (j :: fetches s).

Definition setInterval (j : Job) (ms : Z) (s : state) : positive * state :=
  (next_timer s,
   mkState (snapshot s) (error s) (pollRef s) (cleanup_registered s)
     (<[next_timer s := mkInterval j ms]> (timers s)) (Pos.succ (next_timer s))
     (inflight s) (next_request s) (fetches s)).

Definition clearInterval (t : positive) (s : state) : state :=
  mkState (snapshot s) (error s) (pollRef s) (cleanup_registered s)
    (delete t (timers s)) (next_timer s)
    (inflight s) (next_request s) (fetches s).

(** [if (pollRef.current) clearInterval(pollRef.current)] *)
Definition clear_current (s : state) : state :=
  match pollRef s with
  | Some t => clearInterval t s
  | None => s
  end.

(** [status === "completed" || status === "failed" || status === "stopped"] *)
Definition is_terminal (st : string) : bool :=
  String.eqb st "completed" || String.eqb st "failed" || String.eqb st "stopped".

(** The interval callback up to its [await]. *)
Definition interval_fires (t : positive) (s : state) : state :=
  match timers s !! t with
  | Some iv => getCrawlStatus (crawlId iv) Tick s
  | None => s
  end.

(** The interval callback after its [await], in the [try]. *)
Definition interval_resolved (v : CrawlStatusResponse) (s : state) : state :=
  let s1 := setSnapshot v s in
  if is_terminal (status v) then clear_current s1 else s1.

(** The interval callback after its [await], in the [catch]. *)
Definition interval_rejected (s : state) : state :=
  clear_current s.

(** The cleanup both effects return. *)
Definition cleanup (s : state) : state :=
  clear_current s.

(** React runs the cleanup the last effect run returned, if it returned
    one. *)
Definition teardown (s : state) : state :=
  if cleanup_registered s then cleanup s else s.

Definition forget_request (r : positive) (s : state) : state :=
  mkState (snapshot s) (error s) (pollRef s) (cleanup_registered s)
    (timers s) (next_timer s)
    (delete r (inflight s)) (next_request s) (fetches s).

(** At most one interval is active, and it is the one [pollRef] holds; with
    no cleanup registered, none is active. *)
Definition single_timer (s : state) : Prop :=
  (forall t iv, timers s !! t = Some iv -> pollRef s = Some t)
  /\ (cleanup_registered s = false -> timers s = ∅).

Section Events.

(** What differs between the two pages: how polling is started and what the
    [.catch] of the first request does. *)
Context {StartArg : Type}.
Variable start : StartArg -> state -> state.
Variable initial_rejected : state -> state.

(** Request [r] is answered: its continuation runs. *)
Definition settles (r : positive) (res : settled CrawlStatusResponse) (s : state) : state :=
  match inflight s !! r with
  | None => s
  | Some (_, o) =>
      let s1 := forget_request r s in
      match o, res with
      | Initial, Fulfilled v => setSnapshot v s1
      | Initial, Rejected _ => initial_rejected s1
      | Tick, Fulfilled v => interval_resolved v s1
      | Tick, Rejected _ => interval_rejected s1
      end
  end.

Inductive event : Type :=
| Start (a : StartArg)
| TimerFires (t : positive)
| Settles (r : positive) (res : settled CrawlStatusResponse)
| Teardown.

Definition step (s : state) (e : event) : state :=
  match e with
  | Start a => start a s
  | TimerFires t => interval_fires t s
  | Settles r res => settles r res s
  | Teardown => teardown s
  end.

Definition run (evs : list event) (s : state) : state :=
  fold_left step evs s.

Definition is_start (e : event) : bool :=
  match e with
  | Start _ => true
  | _ => false
  end.

(** No event of the list starts polling. *)
Definition no_start (evs : list event) : bool :=
  forallb (fun e => negb (is_start e)) evs.

End Events.

End WithJob.

Arguments state Job : clear implicits.
Arguments event StartArg : clear implicits.

(** *** pages/CrawlPage *)

Module CrawlPage.

(** On mount: nothing polls, and the effect (with an empty dependency list)
    has returned its cleanup. *)
Definition mounted : state Z :=
  mkState None "" None true ∅ 1%positive ∅ 1%positive [].

Definition pollStatus (crawlId : Z) (s : state Z) : state Z :=
  let s1 := getCrawlStatus crawlId Initial s in
  let s2 := clear_current s1 in
  let '(t, s3) := setInterval crawlId 2000 s2 in
  set_pollRef t s3.

(** [.catch(() => {})] *)
Definition initial_rejected (s : state Z) : state Z := s.

Definition step := step pollStatus initial_rejected.
Definition run := run pollStatus initial_rejected.

Definition reachable (s : state Z) : Prop :=
  exists evs, s = run evs mounted.

(** The cleanup of the mount effect stays registered for the life of the
    page. *)
Definition invariant (s : state Z) : Prop :=
  single_timer s /\ cleanup_registered s = true.

End CrawlPage.

(** *** pages/Progress.tsx *)

Module Progress.

(** The request is for [Number(crawlIdParam)]; it is identified here by the
    parameter text it is computed from.  [rendered] is the page before its
    effect has run for the first time. *)
Definition rendered : state string :=
  mkState None "" None false ∅ 1%positive ∅ 1%positive [].

(** The body of the effect, run when [crawlIdParam] changed. *)
Definition effect (crawlIdParam : option string) (s : state string) : state string :=
  match crawlIdParam with
  | Some id =>
      if negb (Js.truthy_string id) then set_cleanup_registered false s   (* [return;] *)
      else
        let s1 := getCrawlStatus id Initial s in
        let '(t, s2) := setInterval id 1500 s1 in
        set_cleanup_registered true (set_pollRef t s2)
  | None => set_cleanup_registered false s                                (* [return;] *)
  end.

(** A render with a new [crawlIdParam]: React runs the previous cleanup,
    then the effect. *)
Definition rerun (crawlIdParam : option string) (s : state string) : state string :=
  effect crawlIdParam (teardown s).

(** [.catch(() => setError("Could not load crawl status"))] *)
Definition initial_rejected (s : state string) : state string :=
  setError "Could not load crawl status" s.

Definition step := step rerun initial_rejected.
Definition run := run rerun initial_rejected.

Definition reachable (s : state string) : Prop :=
  exists evs, s = run evs rendered.

End Progress.

End Poller.

(** ** Concrete values used in the examples below *)

Module Sample.
Import Browser Client Types.

Definition resp401 : ErrorResponse :=
  mkErrorResponse 401 (Some (Text "Not authenticated")).
Definition resp500 : ErrorResponse := mkErrorResponse 500 None.

Definition err401 : AxiosError := mkAxiosError "/api/documents" (Some resp401).
Definition err500 : AxiosError := mkAxiosError "/api/documents" (Some resp500).
Definition login401 : AxiosError := mkAxiosError "/api/auth/login" (Some resp401).
(** No response at all: the network is unreachable. *)
Definition err_network : AxiosError := mkAxiosError "/api/crawl/7/status" None.

Definition signed_in_store : gmap string string :=
  <["user" := "{ }"]> (<["access_token" := "abc"]> ∅).

Definition w_library : World := mkWorld signed_in_store "/library" [].
Definition w_login : World := mkWorld signed_in_store "/login" [].
Definition w_empty : World := mkWorld ∅ "/login" [].

Definition alice : User := mkUser 1 "alice" "Alice" "admin" "NZ" None.

Definition doc1 : Document :=
  mkDocument 1 "https://example.org/a.pdf" "AA" "NZ" "Home" "PDS" "policy" "pending".

(** Stand-ins for [JSON.stringify] and [JSON.parse] in closed examples: the
    user is written as its user name, and only the text [null] parses. *)
Definition stringify_by_name (u : User) : string := username u.
Definition parse_null_only (text : string) : option (option User) :=
  if String.eqb text "null" then Some None else None.

(** A store left with a token and no user. *)
Definition w_token_only : World :=
  mkWorld (<["access_token" := "stale"]> ∅) "/login" [].

Definition crawl7 (st : string) : CrawlStatusResponse :=
  mkCrawlStatusResponse 7 st "NZ" 40 10 3 2 0 0 None None.

End Sample.

(** ** api/client.ts, the request side, and the pages around the session *)

Module ClientRequest.
Import Browser Client.

(** The part of [InternalAxiosRequestConfig] the interceptor touches. *)
Record RequestConfig : Type := mkRequestConfig {
  config_url : string;
  headers : gmap string string
}.

(** The headers [axios.create] was given. *)
Definition default_headers : gmap string string :=
  <["Content-Type" := "application/json"]> ∅.

(** The request interceptor, fulfilled side. *)
Definition request_fulfilled (config : RequestConfig) (w : World) : RequestConfig :=
  match getItem "access_token" w with
  | Some token =>
      if Js.truthy_string token
      then mkRequestConfig (config_url config)
             (<["Authorization" := "Bearer " ++ token]> (headers config))
      else config
  | None => config
  end.

(** What one 401 leaves of a browser state. *)
Definition torn_down (w : World) : World :=
  let w2 := removeItem "user" (removeItem "access_token" w) in
  if on_login_page w then w2 else assign_href "/login" w2.

(** An assignment to [window.location.href] starts a navigation, and until
    the new document is there the scripts of the page still read the
    [pathname] of the document they run in: [w] as seen from the document
    of [w0]. *)
Definition in_document (w0 w : World) : World :=
  mkWorld (localStorage w) (pathname w0) (href_assignments w).

(** The browser state after the response interceptor has seen each of the
    rejections in turn, all of them in the document of [w]. *)
Definition after_rejections (errors : list AxiosError) (w : World) : World :=
  fold_left (fun w' error => in_document w (snd (@response_rejected unit error w')))
    errors w.

End ClientRequest.

(** [useNavigate] of react-router: the location changes through the
    history API, no assignment to [window.location.href]. *)
Module Router.
Import Browser.

Definition navigate (to : string) (w : World) : World :=
  mkWorld (localStorage w) to (href_assignments w).

End Router.

(** ** api/auth.ts, the module-level exports *)

Module AuthExports.
Import Browser Client Types.

(** [login(credentials)] *)
Definition login (credentials : AuthApi.LoginCredentials)
  (server : settled AuthApi.LoginResponse) : promise AuthApi.LoginResponse :=
  AuthApi.login credentials server.

(** [register(usernameOrData, password?, name?, country?)] *)
Definition register (usernameOrData : string + AuthApi.RegisterData)
  (password name : string) (country : option string)
  (server : settled User) : promise User :=
  match usernameOrData with
  | inl username =>
      AuthApi.register (AuthApi.mkRegisterData username password name None country) server
  | inr data => AuthApi.register data server
  end.

End AuthExports.

(** ** components/ProtectedRoute.tsx and components/layout/Layout.tsx *)

Module Routes.
Import Browser Client Types.

Inductive element : Type :=
| Children
| Navigate (to : string).

Definition ProtectedRoute (s : AuthContext.AuthState) : element :=
  if negb (AuthContext.isAuthenticated s) then Navigate "/login" else Children.

(** [Layout.handleLogout] *)
Definition handleLogout (s : AuthContext.AuthState) (w : World)
  : AuthContext.AuthState * World :=
  let '(s1, w1) := AuthContext.logout s w in
  (s1, Router.navigate "/login" w1).

End Routes.

(** ** pages/Login.tsx and pages/Register.tsx *)

Module Forms.
Import Browser Client Types.

(** The form state both pages keep; [name] and [country] are used by the
    registration page only.  The [error] cell is declared a text and starts
    as the empty text; [setError] stores whatever it is given, so after a
    failure the cell holds the server's detail as it came. *)
Record form : Type := mkForm {
  name : string;
  username : string;
  password : string;
  country : string;
  error : DetailValue;
  loading : bool
}.

Definition setError (msg : DetailValue) (f : form) : form :=
  mkForm (name f) (username f) (password f) (country f) msg (loading f).

(** [error && (...)], the test in front of the error banner. *)
Definition has_error (f : form) : bool :=
  match error f with
  | Text s => Js.truthy_string s
  | Structured _ => true
  end.

Definition setLoading (b : bool) (f : form) : form :=
  mkForm (name f) (username f) (password f) (country f) (error f) b.

(** [err?.response?.data?.detail || fallback]: the detail when it is
    truthy, a text or not; the fallback text otherwise. *)
Definition detail_or (err : AxiosError) (fallback : string) : DetailValue :=
  match response err with
  | Some r =>
      match detail r with
      | Some (Text d) => if Js.truthy_string d then Text d else Text fallback
      | Some (Structured j) => Structured j
      | None => Text fallback
      end
  | None => Text fallback
  end.

Section WithJSON.
Variable JSON_stringify : User -> string.

(** [Login.handleSubmit] *)
Definition login_handleSubmit (server : settled AuthApi.LoginResponse)
  (f : form) (s : AuthContext.AuthState) (w : World)
  : form * AuthContext.AuthState * World :=
  let f1 := setLoading true (setError (Text "") f) in
  match AuthContext.login JSON_stringify (inl (username f)) (Some (password f)) None
          server s w with
  | (Fulfilled _, s1, w1) =>
      (setLoading false f1, s1, Router.navigate "/dashboard" w1)
  | (Rejected err, s1, w1) =>
      (setLoading false
         (setError (detail_or err "Login failed — check your credentials.") f1),
       s1, w1)
  end.

(** [Register.handleSubmit]: [server_login] is consulted only if the
    registration was accepted. *)
Definition register_handleSubmit (server_register : settled User)
  (server_login : settled AuthApi.LoginResponse)
  (f : form) (s : AuthContext.AuthState) (w : World)
  : form * AuthContext.AuthState * World :=
  let f1 := setLoading true (setError (Text "") f) in
  match AuthExports.register (inl (username f)) (password f) (name f)
          (Some (country f)) server_register w with
  | (Fulfilled _, w0) =>
      match AuthContext.login JSON_stringify (inl (username f)) (Some (password f))
              (Some (country f)) server_login s w0 with
      | (Fulfilled _, s1, w1) =>
          (setLoading false f1, s1, Router.navigate "/dashboard" w1)
      | (Rejected err, s1, w1) =>
          (setLoading false
             (setError (detail_or err "Registration failed. Please try again.") f1),
           s1, w1)
      end
  | (Rejected err, w0) =>
      (setLoading false
         (setError (detail_or err "Registration failed. Please try again.") f1),
       s, w0)
  end.

End WithJSON.

End Forms.

(** More concrete values for the examples of the second part. *)
Module Fixture.
Import Browser Client Types.

(** A pair of functions that round-trips the one user of the examples. *)
Definition stringify_alice (u : User) : string := "{alice}".
Definition parse_alice (text : string) : option (option User) :=
  if String.eqb text "{alice}" then Some (Some Sample.alice) else None.

Definition login_ok : AuthApi.LoginResponse :=
  AuthApi.mkLoginResponse "abc" "bearer" Sample.alice.

Definition get_documents : ClientRequest.RequestConfig :=
  ClientRequest.mkRequestConfig "/api/documents" ClientRequest.default_headers.

Definition err422 : AxiosError :=
  mkAxiosError "/api/auth/register"
    (Some (mkErrorResponse 422 (Some (Text "Username already registered")))).

(** A validation error of the API: [detail] is a list with one error
    object (its text is written with ' for the quotation marks). *)
Definition validation_errors : string :=
  "[{'loc':['body','username'],'msg':'field required','type':'value_error.missing'}]".

Definition err422_list : AxiosError :=
  mkAxiosError "/api/auth/register"
    (Some (mkErrorResponse 422 (Some (Structured validation_errors)))).

Definition blank_form : Forms.form :=
  Forms.mkForm "Alice" "alice" "secret" "NZ" (Text "") false.

End Fixture.

(** ** pages/Library.tsx and pages/Dashboard *)

Module LibraryPage.
Import Browser Client Types.

Record state : Type := mkState {
  docs : list Document;
  total : Z;
  page : Z;
  pages : Z;
  search : string;
  countryFilter : string;
  loading : bool
}.

(** The [useState] initial values. *)
Definition initial : state := mkState [] 0 1 1 "" "" true.

Definition setDocs (v : list Document) (s : state) : state :=
  mkState v (total s) (page s) (pages s) (search s) (countryFilter s) (loading s).
Definition setTotal (v : Z) (s : state) : state :=
  mkState (docs s) v (page s) (pages s) (search s) (countryFilter s) (loading s).
Definition setPage (v : Z) (s : state) : state :=
  mkState (docs s) (total s) v (pages s) (search s) (countryFilter s) (loading s).
Definition setPages (v : Z) (s : state) : state :=
  mkState (docs s) (total s) (page s) v (search s) (countryFilter s) (loading s).
Definition setSearch (v : string) (s : state) : state :=
  mkState (docs s) (total s) (page s) (pages s) v (countryFilter s) (loading s).
Definition setCountryFilter (v : string) (s : state) : state :=
  mkState (docs s) (total s) (page s) (pages s) (search s) v (loading s).
Definition setLoading (v : bool) (s : state) : state :=
  mkState (docs s) (total s) (page s) (pages s) (search s) (countryFilter s) v.

(** [x || undefined] for a string. *)
Definition or_undefined (x : string) : option string :=
  if Js.truthy_string x then Some x else None.

(** [{ search: search || undefined, country: countryFilter || undefined,
      page, limit: 20 }] *)
Definition filters (s : state) : Documents.DocumentFilters :=
  Documents.mkDocumentFilters None None (or_undefined (countryFilter s)) None
    (Some 20) (Some (page s)) (or_undefined (search s)) None.

(** [load]: with the envelope type of [searchLibrary] the chains
    [resp?.items ?? resp?.documents ?? []], [resp?.total ?? 0] and
    [resp?.pages ?? 1] are their first operands. *)
Definition load (server : settled (option Documents.DocumentsData))
  (s : state) (w : World) : state * World :=
  let s1 := setLoading true s in
  match Documents.getDocuments (filters s) server w with
  | (Fulfilled resp, w') =>
      (setLoading false
         (setPages (Documents.pages resp)
            (setTotal (Documents.total resp)
               (setDocs (Documents.items resp) s1))), w')
  | (Rejected _, w') => (setLoading false s1, w')             (* [catch { }] *)
  end.

(** The [onChange] handlers of the search box and the country select. *)
Definition onSearch (text : string) (s : state) : state :=
  setPage 1 (setSearch text s).
Definition onCountry (code : string) (s : state) : state :=
  setPage 1 (setCountryFilter code s).

(** [setPage((p) => Math.max(1, p - 1))] *)
Definition previous (s : state) : state := setPage (Z.max 1 (page s - 1)) s.

(** [setPage((p) => Math.min(pages, p + 1))] *)
Definition next (s : state) : state := setPage (Z.min (pages s) (page s + 1)) s.

End LibraryPage.

Module DashboardPage.
Import Browser Client Types.

Record counts : Type := mkCounts {
  total : Z;
  needsReview : Z;
  approved : Z
}.

Record state : Type := mkState {
  stats : option PipelineStats;
  docCounts : counts;
  loading : bool
}.

Definition initial : state := mkState None (mkCounts 0 0 0) true.

(** [{ limit: 1 }] *)
Definition one_document : Documents.DocumentFilters :=
  Documents.mkDocumentFilters None None None None (Some 1) None None None.

(** [load]: the two requests of [Promise.all] are both under way;
    [stats_first] tells which answer the response interceptor sees
    first. *)
Definition load (server_stats : settled (option Stats.PipelineData))
  (server_documents : settled (option Documents.DocumentsData))
  (stats_first : bool) (s : state) (w : World) : state * World :=
  let '(rs, rd, w') :=
    if stats_first then
      let '(rs, w1) := Stats.getPipelineStats server_stats w in
      let '(rd, w2) := Documents.getDocuments one_document server_documents w1 in
      (rs, rd, w2)
    else
      let '(rd, w1) := Documents.getDocuments one_document server_documents w in
      let '(rs, w2) := Stats.getPipelineStats server_stats w1 in
      (rs, rd, w2) in
  match rs, rd with
  | Fulfilled st, Fulfilled all =>
      (mkState (Some st)
         (mkCounts (Documents.total all) 0 (Documents.total all)) false, w')
  | _, _ => (mkState (stats s) (docCounts s) false, w')      (* [catch] logs *)
  end.

(** [stats?.stages ? Object.values(stats.stages) : []]; only the maximum of
    the values is used, so the order in which the map is listed does not
    matter. *)
Definition stageValues (s : state) : list Z :=
  match stats s with
  | Some st =>
      match stages st with
      | Some counts => (map_to_list counts).*2
      | None => []
      end
  | None => []
  end.

(** [stageValues.length > 0 ? Math.max(...stageValues, 1) : 1] *)
Definition maxStageValue (s : state) : Z :=
  match stageValues s with
  | [] => 1
  | vs => foldr Z.max 1 vs
  end.

End DashboardPage.

(** ** The seed list of pages/CrawlPage and pages/Setup

    [seedUrls.split("\n").map((u) => u.trim()).filter(Boolean)].  A text
    is the sequence of bytes of its UTF-8 encoding; [trim] removes the
    WhiteSpace and LineTerminator code points of ECMAScript, each written
    here as its bytes. *)

Module SeedUrls.
Import Stdlib.Strings.Ascii Stdlib.Strings.String.

Definition bytes (codes : list nat) : list ascii := map ascii_of_nat codes.

Definition LF : ascii := ascii_of_nat 10.

Definition whitespace : list (list ascii) :=
  map bytes
    [ [9%nat]; [10%nat]; [11%nat]; [12%nat]; [13%nat]; [32%nat];   (* TAB LF VT FF CR SP *)
      [194; 160]%nat;                                            (* U+00A0 *)
      [225; 154; 128]%nat;                                       (* U+1680 *)
      [226; 128; 128]%nat; [226; 128; 129]%nat; [226; 128; 130]%nat;
      [226; 128; 131]%nat; [226; 128; 132]%nat; [226; 128; 133]%nat;
      [226; 128; 134]%nat; [226; 128; 135]%nat; [226; 128; 136]%nat;
      [226; 128; 137]%nat; [226; 128; 138]%nat;                  (* U+2000 .. U+200A *)
      [226; 128; 168]%nat; [226; 128; 169]%nat;                  (* U+2028 U+2029 *)
      [226; 128; 175]%nat;                                       (* U+202F *)
      [226; 129; 159]%nat;                                       (* U+205F *)
      [227; 128; 128]%nat;                                       (* U+3000 *)
      [239; 187; 191]%nat ].                                     (* U+FEFF *)

(** [Some rest] when [s] starts with [tok]. *)
Fixpoint strip_prefix (tok s : list ascii) : option (list ascii) :=
  match tok, s with
  | [], _ => Some s
  | t :: tok', c :: s' => if Ascii.eqb t c then strip_prefix tok' s' else None
  | _ :: _, [] => None
  end.

(** [Some rest] when [s] starts with one of [toks]. *)
Fixpoint strip_any (toks : list (list ascii)) (s : list ascii) : option (list ascii) :=
  match toks with
  | [] => None
  | tok :: others =>
      match strip_prefix tok s with
      | Some rest => Some rest
      | None => strip_any others s
      end
  end.

(** Drop leading tokens, at most [n] of them. *)
Fixpoint drop_leading (toks : list (list ascii)) (n : nat) (s : list ascii) : list ascii :=
  match n with
  | O => s
  | S n' =>
      match strip_any toks s with
      | Some rest => drop_leading toks n' rest
      | None => s
      end
  end.

Definition trimStart (s : list ascii) : list ascii :=
  drop_leading whitespace (List.length s) s.

Definition trimEnd (s : list ascii) : list ascii :=
  rev (drop_leading (map (@rev ascii) whitespace) (List.length s) (rev s)).

Definition trim_bytes (s : list ascii) : list ascii := trimEnd (trimStart s).

(** [s.split("\n")] *)
Fixpoint split_lines (s : list ascii) : list (list ascii) :=
  match s with
  | [] => [[]]
  | c :: r =>
      if Ascii.eqb c LF then [] :: split_lines r
      else
        match split_lines r with
        | line :: others => (c :: line) :: others
        | [] => [[c]]
        end
  end.

(** [lines.join("\n")] *)
Fixpoint join_lines (lines : list (list ascii)) : list ascii :=
  match lines with
  | [] => []
  | [line] => line
  | line :: others => (line ++ LF :: join_lines others)%list
  end.

Definition nonempty (s : list ascii) : bool :=
  match s with
  | [] => false
  | _ :: _ => true
  end.

Definition parse_bytes (s : list ascii) : list (list ascii) :=
  List.filter nonempty (map trim_bytes (split_lines s)).

(** [u.trim()] *)
Definition trim (u : string) : string :=
  string_of_list_ascii (trim_bytes (list_ascii_of_string u)).

(** [urls.join("\n")] *)
Definition join (urls : list string) : string :=
  string_of_list_ascii (join_lines (map list_ascii_of_string urls)).

(** [text.split("\n").map((u) => u.trim()).filter(Boolean)] *)
Definition seed_urls (text : string) : list string :=
  map string_of_list_ascii (parse_bytes (list_ascii_of_string text)).

End SeedUrls.

(** ** pages/CrawlPage, starting a crawl *)

Module CrawlPageView.
Import Browser Client Types.

Record view : Type := mkView {
  country : string;
  seedUrls : string;
  maxPages : Z;
  maxTime : Z;
  starting : bool;
  poll : Poller.state Z      (* [crawlStatus], [error] and [pollRef] *)
}.

Definition DEFAULT_seed_urls : list string :=
  [ "https://www.aainsurance.co.nz/products";
    "https://www.ami.co.nz/insurance";
    "https://www.tower.co.nz/products" ].
Definition DEFAULT_policy_types : list string := ["Life"; "Home"; "Motor"].
Definition DEFAULT_keywords : list string :=
  ["PDS"; "Policy Wording"; "Fact Sheet"; "TMD"].

(** The [useState] initial values. *)
Definition initial : view :=
  mkView "NZ" (SeedUrls.join DEFAULT_seed_urls) 1000 60 false Poller.CrawlPage.mounted.

Definition config_of (v : view) : CrawlConfig :=
  {| config_country := country v;
     seed_urls := SeedUrls.seed_urls (seedUrls v);
     policy_types := DEFAULT_policy_types;
     keywords := DEFAULT_keywords;
     max_pages := maxPages v;
     max_time := maxTime v |}.

Definition set_poll (p : Poller.state Z) (v : view) : view :=
  mkView (country v) (seedUrls v) (maxPages v) (maxTime v) (starting v) p.

Definition setStarting (b : bool) (v : view) : view :=
  mkView (country v) (seedUrls v) (maxPages v) (maxTime v) b (poll v).

(** [typeof msg === "string" ? msg : JSON.stringify(msg)] *)
Definition error_text (msg : DetailValue) : string :=
  match msg with
  | Text s => s
  | Structured stringified => stringified
  end.

(** [handleStart], from the click to the end of the function. *)
Definition handleStart (server : settled Crawl) (v : view) (w : World) : view * World :=
  let v1 := setStarting true (set_poll (Poller.setError "" (poll v)) v) in
  match CrawlApi.startCrawl (config_of v1) server w with
  | (Fulfilled result, w') =>
      (setStarting false
         (set_poll (Poller.CrawlPage.pollStatus (crawl_id result) (poll v1)) v1), w')
  | (Rejected err, w') =>
      let msg := Forms.detail_or err "Failed to start crawl." in
      (setStarting false
         (set_poll (Poller.setError (error_text msg) (poll v1)) v1), w')
  end.

(** [disabled={starting || crawlStatus?.status === "running"}] *)
Definition start_disabled (v : view) : bool :=
  starting v
  || match Poller.snapshot (poll v) with
     | Some st => String.eqb (status st) "running"
     | None => false
     end.

End CrawlPageView.

(** * Properties *)

(** ** The response interceptor *)

Section Interceptor.
Import Browser Client.

Lemma is_unauthorized_401 (error : AxiosError) (r : ErrorResponse) :
  response error = Some r -> status r = 401 -> is_unauthorized error = true.
Proof.
  intros Hr Hs. unfold is_unauthorized. rewrite Hr, Hs. reflexivity.
Qed.

Lemma is_unauthorized_other (error : AxiosError) :
  (forall r, response error = Some r -> status r <> 401) ->
  is_unauthorized error = false.
Proof.
  intros H. unfold is_unauthorized.
  destruct (response error) as [r|] eqn:Hr; [|reflexivity].
  apply Z.eqb_neq. apply H. reflexivity.
Qed.

(** What a 401 leaves behind, as one function of the browser state. *)
Lemma response_rejected_unauthorized (T : Type) (error : AxiosError) (w : World) :
  is_unauthorized error = true ->
  @response_rejected T error w =
    (Rejected error,
     let w2 := removeItem "user" (removeItem "access_token" w) in
     if on_login_page w then w2 else assign_href "/login" w2).
Proof.
  intros H. unfold response_rejected, reject. rewrite H. cbn zeta.
  replace (on_login_page (removeItem "user" (removeItem "access_token" w)))
    with (on_login_page w) by reflexivity.
  destruct (on_login_page w); reflexivity.
Qed.

Lemma response_rejected_other (T : Type) (error : AxiosError) (w : World) :
  is_unauthorized error = false ->
  @response_rejected T error w = (Rejected error, w).
Proof.
  intros H. unfold response_rejected, reject. rewrite H. reflexivity.
Qed.

Lemma cons_neq_self {A : Type} (x : A) (l : list A) : l <> x :: l.
Proof.
  intros H. apply (f_equal (@length A)) in H. cbn in H. lia.
Qed.

End Interceptor.

(** C1. On an error whose status is 401 the response interceptor removes
    the token and the cached user from [localStorage] (and nothing else),
    assigns [window.location.href = '/login'] if and only if the path name
    does not already start with [/login], and rejects with the error it
    was given.  The same browser state results whichever of the five
    resource clients (auth, documents, crawl, stats, audit) sent the
    request. *)
Theorem unauthorized_response_tears_down_session :
  forall (T : Type) (error : Client.AxiosError) (r : Client.ErrorResponse)
         (w : Browser.World),
    Client.response error = Some r ->
    Client.status r = 401 ->
    exists w' : Browser.World,
      @Client.response_rejected T error w = (Client.Rejected error, w')
      /\ Browser.getItem "access_token" w' = None
      /\ Browser.getItem "user" w' = None
      /\ (forall k, k <> "access_token" -> k <> "user" ->
            Browser.getItem k w' = Browser.getItem k w)
      /\ (Browser.href_assignments w' = "/login" :: Browser.href_assignments w
          <-> Client.on_login_page w = false)
      /\ (Client.on_login_page w = false -> Browser.pathname w' = "/login")
      /\ (Client.on_login_page w = true ->
            Browser.pathname w' = Browser.pathname w
            /\ Browser.href_assignments w' = Browser.href_assignments w)
      /\ (forall credentials,
            AuthApi.login credentials (Client.Rejected error) w
            = (Client.Rejected error, w'))
      /\ (forall filters,
            snd (Documents.getDocuments filters (Client.Rejected error) w) = w')
      /\ (forall crawlId,
            CrawlApi.getCrawlStatus crawlId (Client.Rejected error) w
            = (Client.Rejected error, w'))
      /\ snd (Stats.getPipelineStats (Client.Rejected error) w) = w'
      /\ (forall filters,
            snd (Audit.getAuditLog filters (Client.Rejected error) w) = w').
Proof.
  intros T error r w Hr Hs.
  pose proof (is_unauthorized_401 error r Hr Hs) as Hu.
  eexists. split; [apply response_rejected_unauthorized; exact Hu|].
  cbn zeta.
  assert (Hget : forall k,
    Browser.getItem k
      (if Client.on_login_page w
       then Browser.removeItem "user" (Browser.removeItem "access_token" w)
       else Browser.assign_href "/login"
              (Browser.removeItem "user" (Browser.removeItem "access_token" w)))
    = delete "user" (delete "access_token" (Browser.localStorage w)) !! k).
  { intros k. destruct (Client.on_login_page w); reflexivity. }
  repeat split.
  - rewrite Hget. rewrite lookup_delete_ne by discriminate.
    apply lookup_delete_eq.
  - rewrite Hget. apply lookup_delete_eq.
  - intros k Hk1 Hk2. rewrite Hget.
    rewrite lookup_delete_ne by congruence.
    rewrite lookup_delete_ne by congruence. reflexivity.
  - destruct (Client.on_login_page w); [|reflexivity].
    cbn. intros H. symmetry in H. exfalso. eapply cons_neq_self. symmetry. exact H.
  - intros H. rewrite H. reflexivity.
  - intros H. rewrite H. reflexivity.
  - rewrite H. reflexivity.
  - rewrite H. reflexivity.
  - intros credentials. unfold AuthApi.login, Client.bind, Client.request.
    rewrite (response_rejected_unauthorized _ error w Hu). reflexivity.
  - intros filters.
    unfold Documents.getDocuments, Client.try_catch, Client.bind, Client.request.
    rewrite (response_rejected_unauthorized _ error w Hu). reflexivity.
  - intros crawlId. unfold CrawlApi.getCrawlStatus, Client.bind, Client.request.
    rewrite (response_rejected_unauthorized _ error w Hu). reflexivity.
  - unfold Stats.getPipelineStats, Client.try_catch, Client.bind, Client.request.
    rewrite (response_rejected_unauthorized _ error w Hu). reflexivity.
  - intros filters.
    unfold Audit.getAuditLog, Client.try_catch, Client.bind, Client.request.
    rewrite (response_rejected_unauthorized _ error w Hu). reflexivity.
Qed.

Lemma unauthorized_response_tears_down_session_witness :
  Client.response Sample.err401 = Some Sample.resp401
  /\ Client.status Sample.resp401 = 401
  /\ exists w' : Browser.World,
       @Client.response_rejected unit Sample.err401 Sample.w_library
       = (Client.Rejected Sample.err401, w')
       /\ Browser.getItem "access_token" w' = None
       /\ Browser.getItem "user" w' = None
       /\ Browser.pathname w' = "/login".
Proof.
  split; [reflexivity|]. split; [reflexivity|].
  destruct (unauthorized_response_tears_down_session unit Sample.err401
              Sample.resp401 Sample.w_library eq_refl eq_refl)
    as (w' & H1 & H2 & H3 & _ & _ & H4 & _).
  exists w'. repeat split; [exact H1|exact H2|exact H3|].
  apply H4. reflexivity.
Defined.

(** C10. On an error whose status is not 401 (or that carries no response
    at all) the response interceptor returns the browser state it was
    given, so [localStorage] keeps the token and the cached user and no
    navigation happens, and it rejects with the error it was given. *)
Theorem other_error_leaves_session_alone :
  forall (T : Type) (error : Client.AxiosError) (w : Browser.World),
    (forall r, Client.response error = Some r -> Client.status r <> 401) ->
    @Client.response_rejected T error w = (Client.Rejected error, w).
Proof.
  intros T error w H.
  apply response_rejected_other. apply is_unauthorized_other. exact H.
Qed.

Lemma other_error_leaves_session_alone_witness :
  (forall r, Client.response Sample.err500 = Some r -> Client.status r <> 401)
  /\ @Client.response_rejected unit Sample.err500 Sample.w_library
     = (Client.Rejected Sample.err500, Sample.w_library).
Proof.
  assert (H : forall r, Client.response Sample.err500 = Some r ->
                        Client.status r <> 401).
  { intros r Hr. injection Hr as <-. discriminate. }
  split; [exact H|].
  exact (other_error_leaves_session_alone unit Sample.err500 Sample.w_library H).
Defined.

(** ** Resource clients *)

(** C8, as the code has it.  Whenever the request is rejected,
    [getDocuments] resolves with its constant [EMPTY_RESPONSE] and
    [getAuditLog] resolves with
    [{entries: [], total: 0, page: 1, page_size: 50}] whatever the filters
    (so whatever limit was asked for); [getDocument], [approveDocument],
    [deleteDocument] and [startCrawl] reject with the same error.  A body
    that is not JSON is no rejection: the request is fulfilled with the
    text.  [getAuditLog] then still resolves with the module defaults
    whatever the filters.  [getDocuments] resolves with no documents,
    [total] 0, [pages] 1 and the default [limit], [offset] and [has_more],
    but with [page] and [page_size] read from the filters: [filters.page]
    and [filters.limit] when they are there and not 0, 1 and 20
    otherwise. *)
Theorem list_clients_swallow_detail_clients_propagate :
  forall (error : Client.AxiosError) (text : string) (w : Browser.World),
    (forall filters,
       fst (Documents.getDocuments filters (Client.Rejected error) w)
       = Client.Fulfilled
           {| Documents.documents := []; Documents.total := 0;
              Documents.limit := Some 20; Documents.offset := Some 0;
              Documents.has_more := Some false; Documents.items := [];
              Documents.pages := 1; Documents.page := 1;
              Documents.page_size := 20 |})
    /\ (forall filters,
          fst (Audit.getAuditLog filters (Client.Rejected error) w)
          = Client.Fulfilled
              {| Audit.entries := Some []; Audit.total := Some 0;
                 Audit.page := Some 1; Audit.page_size := Some 50 |})
    /\ (forall documentId,
          fst (Documents.getDocument documentId (Client.Rejected error) w)
          = Client.Rejected error)
    /\ (forall documentId,
          fst (Documents.approveDocument documentId (Client.Rejected error) w)
          = Client.Rejected error)
    /\ (forall documentId,
          fst (Documents.deleteDocument documentId (Client.Rejected error) w)
          = Client.Rejected error)
    /\ (forall config,
          fst (CrawlApi.startCrawl config (Client.Rejected error) w)
          = Client.Rejected error)
    /\ (forall filters,
          Audit.getAuditLog filters (Client.Fulfilled (Audit.text_body text)) w
          = (Client.Fulfilled
               {| Audit.entries := Some []; Audit.total := Some 0;
                  Audit.page := Some 1; Audit.page_size := Some 50 |}, w))
    /\ (forall filters,
          exists r,
            Documents.getDocuments filters
              (Client.Fulfilled (Documents.text_body text)) w
            = (Client.Fulfilled r, w)
            /\ Documents.documents r = [] /\ Documents.items r = []
            /\ Documents.total r = 0 /\ Documents.pages r = 1
            /\ Documents.limit r = Some 20 /\ Documents.offset r = Some 0
            /\ Documents.has_more r = Some false
            /\ (forall n, Documents.filter_page filters = Some n -> n <> 0 ->
                  Documents.page r = n)
            /\ (Documents.filter_page filters = None
                \/ Documents.filter_page filters = Some 0 ->
                  Documents.page r = 1)
            /\ (forall n, Documents.filter_limit filters = Some n -> n <> 0 ->
                  Documents.page_size r = n)
            /\ (Documents.filter_limit filters = None
                \/ Documents.filter_limit filters = Some 0 ->
                  Documents.page_size r = 20)).
Proof.
  intros error text w.
  assert (Hrej : forall T, fst (@Client.response_rejected T error w) = Client.Rejected error).
  { intros T. unfold Client.response_rejected, Client.reject. reflexivity. }
  assert (Hswallow : forall T (P : T -> Prop),
             forall U (k : T -> Client.promise U) (h : Client.promise U) (x : U),
               (forall w', fst (h w') = Client.Fulfilled x) ->
               fst (Client.try_catch
                      (Client.bind (@Client.response_rejected T error) k)
                      (fun _ => h) w)
               = Client.Fulfilled x).
  { intros T _ U k h x Hh. unfold Client.try_catch, Client.bind.
    specialize (Hrej T).
    destruct (@Client.response_rejected T error w) as [res w'].
    cbn in Hrej. subst res. apply Hh. }
  assert (Hpropagate : forall T U (k : T -> Client.promise U),
             fst (Client.bind (@Client.response_rejected T error) k w)
             = Client.Rejected error).
  { intros T U k. unfold Client.bind. specialize (Hrej T).
    destruct (@Client.response_rejected T error w) as [res w'].
    cbn in Hrej. subst res. reflexivity. }
  split; [intros filters; apply (Hswallow _ (fun _ => True)); reflexivity|].
  split; [intros filters; apply (Hswallow _ (fun _ => True)); reflexivity|].
  split; [intros documentId; apply Hpropagate|].
  split; [intros documentId; apply Hpropagate|].
  split; [intros documentId; apply Hpropagate|].
  split; [intros config; apply Hpropagate|].
  split; [intros filters; reflexivity|].
  intros filters. eexists. split; [reflexivity|].
  assert (Hdata : Js.or_object (Documents.text_body text) Documents.empty_data
                  = Documents.empty_data).
  { unfold Documents.text_body. destruct (Js.truthy_string text); reflexivity. }
  unfold Documents.normalize. rewrite Hdata. cbn.
  split; [reflexivity|]. split; [reflexivity|]. split; [reflexivity|].
  split; [reflexivity|]. split; [reflexivity|]. split; [reflexivity|].
  split; [reflexivity|].
  split.
  { intros n Hn Hnz. rewrite Hn. cbn.
    destruct (Z.eqb_spec n 0); [contradiction|reflexivity]. }
  split.
  { intros [Hn|Hn]; rewrite Hn; reflexivity. }
  split.
  { intros n Hn Hnz. rewrite Hn. unfold Js.or_opt_number. cbn.
    destruct (Z.eqb_spec n 0); [contradiction|]. cbn.
    destruct (Z.eqb_spec n 0); [contradiction|reflexivity]. }
  intros [Hn|Hn]; rewrite Hn; reflexivity.
Qed.

Lemma list_clients_swallow_detail_clients_propagate_witness :
  exists r,
    Documents.getDocuments
      (Documents.mkDocumentFilters None None None None (Some 25) (Some 3) None None)
      (Client.Fulfilled (Documents.text_body "<html>")) Sample.w_library
    = (Client.Fulfilled r, Sample.w_library)
    /\ Documents.filter_page
         (Documents.mkDocumentFilters None None None None (Some 25) (Some 3) None None)
       = Some 3
    /\ 3 <> 0
    /\ Documents.page r = 3
    /\ Documents.page_size r = 25
    /\ Documents.total r = 0 /\ Documents.pages r = 1.
Proof.
  destruct (list_clients_swallow_detail_clients_propagate
              Sample.err_network "<html>" Sample.w_library)
    as (_ & _ & _ & _ & _ & _ & _ & H).
  destruct (H (Documents.mkDocumentFilters None None None None (Some 25) (Some 3) None None))
    as (r & Hr & _ & _ & Ht & Hpg & _ & _ & _ & Hp & _ & Hl & _).
  exists r. split; [exact Hr|]. split; [reflexivity|].
  split; [discriminate|].
  split; [apply (Hp 3 eq_refl); discriminate|].
  split; [apply (Hl 25 eq_refl); discriminate|].
  split; [exact Ht|exact Hpg].
Defined.

(** C8 as worded fails for a malformed body: the request is fulfilled with
    the text, and [getDocuments({limit: 100, page: 3})] resolves with
    [page_size = 100] and [page = 3], not with the all-defaults envelope. *)
Lemma malformed_body_counterexample :
  exists r,
    Documents.getDocuments
      (Documents.mkDocumentFilters None None None None (Some 100) (Some 3) None None)
      (Client.Fulfilled (Documents.text_body "<html>")) Sample.w_library
    = (Client.Fulfilled r, Sample.w_library)
    /\ Documents.page_size r = 100
    /\ Documents.page r = 3
    /\ r <> {| Documents.documents := []; Documents.total := 0;
               Documents.limit := Some 20; Documents.offset := Some 0;
               Documents.has_more := Some false; Documents.items := [];
               Documents.pages := 1; Documents.page := 1;
               Documents.page_size := 20 |}.
Proof.
  eexists. split; [reflexivity|].
  split; [reflexivity|]. split; [reflexivity|].
  vm_compute. discriminate.
Qed.

Section Pagination.
Import Browser Client Types.

(** [Math_ceil_div] is the ceiling of the quotient for a positive divisor. *)
Lemma Math_ceil_div_spec (a b : Z) :
  0 < b ->
  (Js.Math_ceil_div a b - 1) * b < a <= Js.Math_ceil_div a b * b.
Proof.
  intros Hb. unfold Js.Math_ceil_div.
  pose proof (Z.div_mod (- a) b ltac:(lia)) as Hdm.
  pose proof (Z.mod_pos_bound (- a) b Hb) as Hm.
  nia.
Qed.

Lemma Math_ceil_div_nonneg (a b : Z) :
  0 <= a -> 0 < b -> 0 <= Js.Math_ceil_div a b.
Proof.
  intros Ha Hb. pose proof (Math_ceil_div_spec a b Hb). nia.
Qed.

(** When the ceiling of the quotient is negative, for either sign of the
    divisor. *)
Lemma Math_ceil_div_sign (a b : Z) :
  b <> 0 ->
  (Js.Math_ceil_div a b < 0 <-> (0 < b /\ a <= - b) \/ (b < 0 /\ - b <= a)).
Proof.
  intros Hb. unfold Js.Math_ceil_div.
  pose proof (Z.div_mod (- a) b Hb) as Hdm.
  destruct (Z.lt_trichotomy b 0) as [Hn|[Hz|Hp]]; [|contradiction|].
  - pose proof (Z.mod_neg_bound (- a) b Hn) as Hm. split.
    + intros H. right. split; [exact Hn|]. nia.
    + intros [[H _]|[_ H]]; [lia|]. nia.
  - pose proof (Z.mod_pos_bound (- a) b Hp) as Hm. split.
    + intros H. left. split; [exact Hp|]. nia.
    + intros [[_ H]|[H _]]; [|lia]. nia.
Qed.

Lemma or_number_nonzero (o : option Z) (d : Z) :
  d <> 0 -> Js.or_number o d <> 0.
Proof.
  intros Hd. unfold Js.or_number. destruct o as [n|]; [|exact Hd].
  destruct (Z.eqb_spec n 0); assumption.
Qed.

Lemma or_number_lower (o : option Z) (d lo : Z) :
  lo <= d -> lo <= 1 -> (forall n, o = Some n -> 0 <= n) ->
  lo <= Js.or_number o d.
Proof.
  intros Hd Hlo Ho. unfold Js.or_number. destruct o as [n|]; [|exact Hd].
  specialize (Ho n eq_refl). destruct (Z.eqb_spec n 0); lia.
Qed.

Lemma getDocuments_fulfilled filters data (w : World) :
  Documents.getDocuments filters (Fulfilled data) w
  = (Fulfilled (Documents.normalize filters data), w).
Proof. reflexivity. Qed.

Lemma getAuditLog_fulfilled filters data (w : World) :
  Audit.getAuditLog filters (Fulfilled data) w
  = (Fulfilled (Audit.merge data), w).
Proof. reflexivity. Qed.

Lemma normalize_page_size_nonzero filters data :
  Documents.page_size (Documents.normalize filters data) <> 0.
Proof.
  cbn. apply or_number_nonzero. discriminate.
Qed.

End Pagination.

(** C7, as the code has it.  For every fulfilled [getDocuments] request the
    envelope's [pages] is [ceil(total / page_size)], with 1 in place of a
    quotient of 0: it is never 0, and whenever [total >= 0] and
    [page_size > 0] it is at least 1 and equals the larger of 1 and the
    ceiling.  It is negative exactly when [total / page_size <= -1]: when
    [page_size > 0] and [total <= -page_size], or [page_size < 0] and
    [total >= -page_size].  [getDocuments({})] against a body with one
    document, [total: 1] and no [limit] gives [pages = 1], [page_size = 20]
    and one item. *)
Theorem pages_is_ceiling_with_zero_replaced :
  (forall filters data (w : Browser.World),
     exists r,
       Documents.getDocuments filters (Client.Fulfilled data) w
       = (Client.Fulfilled r, w)
       /\ Documents.page_size r <> 0
       /\ Documents.pages r
          = (if Z.eqb (Js.Math_ceil_div (Documents.total r) (Documents.page_size r)) 0
             then 1
             else Js.Math_ceil_div (Documents.total r) (Documents.page_size r))
       /\ Documents.pages r <> 0
       /\ (Documents.pages r < 0 <->
             (0 < Documents.page_size r
              /\ Documents.total r <= - Documents.page_size r)
             \/ (Documents.page_size r < 0
                 /\ - Documents.page_size r <= Documents.total r))
       /\ (0 <= Documents.total r -> 0 < Documents.page_size r ->
             1 <= Documents.pages r
             /\ Documents.pages r
                = Z.max 1 (Js.Math_ceil_div (Documents.total r) (Documents.page_size r))
             /\ Documents.total r <= Documents.pages r * Documents.page_size r
             /\ (0 < Documents.total r ->
                   (Documents.pages r - 1) * Documents.page_size r
                   < Documents.total r)))
  /\ (forall (d : Types.Document) (w : Browser.World),
        exists r,
          Documents.getDocuments Documents.no_filters
            (Client.Fulfilled
               (Some (Documents.mkDocumentsData (Some [d]) (Some 1) None None None))) w
          = (Client.Fulfilled r, w)
          /\ Documents.pages r = 1
          /\ Documents.page_size r = 20
          /\ length (Documents.items r) = 1%nat).
Proof.
  split.
  - intros filters data w. eexists. split; [apply getDocuments_fulfilled|].
    set (r := Documents.normalize filters data).
    assert (Hps : Documents.page_size r <> 0) by apply normalize_page_size_nonzero.
    assert (Hpg : Documents.pages r
                  = Js.or_number
                      (Some (Js.Math_ceil_div (Documents.total r) (Documents.page_size r))) 1)
      by reflexivity.
    cbn [Js.or_number] in Hpg.
    set (c := Js.Math_ceil_div (Documents.total r) (Documents.page_size r)) in *.
    split; [exact Hps|]. split; [exact Hpg|].
    split; [rewrite Hpg; destruct (Z.eqb_spec c 0); lia|].
    split.
    { rewrite Hpg.
      pose proof (Math_ceil_div_sign (Documents.total r) (Documents.page_size r) Hps) as Hs.
      fold c in Hs. destruct (Z.eqb_spec c 0); lia. }
    intros Ht Hp.
    pose proof (Math_ceil_div_spec (Documents.total r) (Documents.page_size r) Hp) as Hc.
    pose proof (Math_ceil_div_nonneg _ _ Ht Hp) as Hc0.
    fold c in Hc, Hc0. rewrite Hpg.
    destruct (Z.eqb_spec c 0) as [Hz|Hz].
    + rewrite Hz in Hc. repeat split; lia.
    + repeat split; lia.
  - intros d w. eexists. split; [apply getDocuments_fulfilled|].
    repeat split.
Qed.

Lemma pages_is_ceiling_with_zero_replaced_witness :
  exists r,
    Documents.getDocuments (Documents.mkDocumentFilters None None None None (Some 20) (Some 2) None None)
      (Client.Fulfilled
         (Some (Documents.mkDocumentsData (Some [Sample.doc1]) (Some 41) None None None)))
      Sample.w_library
    = (Client.Fulfilled r, Sample.w_library)
    /\ 0 <= Documents.total r
    /\ 0 < Documents.page_size r
    /\ Documents.pages r = 3.
Proof.
  destruct pages_is_ceiling_with_zero_replaced as [H _].
  destruct (H (Documents.mkDocumentFilters None None None None (Some 20) (Some 2) None None)
              (Some (Documents.mkDocumentsData (Some [Sample.doc1]) (Some 41) None None None))
              Sample.w_library)
    as (r & Hr & _ & _ & _ & _ & Hb).
  exists r. split; [exact Hr|].
  rewrite getDocuments_fulfilled in Hr. injection Hr as <-.
  assert (Ht : 0 <= Documents.total
                      (Documents.normalize
                         (Documents.mkDocumentFilters None None None None (Some 20) (Some 2) None None)
                         (Some (Documents.mkDocumentsData (Some [Sample.doc1]) (Some 41) None None None))))
    by (cbn; lia).
  assert (Hp : 0 < Documents.page_size
                      (Documents.normalize
                         (Documents.mkDocumentFilters None None None None (Some 20) (Some 2) None None)
                         (Some (Documents.mkDocumentsData (Some [Sample.doc1]) (Some 41) None None None))))
    by (cbn; lia).
  destruct (Hb Ht Hp) as (_ & Hmax & _).
  split; [exact Ht|]. split; [exact Hp|].
  rewrite Hmax. reflexivity.
Defined.

(** C7 as worded fails: a body with [total: -25] and [limit: 20] gives
    [pages = -1], and [filters.limit = -20] against a body with [total: 40]
    gives [pages = -2]. *)
Lemma pages_floor_counterexample :
  (exists r,
     Documents.getDocuments Documents.no_filters
       (Client.Fulfilled
          (Some (Documents.mkDocumentsData (Some []) (Some (-25)) (Some 20) None None)))
       Sample.w_library
     = (Client.Fulfilled r, Sample.w_library)
     /\ Documents.pages r = -1
     /\ Documents.pages r
        <> Z.max 1 (Js.Math_ceil_div (Documents.total r) (Documents.page_size r)))
  /\ (exists r,
        Documents.getDocuments
          (Documents.mkDocumentFilters None None None None (Some (-20)) None None None)
          (Client.Fulfilled
             (Some (Documents.mkDocumentsData (Some []) (Some 40) None None None)))
          Sample.w_library
        = (Client.Fulfilled r, Sample.w_library)
        /\ Documents.pages r = -2).
Proof.
  split; eexists; (split; [apply getDocuments_fulfilled|]).
  - split; [reflexivity|]. vm_compute. discriminate.
  - reflexivity.
Qed.

(** C9, as the code has it.  Normalisation fills in defaults and does not
    clamp.  Documents: [total] is the body's [total] when that is a number
    other than 0, and 0 when it is missing, [null] or 0; [page] is
    [filters.page] when that is there and not 0, and 1 otherwise.  Audit
    log: [total] and [page] are what the body holds under these keys, a
    [null] included, and 0 and 1 when the key is missing.  So [total] is a
    number [>= 0] when the body's [total] is missing or a non-negative
    number (for documents also when it is [null]), and [page] is a number
    [>= 1] when the page supplied is missing or, for documents
    ([filters.page]), non-negative, for the audit log (the body's [page]), a
    number that is at least 1.  The envelopes returned for a rejected
    request have [total = 0] and [page = 1]. *)
Theorem envelope_bounds_follow_inputs :
  (forall filters data (w : Browser.World),
     exists r,
       Documents.getDocuments filters (Client.Fulfilled data) w
       = (Client.Fulfilled r, w)
       /\ (forall d n, data = Some d -> Documents.key_total d = Js.Value n ->
             n <> 0 -> Documents.total r = n)
       /\ ((forall d, data = Some d ->
              Documents.key_total d = Js.Missing
              \/ Documents.key_total d = Js.Null
              \/ Documents.key_total d = Js.Value 0) ->
             Documents.total r = 0)
       /\ (forall n, Documents.filter_page filters = Some n ->
             n <> 0 -> Documents.page r = n)
       /\ (Documents.filter_page filters = None
           \/ Documents.filter_page filters = Some 0 ->
             Documents.page r = 1)
       /\ ((forall d n, data = Some d -> Documents.key_total d = Js.Value n -> 0 <= n) ->
             0 <= Documents.total r)
       /\ ((forall n, Documents.filter_page filters = Some n -> 0 <= n) ->
             1 <= Documents.page r))
  /\ (forall filters data (w : Browser.World),
        exists r,
          Audit.getAuditLog filters (Client.Fulfilled data) w
          = (Client.Fulfilled r, w)
          /\ (forall d n, data = Some d -> Audit.data_total d = Js.Value n ->
                Audit.total r = Some n)
          /\ (forall d, data = Some d -> Audit.data_total d = Js.Null ->
                Audit.total r = None)
          /\ ((forall d, data = Some d -> Audit.data_total d = Js.Missing) ->
                Audit.total r = Some 0)
          /\ (forall d n, data = Some d -> Audit.data_page d = Js.Value n ->
                Audit.page r = Some n)
          /\ (forall d, data = Some d -> Audit.data_page d = Js.Null ->
                Audit.page r = None)
          /\ ((forall d, data = Some d -> Audit.data_page d = Js.Missing) ->
                Audit.page r = Some 1)
          /\ ((forall d, data = Some d ->
                 Audit.data_total d = Js.Missing
                 \/ exists n, Audit.data_total d = Js.Value n /\ 0 <= n) ->
                exists n, Audit.total r = Some n /\ 0 <= n)
          /\ ((forall d, data = Some d ->
                 Audit.data_page d = Js.Missing
                 \/ exists n, Audit.data_page d = Js.Value n /\ 1 <= n) ->
                exists n, Audit.page r = Some n /\ 1 <= n))
  /\ (forall filters error (w : Browser.World),
        exists r w',
          Documents.getDocuments filters (Client.Rejected error) w
          = (Client.Fulfilled r, w')
          /\ Documents.total r = 0 /\ Documents.page r = 1)
  /\ (forall filters error (w : Browser.World),
        exists r w',
          Audit.getAuditLog filters (Client.Rejected error) w
          = (Client.Fulfilled r, w')
          /\ Audit.total r = Some 0 /\ Audit.page r = Some 1).
Proof.
  split; [|split; [|split]].
  - intros filters data w. eexists. split; [apply getDocuments_fulfilled|].
    assert (Htot : Documents.total (Documents.normalize filters data)
                   = Js.or_number
                       (Documents.data_total (Js.or_object data Documents.empty_data)) 0)
      by reflexivity.
    assert (Hpage : Documents.page (Documents.normalize filters data)
                    = Js.or_number (Documents.filter_page filters) 1)
      by reflexivity.
    rewrite Htot, Hpage. unfold Documents.data_total.
    split.
    { intros d n -> Hn Hnz. cbn. rewrite Hn. cbn.
      destruct (Z.eqb_spec n 0); [contradiction|reflexivity]. }
    split.
    { intros H. destruct data as [d|]; [|reflexivity]. cbn.
      destruct (H d eq_refl) as [Hk|[Hk|Hk]]; rewrite Hk; reflexivity. }
    split.
    { intros n Hn Hnz. rewrite Hn. cbn.
      destruct (Z.eqb_spec n 0); [contradiction|reflexivity]. }
    split.
    { intros [Hn|Hn]; rewrite Hn; reflexivity. }
    split.
    { intros H. apply or_number_lower; [lia|lia|].
      intros n Hn. destruct data as [d|]; [|discriminate]. cbn in Hn.
      destruct (Documents.key_total d) as [| |m] eqn:Hk; try discriminate.
      injection Hn as ->. exact (H d n eq_refl Hk). }
    intros H. apply or_number_lower; [lia|lia|exact H].
  - intros filters data w. eexists. split; [apply getAuditLog_fulfilled|].
    split.
    { intros d n -> Hn. cbn. rewrite Hn. reflexivity. }
    split.
    { intros d -> Hn. cbn. rewrite Hn. reflexivity. }
    split.
    { intros H. destruct data as [d|]; [|reflexivity]. cbn.
      rewrite (H d eq_refl). reflexivity. }
    split.
    { intros d n -> Hn. cbn. rewrite Hn. reflexivity. }
    split.
    { intros d -> Hn. cbn. rewrite Hn. reflexivity. }
    split.
    { intros H. destruct data as [d|]; [|reflexivity]. cbn.
      rewrite (H d eq_refl). reflexivity. }
    split.
    { intros H. destruct data as [d|]; [|exists 0; split; [reflexivity|lia]]. cbn.
      destruct (H d eq_refl) as [Hk|(n & Hk & Hn)]; rewrite Hk; cbn.
      - exists 0. split; [reflexivity|lia].
      - exists n. split; [reflexivity|exact Hn]. }
    intros H. destruct data as [d|]; [|exists 1; split; [reflexivity|lia]]. cbn.
    destruct (H d eq_refl) as [Hk|(n & Hk & Hn)]; rewrite Hk; cbn.
    + exists 1. split; [reflexivity|lia].
    + exists n. split; [reflexivity|exact Hn].
  - intros filters error w.
    unfold Documents.getDocuments, Client.try_catch, Client.bind, Client.request.
    destruct (@Client.response_rejected (option Documents.DocumentsData) error w)
      as [res w'] eqn:Hrr.
    assert (res = Client.Rejected error) as ->.
    { unfold Client.response_rejected, Client.reject in Hrr. congruence. }
    eexists _, _. repeat split.
  - intros filters error w.
    unfold Audit.getAuditLog, Client.try_catch, Client.bind, Client.request.
    destruct (@Client.response_rejected (option Audit.AuditData) error w)
      as [res w'] eqn:Hrr.
    assert (res = Client.Rejected error) as ->.
    { unfold Client.response_rejected, Client.reject in Hrr. congruence. }
    eexists _, _. repeat split.
Qed.

Lemma envelope_bounds_follow_inputs_witness :
  (exists r,
     Documents.getDocuments
       (Documents.mkDocumentFilters None None None None (Some 20) (Some 2) None None)
       (Client.Fulfilled
          (Some (Documents.mkDocumentsData (Some [Sample.doc1]) (Some 41) None None None)))
       Sample.w_library
     = (Client.Fulfilled r, Sample.w_library)
     /\ Documents.total r = 41 /\ Documents.page r = 2
     /\ 0 <= Documents.total r /\ 1 <= Documents.page r)
  /\ (exists r,
        Documents.getDocuments Documents.no_filters
          (Client.Fulfilled
             (Some (Documents.mkBody Js.Missing Js.Null Js.Missing Js.Missing Js.Missing)))
          Sample.w_library
        = (Client.Fulfilled r, Sample.w_library)
        /\ Documents.total r = 0 /\ Documents.page r = 1)
  /\ (exists r,
        Audit.getAuditLog (Audit.mkAuditLogFilters None None None None (Some 25))
          (Client.Fulfilled
             (Some (Audit.mkAuditData Js.Missing (Js.Value 3) (Js.Value 1) Js.Missing)))
          Sample.w_library
        = (Client.Fulfilled r, Sample.w_library)
        /\ Audit.total r = Some 3 /\ Audit.page r = Some 1
        /\ (exists n, Audit.total r = Some n /\ 0 <= n)
        /\ (exists n, Audit.page r = Some n /\ 1 <= n))
  /\ (exists r,
        Audit.getAuditLog (Audit.mkAuditLogFilters None None None None (Some 25))
          (Client.Fulfilled
             (Some (Audit.mkAuditData Js.Missing Js.Null Js.Missing Js.Missing)))
          Sample.w_library
        = (Client.Fulfilled r, Sample.w_library)
        /\ Audit.total r = None /\ Audit.page r = Some 1).
Proof.
  destruct envelope_bounds_follow_inputs as (HD & HA & _ & _).
  split; [|split; [|split]].
  - destruct (HD (Documents.mkDocumentFilters None None None None (Some 20) (Some 2) None None)
                (Some (Documents.mkDocumentsData (Some [Sample.doc1]) (Some 41) None None None))
                Sample.w_library)
      as (r & Hr & Ht & _ & Hp & _ & Htb & Hpb).
    exists r. split; [exact Hr|].
    split; [apply (Ht _ 41 eq_refl eq_refl); lia|].
    split; [apply (Hp 2 eq_refl); lia|].
    split.
    + apply Htb. intros d n [= <-] [= <-]. lia.
    + apply Hpb. intros n [= <-]. lia.
  - destruct (HD Documents.no_filters
                (Some (Documents.mkBody Js.Missing Js.Null Js.Missing Js.Missing Js.Missing))
                Sample.w_library)
      as (r & Hr & _ & Ht & _ & Hp & _ & _).
    exists r. split; [exact Hr|].
    split.
    + apply Ht. intros d [= <-]. right. left. reflexivity.
    + apply Hp. left. reflexivity.
  - destruct (HA (Audit.mkAuditLogFilters None None None None (Some 25))
                (Some (Audit.mkAuditData Js.Missing (Js.Value 3) (Js.Value 1) Js.Missing))
                Sample.w_library)
      as (r & Hr & Ht & _ & _ & Hp & _ & _ & Htb & Hpb).
    exists r. split; [exact Hr|].
    split; [apply (Ht _ 3 eq_refl eq_refl)|].
    split; [apply (Hp _ 1 eq_refl eq_refl)|].
    split.
    + apply Htb. intros d [= <-]. right. exists 3. split; [reflexivity|lia].
    + apply Hpb. intros d [= <-]. right. exists 1. split; [reflexivity|lia].
  - destruct (HA (Audit.mkAuditLogFilters None None None None (Some 25))
                (Some (Audit.mkAuditData Js.Missing Js.Null Js.Missing Js.Missing))
                Sample.w_library)
      as (r & Hr & _ & Ht & _ & _ & _ & Hp & _ & _).
    exists r. split; [exact Hr|].
    split; [apply (Ht _ eq_refl eq_refl)|].
    apply Hp. intros d [= <-]. reflexivity.
Defined.

(** C9 as worded fails: nothing is clamped.  A negative [page] in the
    filters and a negative [total] in the body come out of [getDocuments]
    as they went in, and so do a negative [total] and a [page] of 0 in the
    body of the audit log. *)
Lemma envelope_clamping_counterexample :
  (exists r,
     Documents.getDocuments
       (Documents.mkDocumentFilters None None None None None (Some (-3)) None None)
       (Client.Fulfilled
          (Some (Documents.mkDocumentsData (Some []) (Some (-5)) None None None)))
       Sample.w_library
     = (Client.Fulfilled r, Sample.w_library)
     /\ Documents.total r = -5 /\ Documents.page r = -3
     /\ ~ (0 <= Documents.total r) /\ ~ (1 <= Documents.page r))
  /\ (exists r,
        Audit.getAuditLog (Audit.mkAuditLogFilters None None None None None)
          (Client.Fulfilled
             (Some (Audit.mkAuditData (Js.Value []) (Js.Value (-5)) (Js.Value 0) Js.Missing)))
          Sample.w_library
        = (Client.Fulfilled r, Sample.w_library)
        /\ Audit.total r = Some (-5) /\ Audit.page r = Some 0
        /\ ~ (exists n, Audit.total r = Some n /\ 0 <= n)
        /\ ~ (exists n, Audit.page r = Some n /\ 1 <= n)).
Proof.
  split.
  - eexists. split; [apply getDocuments_fulfilled|].
    cbn. repeat split; lia.
  - eexists. split; [apply getAuditLog_fulfilled|].
    cbn. split; [reflexivity|]. split; [reflexivity|].
    split; intros (n & [= <-] & Hn); lia.
Qed.

(** ** The session controller *)

Section Session.
Import Browser Client Types.

Lemma isAuthenticated_spec (s : AuthContext.AuthState) :
  AuthContext.isAuthenticated s = true
  <-> (exists u, AuthContext.user s = Some u)
      /\ (exists t, AuthContext.token s = Some t /\ t <> "").
Proof.
  unfold AuthContext.isAuthenticated, Js.truthy_opt_string, Js.truthy_string.
  destruct (AuthContext.user s) as [u|], (AuthContext.token s) as [t|]; cbn.
  - destruct (String.eqb_spec t ""); cbn.
    + split; [discriminate|]. intros (_ & t' & [= <-] & Hne). contradiction.
    + split; [|reflexivity]. intros _. split; [exists u; reflexivity|].
      exists t. split; [reflexivity|assumption].
  - split; [discriminate|]. intros (_ & t' & Ht & _). discriminate.
  - split; [discriminate|]. intros ((u' & Hu) & _). discriminate.
  - split; [discriminate|]. intros ((u' & Hu) & _). discriminate.
Qed.

Lemma truthy_string_true (t : string) : t <> "" -> Js.truthy_string t = true.
Proof.
  intros H. unfold Js.truthy_string. destruct (String.eqb_spec t ""); [contradiction|reflexivity].
Qed.

Lemma login_fulfilled JSON_stringify arg password country response s (w : World) :
  AuthContext.login JSON_stringify arg password country (Fulfilled response) s w
  = (Fulfilled tt,
     AuthContext.setToken (Some (AuthApi.access_token response))
       (AuthContext.setUser (Some (AuthApi.user response)) s),
     setItem "user" (JSON_stringify (AuthApi.user response))
       (setItem "access_token" (AuthApi.access_token response) w)).
Proof. reflexivity. Qed.

Lemma login_rejected JSON_stringify arg password country error s (w : World) :
  AuthContext.login JSON_stringify arg password country (Rejected error) s w
  = (Rejected error, s, snd (@response_rejected AuthApi.LoginResponse error w)).
Proof.
  unfold AuthContext.login, AuthApi.login, bind, request.
  unfold response_rejected, reject. reflexivity.
Qed.

End Session.

(** C6, as the code has it.  [isAuthenticated] is true exactly when the
    provider holds a user record and a non-empty token.  It is false in the
    initial state and after the mount effect has read an empty store, false
    after [logout], and after a fulfilled [login], which sets both cells, it
    is true exactly when the token of the answer is not empty.  Between the
    two setter calls of [login] it reads true only if a token was already
    held, so it never reads true on a user without a token. *)
Theorem isAuthenticated_iff_user_and_token :
  forall (JSON_stringify : Types.User -> string)
         (JSON_parse : string -> option (option Types.User)),
    (forall s,
       AuthContext.isAuthenticated s = true
       <-> (exists u, AuthContext.user s = Some u)
           /\ (exists t, AuthContext.token s = Some t /\ t <> ""))
    /\ AuthContext.isAuthenticated AuthContext.initial = false
    /\ (forall w : Browser.World,
          Browser.localStorage w = ∅ ->
          exists s,
            AuthContext.boot JSON_parse w AuthContext.initial = Some s
            /\ AuthContext.isAuthenticated s = false)
    /\ (forall s w,
          AuthContext.isAuthenticated (fst (AuthContext.logout s w)) = false)
    /\ (forall arg password country response s w,
          exists s' w',
            AuthContext.login JSON_stringify arg password country
              (Client.Fulfilled response) s w
            = (Client.Fulfilled tt, s', w')
            /\ AuthContext.user s' = Some (AuthApi.user response)
            /\ AuthContext.token s' = Some (AuthApi.access_token response)
            /\ (AuthContext.isAuthenticated s' = true
                <-> AuthApi.access_token response <> ""))
    /\ (forall u s,
          AuthContext.isAuthenticated (AuthContext.setUser (Some u) s) = true ->
          exists t, AuthContext.token s = Some t /\ t <> "").
Proof.
  intros JSON_stringify JSON_parse.
  split; [exact isAuthenticated_spec|].
  split; [reflexivity|].
  split.
  { intros w Hw. unfold AuthContext.boot, Browser.getItem.
    rewrite Hw, !lookup_empty. eexists. split; reflexivity. }
  split; [reflexivity|].
  split.
  { intros arg password country response s w.
    eexists _, _. split; [apply login_fulfilled|].
    split; [reflexivity|]. split; [reflexivity|].
    rewrite isAuthenticated_spec. cbn. split.
    - intros (_ & t & [= <-] & Hne). exact Hne.
    - intros Hne. split; eauto. }
  intros u s H. apply isAuthenticated_spec in H.
  destruct H as (_ & t & Ht & Hne). exists t. split; assumption.
Qed.

Lemma isAuthenticated_iff_user_and_token_witness :
  Browser.localStorage Sample.w_empty = ∅
  /\ AuthApi.access_token (AuthApi.mkLoginResponse "abc" "bearer" Sample.alice) <> ""
  /\ (exists s,
        AuthContext.boot Sample.parse_null_only Sample.w_empty AuthContext.initial = Some s
        /\ AuthContext.isAuthenticated s = false)
  /\ (exists s' w',
        AuthContext.login Sample.stringify_by_name (inl "alice") (Some "secret") None
          (Client.Fulfilled (AuthApi.mkLoginResponse "abc" "bearer" Sample.alice))
          AuthContext.initial Sample.w_empty
        = (Client.Fulfilled tt, s', w')
        /\ AuthContext.isAuthenticated s' = true).
Proof.
  destruct (isAuthenticated_iff_user_and_token Sample.stringify_by_name Sample.parse_null_only)
    as (_ & _ & Hboot & _ & Hlogin & _).
  split; [reflexivity|]. split; [discriminate|]. split.
  - apply Hboot. reflexivity.
  - destruct (Hlogin (inl "alice") (Some "secret") None
                (AuthApi.mkLoginResponse "abc" "bearer" Sample.alice)
                AuthContext.initial Sample.w_empty)
      as (s' & w' & H1 & _ & _ & H2).
    exists s', w'. split; [exact H1|]. apply H2. discriminate.
Defined.

(** C6 as worded fails: a [login] answered with an empty token is
    successful and sets both cells, yet [isAuthenticated] reads false. *)
Lemma empty_token_login_counterexample :
  exists s' w',
    AuthContext.login Sample.stringify_by_name (inl "alice") (Some "secret") None
      (Client.Fulfilled (AuthApi.mkLoginResponse "" "bearer" Sample.alice))
      AuthContext.initial Sample.w_empty
    = (Client.Fulfilled tt, s', w')
    /\ AuthContext.user s' = Some Sample.alice
    /\ AuthContext.token s' = Some ""
    /\ Browser.getItem "access_token" w' = Some ""
    /\ AuthContext.isAuthenticated s' = false.
Proof.
  eexists _, _. split; [apply login_fulfilled|].
  split; [reflexivity|]. split; [reflexivity|].
  split; [vm_compute; reflexivity|]. reflexivity.
Qed.

(** C5, as the code has it.  A fulfilled [login] writes both
    [access_token] and [user] to [localStorage] (no other key changes, no
    navigation), sets both state cells, and is authenticated when the token
    is non-empty.  A rejected [login] rejects with the same error and
    leaves the provider state as it was; [login] itself writes nothing, and
    the store is what the response interceptor leaves: unchanged when the
    status is not 401, without token and user when it is 401. *)
Theorem login_persists_both_or_rethrows :
  forall (JSON_stringify : Types.User -> string) arg password country
         (s : AuthContext.AuthState) (w : Browser.World),
    (forall response,
       exists s' w',
         AuthContext.login JSON_stringify arg password country
           (Client.Fulfilled response) s w
         = (Client.Fulfilled tt, s', w')
         /\ Browser.getItem "access_token" w' = Some (AuthApi.access_token response)
         /\ Browser.getItem "user" w' = Some (JSON_stringify (AuthApi.user response))
         /\ (forall k, k <> "access_token" -> k <> "user" ->
               Browser.getItem k w' = Browser.getItem k w)
         /\ Browser.pathname w' = Browser.pathname w
         /\ Browser.href_assignments w' = Browser.href_assignments w
         /\ AuthContext.user s' = Some (AuthApi.user response)
         /\ AuthContext.token s' = Some (AuthApi.access_token response)
         /\ (AuthApi.access_token response <> "" ->
               AuthContext.isAuthenticated s' = true))
    /\ (forall error,
          exists w',
            AuthContext.login JSON_stringify arg password country
              (Client.Rejected error) s w
            = (Client.Rejected error, s, w')
            /\ (Client.is_unauthorized error = false -> w' = w)
            /\ (Client.is_unauthorized error = true ->
                  Browser.getItem "access_token" w' = None
                  /\ Browser.getItem "user" w' = None
                  /\ forall k, k <> "access_token" -> k <> "user" ->
                       Browser.getItem k w' = Browser.getItem k w)).
Proof.
  intros JSON_stringify arg password country s w. split.
  - intros response. eexists _, _. split; [apply login_fulfilled|].
    unfold Browser.getItem, Browser.setItem. cbn.
    split; [rewrite lookup_insert_ne by discriminate; apply lookup_insert_eq|].
    split; [apply lookup_insert_eq|].
    split.
    { intros k H1 H2. rewrite !lookup_insert_ne by congruence. reflexivity. }
    split; [reflexivity|]. split; [reflexivity|].
    split; [reflexivity|]. split; [reflexivity|].
    intros Hne. unfold AuthContext.isAuthenticated. cbn.
    apply truthy_string_true. exact Hne.
  - intros error. eexists. split; [apply login_rejected|]. split.
    + intros H. rewrite (response_rejected_other _ error w H). reflexivity.
    + intros H. rewrite (response_rejected_unauthorized _ error w H). cbn [snd].
      assert (Hget : forall k,
        Browser.getItem k
          (if Client.on_login_page w
           then Browser.removeItem "user" (Browser.removeItem "access_token" w)
           else Browser.assign_href "/login"
                  (Browser.removeItem "user" (Browser.removeItem "access_token" w)))
        = delete "user" (delete "access_token" (Browser.localStorage w)) !! k).
      { intros k. destruct (Client.on_login_page w); reflexivity. }
      split; [|split].
      * rewrite Hget, lookup_delete_ne by discriminate. apply lookup_delete_eq.
      * rewrite Hget. apply lookup_delete_eq.
      * intros k H1 H2. rewrite Hget, !lookup_delete_ne by congruence. reflexivity.
Qed.

Lemma login_persists_both_or_rethrows_witness :
  AuthApi.access_token (AuthApi.mkLoginResponse "abc" "bearer" Sample.alice) <> ""
  /\ Client.is_unauthorized Sample.err500 = false
  /\ Client.is_unauthorized Sample.login401 = true
  /\ (exists s' w',
        AuthContext.login Sample.stringify_by_name (inl "alice") (Some "secret") None
          (Client.Fulfilled (AuthApi.mkLoginResponse "abc" "bearer" Sample.alice))
          AuthContext.initial Sample.w_empty
        = (Client.Fulfilled tt, s', w')
        /\ Browser.getItem "access_token" w' = Some "abc"
        /\ Browser.getItem "user" w' = Some "alice"
        /\ AuthContext.isAuthenticated s' = true)
  /\ AuthContext.login Sample.stringify_by_name (inl "alice") (Some "wrong") None
       (Client.Rejected Sample.err500) AuthContext.initial Sample.w_library
     = (Client.Rejected Sample.err500, AuthContext.initial, Sample.w_library)
  /\ (exists w',
        AuthContext.login Sample.stringify_by_name (inl "alice") (Some "wrong") None
          (Client.Rejected Sample.login401) AuthContext.initial Sample.w_library
        = (Client.Rejected Sample.login401, AuthContext.initial, w')
        /\ Browser.getItem "access_token" w' = None
        /\ Browser.getItem "user" w' = None).
Proof.
  split; [discriminate|]. split; [reflexivity|]. split; [reflexivity|].
  split; [|split].
  - destruct (login_persists_both_or_rethrows Sample.stringify_by_name (inl "alice")
                (Some "secret") None AuthContext.initial Sample.w_empty) as [Hok _].
    destruct (Hok (AuthApi.mkLoginResponse "abc" "bearer" Sample.alice))
      as (s' & w' & H1 & H2 & H3 & _ & _ & _ & _ & _ & H4).
    exists s', w'. split; [exact H1|]. split; [exact H2|]. split; [exact H3|].
    apply H4. discriminate.
  - destruct (login_persists_both_or_rethrows Sample.stringify_by_name (inl "alice")
                (Some "wrong") None AuthContext.initial Sample.w_library) as [_ Hko].
    destruct (Hko Sample.err500) as (w' & H1 & H2 & _).
    rewrite H1. rewrite (H2 eq_refl). reflexivity.
  - destruct (login_persists_both_or_rethrows Sample.stringify_by_name (inl "alice")
                (Some "wrong") None AuthContext.initial Sample.w_library) as [_ Hko].
    destruct (Hko Sample.login401) as (w' & H1 & _ & H3).
    destruct (H3 eq_refl) as (Ha & Hb & _).
    exists w'. split; [exact H1|]. split; assumption.
Defined.

(** C5 as worded fails on the store: a [login] answered with 401 goes
    through the response interceptor, which removes the token and the
    cached user.  First with a session that is not authenticated (the mount
    effect read a store holding a token and no user), then with a signed-in
    session whose user retries on the public login page. *)
Lemma login_failure_changes_store_counterexample :
  (exists s w',
     AuthContext.boot Sample.parse_null_only Sample.w_token_only AuthContext.initial = Some s
     /\ AuthContext.isAuthenticated s = false
     /\ AuthContext.login Sample.stringify_by_name (inl "alice") (Some "wrong") None
          (Client.Rejected Sample.login401) s Sample.w_token_only
        = (Client.Rejected Sample.login401, s, w')
     /\ Browser.getItem "access_token" Sample.w_token_only = Some "stale"
     /\ Browser.getItem "access_token" w' = None
     /\ Browser.localStorage w' <> Browser.localStorage Sample.w_token_only)
  /\ (exists w',
        AuthContext.login Sample.stringify_by_name (inl "alice") (Some "wrong") None
          (Client.Rejected Sample.login401)
          (AuthContext.mkAuthState (Some Sample.alice) (Some "abc") false)
          Sample.w_login
        = (Client.Rejected Sample.login401,
           AuthContext.mkAuthState (Some Sample.alice) (Some "abc") false, w')
        /\ Browser.getItem "access_token" Sample.w_login = Some "abc"
        /\ Browser.getItem "access_token" w' = None
        /\ Browser.getItem "user" w' = None
        /\ Browser.localStorage w' <> Browser.localStorage Sample.w_login).
Proof.
  split.
  - eexists _, _. split; [reflexivity|]. split; [reflexivity|].
    split; [apply login_rejected|].
    split; [reflexivity|]. split; [reflexivity|].
    intros H. apply (f_equal (fun m => m !! "access_token")) in H.
    vm_compute in H. discriminate.
  - eexists. split; [apply login_rejected|].
    split; [reflexivity|]. split; [reflexivity|]. split; [reflexivity|].
    intros H. apply (f_equal (fun m => m !! "access_token")) in H.
    vm_compute in H. discriminate.
Qed.

(** ** The crawl-status pollers *)

Section PollerFacts.
Import Client Types Poller.

Context {Job StartArg : Type}.
Variable start : StartArg -> state Job -> state Job.
Variable initial_rejected : state Job -> state Job.

(** The [.catch] of the first request touches neither the timers nor the
    requests. *)
Hypothesis initial_rejected_frame : forall s,
  timers (initial_rejected s) = timers s
  /\ pollRef (initial_rejected s) = pollRef s
  /\ cleanup_registered (initial_rejected s) = cleanup_registered s
  /\ fetches (initial_rejected s) = fetches s.

(** The invariant of the page: it gives [single_timer], survives a start,
    and survives any change that keeps [pollRef] and the registration and
    either keeps the timers or cancels them all. *)
Variable Inv : state Job -> Prop.

Hypothesis Inv_single_timer : forall s, Inv s -> single_timer s.

Hypothesis Inv_start : forall a s, Inv s -> Inv (start a s).

Hypothesis Inv_transfer : forall s s',
  pollRef s' = pollRef s ->
  cleanup_registered s' = cleanup_registered s ->
  timers s' = timers s \/ timers s' = ∅ ->
  Inv s -> Inv s'.

Lemma single_timer_of_empty (s : state Job) :
  timers s = ∅ -> single_timer s.
Proof.
  intros H. split; [|intros _; exact H].
  intros t iv Ht. rewrite H, lookup_empty in Ht. discriminate.
Qed.

Lemma single_timer_transfer (s s' : state Job) :
  timers s' = timers s -> pollRef s' = pollRef s ->
  cleanup_registered s' = cleanup_registered s ->
  single_timer s -> single_timer s'.
Proof.
  intros Ht Hp Hc [H1 H2]. split.
  - intros t iv. rewrite Ht, Hp. apply H1.
  - rewrite Ht, Hc. exact H2.
Qed.

Lemma clear_current_fetches (s : state Job) :
  fetches (clear_current s) = fetches s.
Proof. unfold clear_current. destruct (pollRef s); reflexivity. Qed.

Lemma clear_current_snapshot (s : state Job) :
  snapshot (clear_current s) = snapshot s.
Proof. unfold clear_current. destruct (pollRef s); reflexivity. Qed.

Lemma clear_current_pollRef (s : state Job) :
  pollRef (clear_current s) = pollRef s.
Proof. unfold clear_current. destruct (pollRef s) eqn:E; cbn; congruence. Qed.

Lemma clear_current_registered (s : state Job) :
  cleanup_registered (clear_current s) = cleanup_registered s.
Proof. unfold clear_current. destruct (pollRef s); reflexivity. Qed.

Lemma clear_current_inflight (s : state Job) :
  inflight (clear_current s) = inflight s.
Proof. unfold clear_current. destruct (pollRef s); reflexivity. Qed.

(** Cancelling the timer of [pollRef] cancels every timer. *)
Lemma clear_current_timers (s : state Job) :
  single_timer s -> timers (clear_current s) = ∅.
Proof.
  intros [H _]. apply map_eq. intros t. rewrite lookup_empty.
  unfold clear_current.
  destruct (pollRef s) as [p|] eqn:Hp; cbn.
  - destruct (decide (p = t)) as [->|Hne].
    + apply lookup_delete_eq.
    + rewrite lookup_delete_ne by exact Hne.
      destruct (timers s !! t) as [iv|] eqn:Ht; [|reflexivity].
      specialize (H t iv Ht). congruence.
  - destruct (timers s !! t) as [iv|] eqn:Ht; [|reflexivity].
    specialize (H t iv Ht). congruence.
Qed.

Lemma clear_current_timers_empty (s : state Job) :
  timers s = ∅ -> timers (clear_current s) = ∅.
Proof.
  intros H. apply clear_current_timers, single_timer_of_empty, H.
Qed.

Lemma teardown_timers (s : state Job) :
  single_timer s -> timers (teardown s) = ∅.
Proof.
  intros Hs. unfold teardown, cleanup.
  destruct (cleanup_registered s) eqn:Hc.
  - apply clear_current_timers, Hs.
  - destruct Hs as [_ H]. apply H, Hc.
Qed.

Lemma teardown_fetches (s : state Job) : fetches (teardown s) = fetches s.
Proof.
  unfold teardown, cleanup. destruct (cleanup_registered s); [|reflexivity].
  apply clear_current_fetches.
Qed.

Lemma teardown_snapshot (s : state Job) : snapshot (teardown s) = snapshot s.
Proof.
  unfold teardown, cleanup. destruct (cleanup_registered s); [|reflexivity].
  apply clear_current_snapshot.
Qed.

Lemma teardown_inflight (s : state Job) : inflight (teardown s) = inflight s.
Proof.
  unfold teardown, cleanup. destruct (cleanup_registered s); [|reflexivity].
  apply clear_current_inflight.
Qed.

Lemma teardown_idempotent (s : state Job) : teardown (teardown s) = teardown s.
Proof.
  destruct s as [snap err [p|] [|] tm nt fl nr fs];
    unfold teardown, cleanup, clear_current, clearInterval; cbn; try reflexivity.
  f_equal. apply map_eq. intros t. destruct (decide (p = t)) as [->|Hne].
  - rewrite !lookup_delete_eq. reflexivity.
  - rewrite !lookup_delete_ne by exact Hne. reflexivity.
Qed.

(** While no timer is active, an event that is not a start issues no
    request and arms no timer. *)
Lemma step_quiet (s : state Job) (e : event StartArg) :
  timers s = ∅ -> is_start e = false ->
  timers (step start initial_rejected s e) = ∅
  /\ fetches (step start initial_rejected s e) = fetches s.
Proof.
  intros Ht He. destruct e as [a|t|r res|]; cbn in *.
  - discriminate.
  - unfold interval_fires. rewrite Ht, lookup_empty. split; [exact Ht|reflexivity].
  - unfold settles.
    destruct (inflight s !! r) as [[j o]|]; [|split; [exact Ht|reflexivity]].
    set (s1 := forget_request r s).
    assert (Ht1 : timers s1 = ∅) by exact Ht.
    assert (Hf1 : fetches s1 = fetches s) by reflexivity.
    destruct o, res as [v|err].
    + split; [exact Ht1|exact Hf1].
    + destruct (initial_rejected_frame s1) as (H1 & _ & _ & H4).
      rewrite H1, H4. split; [exact Ht1|exact Hf1].
    + unfold interval_resolved. destruct (is_terminal (status v)).
      * rewrite clear_current_fetches. split; [|exact Hf1].
        apply clear_current_timers_empty. exact Ht1.
      * split; [exact Ht1|exact Hf1].
    + unfold interval_rejected. rewrite clear_current_fetches.
      split; [|exact Hf1]. apply clear_current_timers_empty. exact Ht1.
  - rewrite teardown_fetches. split; [|reflexivity].
    apply teardown_timers, single_timer_of_empty, Ht.
Qed.

Lemma run_cons (e : event StartArg) (evs : list (event StartArg)) (s : state Job) :
  run start initial_rejected (e :: evs) s
  = run start initial_rejected evs (step start initial_rejected s e).
Proof. reflexivity. Qed.

Lemma run_app (evs1 evs2 : list (event StartArg)) (s : state Job) :
  run start initial_rejected (evs1 ++ evs2) s
  = run start initial_rejected evs2 (run start initial_rejected evs1 s).
Proof. unfold run. apply fold_left_app. Qed.

Lemma run_quiet (evs : list (event StartArg)) (s : state Job) :
  timers s = ∅ -> no_start evs = true ->
  timers (run start initial_rejected evs s) = ∅
  /\ fetches (run start initial_rejected evs s) = fetches s.
Proof.
  revert s. induction evs as [|e evs IH]; intros s Ht Hq.
  - split; [exact Ht|reflexivity].
  - rewrite run_cons. cbn in Hq. apply andb_prop in Hq as [He Hq].
    apply negb_true_iff in He.
    destruct (step_quiet s e Ht He) as [Ht' Hf'].
    destruct (IH _ Ht' Hq) as [Ht'' Hf''].
    split; [exact Ht''|]. rewrite Hf''. exact Hf'.
Qed.

Lemma clear_current_Inv (s : state Job) : Inv s -> Inv (clear_current s).
Proof.
  intros Hs. apply (Inv_transfer s); [| |right|exact Hs].
  - apply clear_current_pollRef.
  - apply clear_current_registered.
  - apply clear_current_timers, Inv_single_timer, Hs.
Qed.

Lemma step_Inv (s : state Job) (e : event StartArg) :
  Inv s -> Inv (step start initial_rejected s e).
Proof.
  intros Hs. destruct e as [a|t|r res|]; cbn.
  - apply Inv_start, Hs.
  - unfold interval_fires. destruct (timers s !! t); [|exact Hs].
    apply (Inv_transfer s); [reflexivity|reflexivity|left; reflexivity|exact Hs].
  - unfold settles. destruct (inflight s !! r) as [[j o]|]; [|exact Hs].
    assert (Hs1 : Inv (forget_request r s))
      by (apply (Inv_transfer s); [reflexivity|reflexivity|left; reflexivity|exact Hs]).
    destruct o, res as [v|err].
    + apply (Inv_transfer (forget_request r s));
        [reflexivity|reflexivity|left; reflexivity|exact Hs1].
    + destruct (initial_rejected_frame (forget_request r s)) as (H1 & H2 & H3 & _).
      apply (Inv_transfer (forget_request r s)); [exact H2|exact H3|left; exact H1|exact Hs1].
    + unfold interval_resolved.
      assert (Hs2 : Inv (setSnapshot v (forget_request r s)))
        by (apply (Inv_transfer (forget_request r s));
            [reflexivity|reflexivity|left; reflexivity|exact Hs1]).
      destruct (is_terminal (status v)); [|exact Hs2].
      apply clear_current_Inv, Hs2.
    + apply clear_current_Inv, Hs1.
  - unfold teardown, cleanup. destruct (cleanup_registered s); [|exact Hs].
    apply clear_current_Inv, Hs.
Qed.

Lemma run_Inv (evs : list (event StartArg)) (s : state Job) :
  Inv s -> Inv (run start initial_rejected evs s).
Proof.
  revert s. induction evs as [|e evs IH]; intros s Hs; [exact Hs|].
  rewrite run_cons. apply IH, step_Inv, Hs.
Qed.

(** A tick that fails: the snapshot stays, every timer is cancelled. *)
Lemma settles_tick_rejected (s : state Job) r j err :
  single_timer s -> inflight s !! r = Some (j, Tick) ->
  let s' := settles initial_rejected r (Rejected err) s in
  snapshot s' = snapshot s /\ timers s' = ∅ /\ fetches s' = fetches s.
Proof.
  intros Hs Hr. unfold settles. rewrite Hr. cbn zeta. unfold interval_rejected.
  rewrite clear_current_snapshot, clear_current_fetches.
  split; [reflexivity|]. split; [|reflexivity].
  apply clear_current_timers.
  eapply single_timer_transfer; [..|exact Hs]; reflexivity.
Qed.

(** A tick that brings a terminal status: the snapshot is replaced, every
    timer is cancelled. *)
Lemma settles_tick_terminal (s : state Job) r j v :
  single_timer s -> inflight s !! r = Some (j, Tick) ->
  is_terminal (status v) = true ->
  let s' := settles initial_rejected r (Fulfilled v) s in
  snapshot s' = Some v /\ timers s' = ∅ /\ fetches s' = fetches s.
Proof.
  intros Hs Hr Hv. unfold settles. rewrite Hr. cbn zeta. unfold interval_resolved.
  rewrite Hv. rewrite clear_current_snapshot, clear_current_fetches.
  split; [reflexivity|]. split; [|reflexivity].
  apply clear_current_timers.
  eapply single_timer_transfer; [..|exact Hs]; reflexivity.
Qed.

End PollerFacts.

Section CrawlPageFacts.
Import Client Types Poller.

Lemma crawl_initial_rejected_frame (s : state Z) :
  timers (CrawlPage.initial_rejected s) = timers s
  /\ pollRef (CrawlPage.initial_rejected s) = pollRef s
  /\ cleanup_registered (CrawlPage.initial_rejected s) = cleanup_registered s
  /\ fetches (CrawlPage.initial_rejected s) = fetches s.
Proof. unfold CrawlPage.initial_rejected. auto. Qed.

Lemma crawl_invariant_single_timer (s : state Z) :
  CrawlPage.invariant s -> single_timer s.
Proof. intros [H _]. exact H. Qed.

Lemma crawl_invariant_transfer (s s' : state Z) :
  pollRef s' = pollRef s ->
  cleanup_registered s' = cleanup_registered s ->
  timers s' = timers s \/ timers s' = ∅ ->
  CrawlPage.invariant s -> CrawlPage.invariant s'.
Proof.
  intros Hp Hc Ht [Hs Hreg]. split; [|congruence].
  destruct Ht as [Ht|Ht].
  - eapply single_timer_transfer; eauto.
  - apply single_timer_of_empty, Ht.
Qed.

(** What [pollStatus] leaves: one more request, and exactly one interval,
    the new one, held by [pollRef]. *)
Lemma pollStatus_effect (crawlId : Z) (s : state Z) :
  single_timer s ->
  fetches (CrawlPage.pollStatus crawlId s) = crawlId :: fetches s
  /\ pollRef (CrawlPage.pollStatus crawlId s) = Some (next_timer s)
  /\ timers (CrawlPage.pollStatus crawlId s)
     = <[next_timer s := mkInterval crawlId 2000]> ∅
  /\ cleanup_registered (CrawlPage.pollStatus crawlId s) = cleanup_registered s
  /\ snapshot (CrawlPage.pollStatus crawlId s) = snapshot s.
Proof.
  intros Hs. pose proof (clear_current_timers s Hs) as Hc.
  destruct s as [snap err [p|] reg tm nt fl nr fs];
    unfold clear_current in Hc; cbn in Hc;
    unfold CrawlPage.pollStatus, getCrawlStatus, clear_current, setInterval,
      set_pollRef, clearInterval; cbn; rewrite Hc; auto.
Qed.

Lemma pollStatus_invariant (crawlId : Z) (s : state Z) :
  CrawlPage.invariant s -> CrawlPage.invariant (CrawlPage.pollStatus crawlId s).
Proof.
  intros [Hs Hreg].
  destruct (pollStatus_effect crawlId s Hs) as (_ & Hp & Ht & Hc & _).
  split; [|congruence]. split.
  - intros t iv. rewrite Ht, Hp. intros H.
    apply lookup_insert_Some in H as [[-> _]|[_ H]]; [reflexivity|].
    rewrite lookup_empty in H. discriminate.
  - rewrite Hc, Hreg. discriminate.
Qed.

Lemma crawl_mounted_invariant : CrawlPage.invariant CrawlPage.mounted.
Proof.
  split; [|reflexivity]. apply single_timer_of_empty. reflexivity.
Qed.

Lemma crawl_reachable_invariant (s : state Z) :
  CrawlPage.reachable s -> CrawlPage.invariant s.
Proof.
  intros [evs ->]. unfold CrawlPage.run.
  apply (run_Inv _ _ crawl_initial_rejected_frame CrawlPage.invariant
           crawl_invariant_single_timer pollStatus_invariant
           crawl_invariant_transfer).
  exact crawl_mounted_invariant.
Qed.

End CrawlPageFacts.

Section ProgressFacts.
Import Client Types Poller.

Lemma progress_initial_rejected_frame (s : state string) :
  timers (Progress.initial_rejected s) = timers s
  /\ pollRef (Progress.initial_rejected s) = pollRef s
  /\ cleanup_registered (Progress.initial_rejected s) = cleanup_registered s
  /\ fetches (Progress.initial_rejected s) = fetches s.
Proof. unfold Progress.initial_rejected, setError. cbn. auto. Qed.

Lemma progress_transfer (s s' : state string) :
  pollRef s' = pollRef s ->
  cleanup_registered s' = cleanup_registered s ->
  timers s' = timers s \/ timers s' = ∅ ->
  single_timer s -> single_timer s'.
Proof.
  intros Hp Hc [Ht|Ht] Hs.
  - eapply single_timer_transfer; eauto.
  - apply single_timer_of_empty, Ht.
Qed.

(** What a re-run of the effect with a usable [crawl_id] leaves. *)
Lemma rerun_effect (id : string) (s : state string) :
  id <> "" -> single_timer s ->
  fetches (Progress.rerun (Some id) s) = id :: fetches s
  /\ pollRef (Progress.rerun (Some id) s) = Some (next_timer s)
  /\ timers (Progress.rerun (Some id) s)
     = <[next_timer s := mkInterval id 1500]> ∅
  /\ cleanup_registered (Progress.rerun (Some id) s) = true
  /\ snapshot (Progress.rerun (Some id) s) = snapshot s.
Proof.
  intros Hid Hs. pose proof (teardown_timers s Hs) as Ht.
  apply truthy_string_true in Hid.
  unfold Progress.rerun, Progress.effect. rewrite Hid. cbn [negb].
  unfold teardown, cleanup, clear_current in *.
  destruct s as [snap err [p|] [|] tm nt fl nr fs]; cbn in Ht |- *;
    rewrite Ht; auto.
Qed.

Lemma rerun_single_timer (crawlIdParam : option string) (s : state string) :
  single_timer s -> single_timer (Progress.rerun crawlIdParam s).
Proof.
  intros Hs.
  assert (Hoff : single_timer (set_cleanup_registered false (teardown s))).
  { apply single_timer_of_empty. cbn. apply teardown_timers, Hs. }
  destruct crawlIdParam as [id|]; [|exact Hoff].
  destruct (String.eqb_spec id "") as [->|Hid]; [exact Hoff|].
  destruct (rerun_effect id s Hid Hs) as (_ & Hp & Ht & Hc & _).
  split.
  - intros t iv. rewrite Ht, Hp. intros H.
    apply lookup_insert_Some in H as [[-> _]|[_ H]]; [reflexivity|].
    rewrite lookup_empty in H. discriminate.
  - rewrite Hc. discriminate.
Qed.

Lemma progress_rendered_single_timer : single_timer Progress.rendered.
Proof. apply single_timer_of_empty. reflexivity. Qed.

Lemma progress_reachable_single_timer (s : state string) :
  Progress.reachable s -> single_timer s.
Proof.
  intros [evs ->]. unfold Progress.run.
  apply (run_Inv _ _ progress_initial_rejected_frame single_timer
           (fun s H => H) rerun_single_timer progress_transfer).
  exact progress_rendered_single_timer.
Qed.

End ProgressFacts.

Section PollerRuns.
Import Client Types Poller.

Lemma is_terminal_spec (st : string) :
  is_terminal st = true
  <-> st = "completed" \/ st = "failed" \/ st = "stopped".
Proof.
  unfold is_terminal. rewrite !orb_true_iff.
  rewrite !String.eqb_eq. tauto.
Qed.

Lemma crawl_step_invariant (s : state Z) (e : event Z) :
  CrawlPage.invariant s -> CrawlPage.invariant (CrawlPage.step s e).
Proof.
  apply (step_Inv _ _ crawl_initial_rejected_frame CrawlPage.invariant
           crawl_invariant_single_timer pollStatus_invariant
           crawl_invariant_transfer).
Qed.

Lemma crawl_run_invariant (evs : list (event Z)) (s : state Z) :
  CrawlPage.invariant s -> CrawlPage.invariant (CrawlPage.run evs s).
Proof.
  apply (run_Inv _ _ crawl_initial_rejected_frame CrawlPage.invariant
           crawl_invariant_single_timer pollStatus_invariant
           crawl_invariant_transfer).
Qed.

Lemma progress_step_single_timer (s : state string) (e : event (option string)) :
  single_timer s -> single_timer (Progress.step s e).
Proof.
  apply (step_Inv _ _ progress_initial_rejected_frame single_timer
           (fun s H => H) rerun_single_timer progress_transfer).
Qed.

Lemma progress_run_single_timer (evs : list (event (option string))) (s : state string) :
  single_timer s -> single_timer (Progress.run evs s).
Proof.
  apply (run_Inv _ _ progress_initial_rejected_frame single_timer
           (fun s H => H) rerun_single_timer progress_transfer).
Qed.

Lemma crawl_run_quiet (evs : list (event Z)) (s : state Z) :
  timers s = ∅ -> no_start evs = true ->
  timers (CrawlPage.run evs s) = ∅ /\ fetches (CrawlPage.run evs s) = fetches s.
Proof. apply (run_quiet _ _ crawl_initial_rejected_frame). Qed.

Lemma progress_run_quiet (evs : list (event (option string))) (s : state string) :
  timers s = ∅ -> no_start evs = true ->
  timers (Progress.run evs s) = ∅ /\ fetches (Progress.run evs s) = fetches s.
Proof. apply (run_quiet _ _ progress_initial_rejected_frame). Qed.

(** Whatever waits for it, a fulfilled request stores its answer. *)
Lemma settles_fulfilled_snapshot {Job : Type} (initial_rejected : state Job -> state Job)
    (s : state Job) r j o v :
  inflight s !! r = Some (j, o) ->
  snapshot (settles initial_rejected r (Fulfilled v) s) = Some v.
Proof.
  intros Hr. unfold settles. rewrite Hr. destruct o; [reflexivity|].
  unfold interval_resolved. destruct (is_terminal (status v)); [|reflexivity].
  rewrite clear_current_snapshot. reflexivity.
Qed.

(** With no timer active and no request in flight nothing moves until
    polling is started again. *)
Lemma step_idle {Job StartArg : Type} (start : StartArg -> state Job -> state Job)
    (initial_rejected : state Job -> state Job) (s : state Job) (e : event StartArg) :
  timers s = ∅ -> inflight s = ∅ -> is_start e = false ->
  timers (step start initial_rejected s e) = ∅
  /\ inflight (step start initial_rejected s e) = ∅
  /\ snapshot (step start initial_rejected s e) = snapshot s.
Proof.
  intros Ht Hi He. destruct e as [a|t|r res|]; cbn in *.
  - discriminate.
  - unfold interval_fires. rewrite Ht, lookup_empty. auto.
  - unfold settles. rewrite Hi, lookup_empty. auto.
  - rewrite teardown_inflight, teardown_snapshot.
    split; [|auto]. apply teardown_timers, single_timer_of_empty, Ht.
Qed.

Lemma run_idle {Job StartArg : Type} (start : StartArg -> state Job -> state Job)
    (initial_rejected : state Job -> state Job)
    (evs : list (event StartArg)) (s : state Job) :
  timers s = ∅ -> inflight s = ∅ -> no_start evs = true ->
  snapshot (run start initial_rejected evs s) = snapshot s.
Proof.
  revert s. induction evs as [|e evs IH]; intros s Ht Hi Hq; [reflexivity|].
  rewrite run_cons. cbn in Hq. apply andb_prop in Hq as [He Hq].
  apply negb_true_iff in He.
  destruct (step_idle start initial_rejected s e Ht Hi He) as (Ht' & Hi' & Hs').
  rewrite (IH _ Ht' Hi' Hq). exact Hs'.
Qed.

End PollerRuns.

(** C4, as the code has it.  When the request of a tick is rejected, the
    stored snapshot is left as it was and the interval is cancelled; from
    then on, as long as polling is not started again, no timer is active
    and no further [getCrawlStatus] call is made: the failed request is not
    retried.  A request that is still in flight at that moment is not
    cancelled: when it is answered, its answer becomes the snapshot.  With
    no other request in flight the snapshot stays as it was for good.  On
    both pages. *)
Theorem failed_tick_ends_polling :
  (forall (s : Poller.state Z) r j err (evs : list (Poller.event Z)),
     Poller.CrawlPage.reachable s ->
     Poller.inflight s !! r = Some (j, Poller.Tick) ->
     Poller.no_start evs = true ->
     let s' := Poller.CrawlPage.step s (Poller.Settles r (Client.Rejected err)) in
     Poller.snapshot s' = Poller.snapshot s
     /\ Poller.timers s' = ∅
     /\ Poller.fetches s' = Poller.fetches s
     /\ Poller.timers (Poller.CrawlPage.run evs s') = ∅
     /\ Poller.fetches (Poller.CrawlPage.run evs s') = Poller.fetches s
     /\ (forall r' j' o v,
           Poller.inflight s' !! r' = Some (j', o) ->
           Poller.snapshot
             (Poller.CrawlPage.step s' (Poller.Settles r' (Client.Fulfilled v)))
           = Some v)
     /\ (Poller.inflight s' = ∅ ->
           Poller.snapshot (Poller.CrawlPage.run evs s') = Poller.snapshot s))
  /\ (forall (s : Poller.state string) r j err (evs : list (Poller.event (option string))),
        Poller.Progress.reachable s ->
        Poller.inflight s !! r = Some (j, Poller.Tick) ->
        Poller.no_start evs = true ->
        let s' := Poller.Progress.step s (Poller.Settles r (Client.Rejected err)) in
        Poller.snapshot s' = Poller.snapshot s
        /\ Poller.timers s' = ∅
        /\ Poller.fetches s' = Poller.fetches s
        /\ Poller.timers (Poller.Progress.run evs s') = ∅
        /\ Poller.fetches (Poller.Progress.run evs s') = Poller.fetches s
        /\ (forall r' j' o v,
              Poller.inflight s' !! r' = Some (j', o) ->
              Poller.snapshot
                (Poller.Progress.step s' (Poller.Settles r' (Client.Fulfilled v)))
              = Some v)
        /\ (Poller.inflight s' = ∅ ->
              Poller.snapshot (Poller.Progress.run evs s') = Poller.snapshot s)).
Proof.
  split.
  - intros s r j err evs Hreach Hr Hq s'.
    apply crawl_reachable_invariant in Hreach as [Hs _].
    destruct (settles_tick_rejected Poller.CrawlPage.initial_rejected s r j err Hs Hr)
      as (Hsnap & Ht & Hf).
    change (Poller.settles Poller.CrawlPage.initial_rejected r (Client.Rejected err) s)
      with s' in Hsnap, Ht, Hf.
    destruct (crawl_run_quiet evs s' Ht Hq) as [Ht' Hf'].
    split; [exact Hsnap|]. split; [exact Ht|]. split; [exact Hf|].
    split; [exact Ht'|]. split; [congruence|].
    split.
    { intros r' j' o v Hr'.
      exact (settles_fulfilled_snapshot Poller.CrawlPage.initial_rejected s' r' j' o v Hr'). }
    intros Hi. unfold Poller.CrawlPage.run.
    rewrite (run_idle _ _ evs s' Ht Hi Hq). exact Hsnap.
  - intros s r j err evs Hreach Hr Hq s'.
    apply progress_reachable_single_timer in Hreach as Hs.
    destruct (settles_tick_rejected Poller.Progress.initial_rejected s r j err Hs Hr)
      as (Hsnap & Ht & Hf).
    change (Poller.settles Poller.Progress.initial_rejected r (Client.Rejected err) s)
      with s' in Hsnap, Ht, Hf.
    destruct (progress_run_quiet evs s' Ht Hq) as [Ht' Hf'].
    split; [exact Hsnap|]. split; [exact Ht|]. split; [exact Hf|].
    split; [exact Ht'|]. split; [congruence|].
    split.
    { intros r' j' o v Hr'.
      exact (settles_fulfilled_snapshot Poller.Progress.initial_rejected s' r' j' o v Hr'). }
    intros Hi. unfold Poller.Progress.run.
    rewrite (run_idle _ _ evs s' Ht Hi Hq). exact Hsnap.
Qed.

Lemma failed_tick_ends_polling_witness :
  (let s := Poller.CrawlPage.run
              [Poller.Start 7;
               Poller.Settles 1%positive (Client.Fulfilled (Sample.crawl7 "running"));
               Poller.TimerFires 1%positive] Poller.CrawlPage.mounted in
   let s' := Poller.CrawlPage.step s
               (Poller.Settles 2%positive (Client.Rejected Sample.err_network)) in
   let evs := [Poller.TimerFires 1%positive; Poller.Teardown;
               Poller.TimerFires 1%positive] in
   Poller.CrawlPage.reachable s
   /\ Poller.inflight s !! 2%positive = Some (7, Poller.Tick)
   /\ Poller.inflight s' = ∅
   /\ Poller.fetches (Poller.CrawlPage.run evs s') = Poller.fetches s
   /\ Poller.snapshot (Poller.CrawlPage.run evs s') = Some (Sample.crawl7 "running"))
  /\ (let s := Poller.Progress.run
                 [Poller.Start (Some "7");
                  Poller.Settles 1%positive (Client.Fulfilled (Sample.crawl7 "running"));
                  Poller.TimerFires 1%positive] Poller.Progress.rendered in
      let s' := Poller.Progress.step s
                  (Poller.Settles 2%positive (Client.Rejected Sample.err_network)) in
      let evs := [Poller.TimerFires 1%positive; Poller.Teardown;
                  Poller.TimerFires 1%positive] in
      Poller.Progress.reachable s
      /\ Poller.inflight s !! 2%positive = Some ("7", Poller.Tick)
      /\ Poller.inflight s' = ∅
      /\ Poller.fetches (Poller.Progress.run evs s') = Poller.fetches s
      /\ Poller.snapshot (Poller.Progress.run evs s') = Some (Sample.crawl7 "running")).
Proof.
  destruct failed_tick_ends_polling as [HC HP].
  split; intros s s' evs.
  - assert (Hreach : Poller.CrawlPage.reachable s) by (eexists; reflexivity).
    assert (Hr : Poller.inflight s !! 2%positive = Some (7, Poller.Tick))
      by (vm_compute; reflexivity).
    assert (Hi : Poller.inflight s' = ∅) by (vm_compute; reflexivity).
    destruct (HC s 2%positive 7 Sample.err_network evs Hreach Hr eq_refl)
      as (_ & _ & _ & _ & Hf & _ & Hsnap).
    split; [exact Hreach|]. split; [exact Hr|]. split; [exact Hi|].
    split; [exact Hf|]. exact (Hsnap Hi).
  - assert (Hreach : Poller.Progress.reachable s) by (eexists; reflexivity).
    assert (Hr : Poller.inflight s !! 2%positive = Some ("7", Poller.Tick))
      by (vm_compute; reflexivity).
    assert (Hi : Poller.inflight s' = ∅) by (vm_compute; reflexivity).
    destruct (HP s 2%positive "7" Sample.err_network evs Hreach Hr eq_refl)
      as (_ & _ & _ & _ & Hf & _ & Hsnap).
    split; [exact Hreach|]. split; [exact Hr|]. split; [exact Hi|].
    split; [exact Hf|]. exact (Hsnap Hi).
Defined.

(** C4 as worded fails: the snapshot is not retained when the first request
    of the poll is still unanswered as the tick fails.  Its answer arrives
    later and is stored, on both pages, although no further request is
    made. *)
Lemma late_answer_after_failed_tick_counterexample :
  (let s := Poller.CrawlPage.run
              [Poller.Start 7; Poller.TimerFires 1%positive] Poller.CrawlPage.mounted in
   let s' := Poller.CrawlPage.step s
               (Poller.Settles 2%positive (Client.Rejected Sample.err_network)) in
   let s'' := Poller.CrawlPage.step s'
                (Poller.Settles 1%positive (Client.Fulfilled (Sample.crawl7 "running"))) in
   Poller.CrawlPage.reachable s
   /\ Poller.inflight s !! 2%positive = Some (7, Poller.Tick)
   /\ Poller.snapshot s = None
   /\ Poller.snapshot s' = None
   /\ Poller.fetches s'' = Poller.fetches s
   /\ Poller.snapshot s'' = Some (Sample.crawl7 "running")
   /\ Poller.snapshot s'' <> Poller.snapshot s)
  /\ (let s := Poller.Progress.run
                 [Poller.Start (Some "7"); Poller.TimerFires 1%positive]
                 Poller.Progress.rendered in
      let s' := Poller.Progress.step s
                  (Poller.Settles 2%positive (Client.Rejected Sample.err_network)) in
      let s'' := Poller.Progress.step s'
                   (Poller.Settles 1%positive (Client.Fulfilled (Sample.crawl7 "running"))) in
      Poller.Progress.reachable s
      /\ Poller.inflight s !! 2%positive = Some ("7", Poller.Tick)
      /\ Poller.snapshot s = None
      /\ Poller.snapshot s' = None
      /\ Poller.fetches s'' = Poller.fetches s
      /\ Poller.snapshot s'' = Some (Sample.crawl7 "running")
      /\ Poller.snapshot s'' <> Poller.snapshot s).
Proof.
  split; intros s s' s''.
  - split; [eexists; reflexivity|].
    split; [vm_compute; reflexivity|].
    split; [reflexivity|]. split; [reflexivity|].
    split; [vm_compute; reflexivity|].
    split; [vm_compute; reflexivity|].
    vm_compute. discriminate.
  - split; [eexists; reflexivity|].
    split; [vm_compute; reflexivity|].
    split; [reflexivity|]. split; [reflexivity|].
    split; [vm_compute; reflexivity|].
    split; [vm_compute; reflexivity|].
    vm_compute. discriminate.
Qed.

(** C2, as the code has it.  When a tick's answer carries a terminal status
    ([completed], [failed] or [stopped]) the snapshot becomes that answer
    and the interval is cancelled; as long as polling is not started again
    no timer is active and no further [getCrawlStatus] call is made.
    There is no terminal latch and no reset: a later start, with the same
    id or another, makes one call at once and arms a new interval. *)
Theorem terminal_tick_stops_until_restart :
  (forall (s : Poller.state Z) r j v (evs : list (Poller.event Z)) (again : Z),
     Poller.CrawlPage.reachable s ->
     Poller.inflight s !! r = Some (j, Poller.Tick) ->
     Types.status v = "completed" \/ Types.status v = "failed"
       \/ Types.status v = "stopped" ->
     Poller.no_start evs = true ->
     let s' := Poller.CrawlPage.step s (Poller.Settles r (Client.Fulfilled v)) in
     let s'' := Poller.CrawlPage.step (Poller.CrawlPage.run evs s') (Poller.Start again) in
     Poller.snapshot s' = Some v
     /\ Poller.timers s' = ∅
     /\ Poller.fetches s' = Poller.fetches s
     /\ Poller.timers (Poller.CrawlPage.run evs s') = ∅
     /\ Poller.fetches (Poller.CrawlPage.run evs s') = Poller.fetches s
     /\ Poller.fetches s'' = again :: Poller.fetches s
     /\ exists t, Poller.pollRef s'' = Some t
                  /\ Poller.timers s'' !! t = Some (Poller.mkInterval again 2000))
  /\ (forall (s : Poller.state string) r j v
             (evs : list (Poller.event (option string))) (again : string),
        Poller.Progress.reachable s ->
        Poller.inflight s !! r = Some (j, Poller.Tick) ->
        Types.status v = "completed" \/ Types.status v = "failed"
          \/ Types.status v = "stopped" ->
        Poller.no_start evs = true ->
        again <> "" ->
        let s' := Poller.Progress.step s (Poller.Settles r (Client.Fulfilled v)) in
        let s'' := Poller.Progress.step (Poller.Progress.run evs s')
                     (Poller.Start (Some again)) in
        Poller.snapshot s' = Some v
        /\ Poller.timers s' = ∅
        /\ Poller.fetches s' = Poller.fetches s
        /\ Poller.timers (Poller.Progress.run evs s') = ∅
        /\ Poller.fetches (Poller.Progress.run evs s') = Poller.fetches s
        /\ Poller.fetches s'' = again :: Poller.fetches s
        /\ exists t, Poller.pollRef s'' = Some t
                     /\ Poller.timers s'' !! t = Some (Poller.mkInterval again 1500)).
Proof.
  split.
  - intros s r j v evs again Hreach Hr Hv Hq s' s''.
    apply crawl_reachable_invariant in Hreach as Hinv.
    apply is_terminal_spec in Hv.
    destruct (settles_tick_terminal Poller.CrawlPage.initial_rejected s r j v
                (proj1 Hinv) Hr Hv) as (Hsnap & Ht & Hf).
    change (Poller.settles Poller.CrawlPage.initial_rejected r (Client.Fulfilled v) s)
      with s' in Hsnap, Ht, Hf.
    destruct (crawl_run_quiet evs s' Ht Hq) as [Ht' Hf'].
    assert (Hinv' : Poller.CrawlPage.invariant (Poller.CrawlPage.run evs s')).
    { apply crawl_run_invariant, crawl_step_invariant, Hinv. }
    destruct (pollStatus_effect again _ (proj1 Hinv')) as (Hf2 & Hp2 & Ht2 & _).
    change (Poller.CrawlPage.pollStatus again (Poller.CrawlPage.run evs s'))
      with s'' in Hf2, Hp2, Ht2.
    repeat split; try congruence.
    eexists. split; [exact Hp2|]. rewrite Ht2. apply lookup_insert_eq.
  - intros s r j v evs again Hreach Hr Hv Hq Hagain s' s''.
    apply progress_reachable_single_timer in Hreach as Hinv.
    apply is_terminal_spec in Hv.
    destruct (settles_tick_terminal Poller.Progress.initial_rejected s r j v
                Hinv Hr Hv) as (Hsnap & Ht & Hf).
    change (Poller.settles Poller.Progress.initial_rejected r (Client.Fulfilled v) s)
      with s' in Hsnap, Ht, Hf.
    destruct (progress_run_quiet evs s' Ht Hq) as [Ht' Hf'].
    assert (Hinv' : Poller.single_timer (Poller.Progress.run evs s')).
    { apply progress_run_single_timer, progress_step_single_timer, Hinv. }
    destruct (rerun_effect again _ Hagain Hinv') as (Hf2 & Hp2 & Ht2 & _).
    change (Poller.Progress.rerun (Some again) (Poller.Progress.run evs s'))
      with s'' in Hf2, Hp2, Ht2.
    repeat split; try congruence.
    eexists. split; [exact Hp2|]. rewrite Ht2. apply lookup_insert_eq.
Qed.

Lemma terminal_tick_stops_until_restart_witness :
  (let s := Poller.CrawlPage.run
              [Poller.Start 7; Poller.TimerFires 1%positive] Poller.CrawlPage.mounted in
   let s' := Poller.CrawlPage.step s
               (Poller.Settles 2%positive (Client.Fulfilled (Sample.crawl7 "completed"))) in
   Poller.CrawlPage.reachable s
   /\ Poller.inflight s !! 2%positive = Some (7, Poller.Tick)
   /\ Poller.snapshot s' = Some (Sample.crawl7 "completed")
   /\ Poller.fetches
        (Poller.CrawlPage.run [Poller.TimerFires 1%positive; Poller.Teardown] s')
      = Poller.fetches s)
  /\ (let s := Poller.Progress.run
                 [Poller.Start (Some "7"); Poller.TimerFires 1%positive]
                 Poller.Progress.rendered in
      let s' := Poller.Progress.step s
                  (Poller.Settles 2%positive (Client.Fulfilled (Sample.crawl7 "failed"))) in
      Poller.Progress.reachable s
      /\ Poller.inflight s !! 2%positive = Some ("7", Poller.Tick)
      /\ Poller.snapshot s' = Some (Sample.crawl7 "failed")
      /\ Poller.fetches
           (Poller.Progress.run [Poller.TimerFires 1%positive; Poller.Teardown] s')
         = Poller.fetches s).
Proof.
  destruct terminal_tick_stops_until_restart as [HC HP].
  split; intros s s'.
  - assert (Hreach : Poller.CrawlPage.reachable s) by (eexists; reflexivity).
    assert (Hr : Poller.inflight s !! 2%positive = Some (7, Poller.Tick))
      by (vm_compute; reflexivity).
    destruct (HC s 2%positive 7 (Sample.crawl7 "completed")
                [Poller.TimerFires 1%positive; Poller.Teardown] 7
                Hreach Hr (or_introl eq_refl) eq_refl)
      as (H1 & _ & _ & _ & H5 & _).
    split; [exact Hreach|]. split; [exact Hr|]. split; [exact H1|exact H5].
  - assert (Hreach : Poller.Progress.reachable s) by (eexists; reflexivity).
    assert (Hr : Poller.inflight s !! 2%positive = Some ("7", Poller.Tick))
      by (vm_compute; reflexivity).
    destruct (HP s 2%positive "7" (Sample.crawl7 "failed")
                [Poller.TimerFires 1%positive; Poller.Teardown] "7"
                Hreach Hr (or_intror (or_introl eq_refl)) eq_refl ltac:(discriminate))
      as (H1 & _ & _ & _ & H5 & _).
    split; [exact Hreach|]. split; [exact Hr|]. split; [exact H1|exact H5].
Defined.

(** C2 as worded fails: after a tick has brought [completed], starting
    again with the same id makes further [getCrawlStatus] calls, one at
    once and one for each tick of the new interval. *)
Lemma restart_after_terminal_counterexample :
  (let s := Poller.CrawlPage.run
              [Poller.Start 7; Poller.TimerFires 1%positive;
               Poller.Settles 2%positive (Client.Fulfilled (Sample.crawl7 "completed"))]
              Poller.CrawlPage.mounted in
   Poller.snapshot s = Some (Sample.crawl7 "completed")
   /\ Poller.timers s = ∅
   /\ Poller.fetches s = [7; 7]
   /\ Poller.fetches (Poller.CrawlPage.run [Poller.Start 7] s) = [7; 7; 7]
   /\ Poller.fetches
        (Poller.CrawlPage.run [Poller.Start 7; Poller.TimerFires 2%positive] s)
      = [7; 7; 7; 7])
  /\ (let s := Poller.Progress.run
                 [Poller.Start (Some "7"); Poller.TimerFires 1%positive;
                  Poller.Settles 2%positive (Client.Fulfilled (Sample.crawl7 "completed"))]
                 Poller.Progress.rendered in
      Poller.snapshot s = Some (Sample.crawl7 "completed")
      /\ Poller.timers s = ∅
      /\ Poller.fetches s = ["7"; "7"]
      /\ Poller.fetches
           (Poller.Progress.run [Poller.Start None; Poller.Start (Some "7")] s)
         = ["7"; "7"; "7"]
      /\ Poller.fetches
           (Poller.Progress.run
              [Poller.Start None; Poller.Start (Some "7"); Poller.TimerFires 2%positive] s)
         = ["7"; "7"; "7"; "7"]).
Proof.
  split; intros s; repeat split; vm_compute; reflexivity.
Qed.

(** C3, as the code has it.  The teardown is a total function of the page
    state (nothing in it can throw): before any poll was started it changes
    nothing, and running it twice is the same as running it once.  Once it
    has run no timer is active, and as long as polling is not started again
    no timer fires and no further [getCrawlStatus] call is made.  It
    leaves the stored snapshot and the requests in flight as they were:
    a request already sent is not cancelled, and on [Progress], whose
    cleanup also runs when [crawl_id] changes under a mounted view, its
    answer is still stored when it arrives. *)
Theorem teardown_cancels_timer_only :
  (Poller.CrawlPage.step Poller.CrawlPage.mounted Poller.Teardown
   = Poller.CrawlPage.mounted
   /\ (forall s : Poller.state Z,
         Poller.CrawlPage.step (Poller.CrawlPage.step s Poller.Teardown) Poller.Teardown
         = Poller.CrawlPage.step s Poller.Teardown)
   /\ (forall (s : Poller.state Z) (evs : list (Poller.event Z)),
         Poller.CrawlPage.reachable s ->
         Poller.no_start evs = true ->
         let s' := Poller.CrawlPage.step s Poller.Teardown in
         Poller.timers s' = ∅
         /\ Poller.snapshot s' = Poller.snapshot s
         /\ Poller.inflight s' = Poller.inflight s
         /\ Poller.fetches s' = Poller.fetches s
         /\ Poller.timers (Poller.CrawlPage.run evs s') = ∅
         /\ Poller.fetches (Poller.CrawlPage.run evs s') = Poller.fetches s))
  /\ (Poller.Progress.step Poller.Progress.rendered Poller.Teardown
      = Poller.Progress.rendered
      /\ (forall s : Poller.state string,
            Poller.Progress.step (Poller.Progress.step s Poller.Teardown) Poller.Teardown
            = Poller.Progress.step s Poller.Teardown)
      /\ (forall (s : Poller.state string) (evs : list (Poller.event (option string))),
            Poller.Progress.reachable s ->
            Poller.no_start evs = true ->
            let s' := Poller.Progress.step s Poller.Teardown in
            Poller.timers s' = ∅
            /\ Poller.snapshot s' = Poller.snapshot s
            /\ Poller.inflight s' = Poller.inflight s
            /\ Poller.fetches s' = Poller.fetches s
            /\ Poller.timers (Poller.Progress.run evs s') = ∅
            /\ Poller.fetches (Poller.Progress.run evs s') = Poller.fetches s)
      /\ (forall (s : Poller.state string) r j o v,
            Poller.inflight s !! r = Some (j, o) ->
            Poller.snapshot
              (Poller.Progress.step (Poller.Progress.step s Poller.Teardown)
                 (Poller.Settles r (Client.Fulfilled v)))
            = Some v)).
Proof.
  split; [split; [reflexivity|split]|split; [reflexivity|split; [|split]]].
  - intros s. apply teardown_idempotent.
  - intros s evs Hreach Hq s'.
    apply crawl_reachable_invariant in Hreach as [Hs _].
    assert (Ht : Poller.timers s' = ∅) by (apply teardown_timers, Hs).
    destruct (crawl_run_quiet evs s' Ht Hq) as [Ht' Hf'].
    assert (Hf : Poller.fetches s' = Poller.fetches s) by apply teardown_fetches.
    split; [exact Ht|]. split; [apply teardown_snapshot|].
    split; [apply teardown_inflight|]. split; [exact Hf|].
    split; [exact Ht'|congruence].
  - intros s. apply teardown_idempotent.
  - intros s evs Hreach Hq s'.
    apply progress_reachable_single_timer in Hreach as Hs.
    assert (Ht : Poller.timers s' = ∅) by (apply teardown_timers, Hs).
    destruct (progress_run_quiet evs s' Ht Hq) as [Ht' Hf'].
    assert (Hf : Poller.fetches s' = Poller.fetches s) by apply teardown_fetches.
    split; [exact Ht|]. split; [apply teardown_snapshot|].
    split; [apply teardown_inflight|]. split; [exact Hf|].
    split; [exact Ht'|congruence].
  - intros s r j o v Hr.
    apply (settles_fulfilled_snapshot Poller.Progress.initial_rejected _ r j o v).
    change (Poller.Progress.step s Poller.Teardown) with (Poller.teardown s).
    rewrite teardown_inflight. exact Hr.
Qed.

Lemma teardown_cancels_timer_only_witness :
  (let s := Poller.CrawlPage.run
              [Poller.Start 7; Poller.TimerFires 1%positive] Poller.CrawlPage.mounted in
   Poller.CrawlPage.reachable s
   /\ Poller.timers (Poller.CrawlPage.step s Poller.Teardown) = ∅
   /\ Poller.fetches
        (Poller.CrawlPage.run [Poller.TimerFires 1%positive; Poller.Teardown]
           (Poller.CrawlPage.step s Poller.Teardown))
      = Poller.fetches s)
  /\ (let s := Poller.Progress.run
                 [Poller.Start (Some "7"); Poller.TimerFires 1%positive]
                 Poller.Progress.rendered in
      Poller.Progress.reachable s
      /\ Poller.inflight s !! 2%positive = Some ("7", Poller.Tick)
      /\ Poller.timers (Poller.Progress.step s Poller.Teardown) = ∅
      /\ Poller.fetches
           (Poller.Progress.run [Poller.TimerFires 1%positive; Poller.Teardown]
              (Poller.Progress.step s Poller.Teardown))
         = Poller.fetches s
      /\ Poller.snapshot
           (Poller.Progress.step (Poller.Progress.step s Poller.Teardown)
              (Poller.Settles 2%positive (Client.Fulfilled (Sample.crawl7 "running"))))
         = Some (Sample.crawl7 "running")).
Proof.
  destruct teardown_cancels_timer_only as [(_ & _ & HC) (_ & _ & HP & HW)].
  split; intros s.
  - assert (Hreach : Poller.CrawlPage.reachable s) by (eexists; reflexivity).
    destruct (HC s [Poller.TimerFires 1%positive; Poller.Teardown] Hreach eq_refl)
      as (H1 & _ & _ & _ & _ & H6).
    split; [exact Hreach|]. split; [exact H1|exact H6].
  - assert (Hreach : Poller.Progress.reachable s) by (eexists; reflexivity).
    assert (Hr : Poller.inflight s !! 2%positive = Some ("7", Poller.Tick))
      by (vm_compute; reflexivity).
    destruct (HP s [Poller.TimerFires 1%positive; Poller.Teardown] Hreach eq_refl)
      as (H1 & _ & _ & _ & _ & H6).
    split; [exact Hreach|]. split; [exact Hr|]. split; [exact H1|].
    split; [exact H6|].
    apply (HW s 2%positive "7" Poller.Tick (Sample.crawl7 "running") Hr).
Defined.

(** C3 as worded fails: the cleanup cancels the timer, not the request a
    tick has already sent.  On [Progress], polling for [crawl_id=7] with a
    tick's request in flight, the parameter is dropped from the URL: React
    runs the cleanup and the effect returns at once; the view stays
    mounted.  When the request is then answered its continuation stores the
    answer, after the teardown has returned. *)
Lemma write_after_teardown_counterexample :
  let s := Poller.Progress.run
             [Poller.Start (Some "7"); Poller.TimerFires 1%positive]
             Poller.Progress.rendered in
  let stopped := Poller.teardown s in
  let idle := Poller.Progress.effect None stopped in
  let later := Poller.Progress.step idle
                 (Poller.Settles 2%positive (Client.Fulfilled (Sample.crawl7 "running"))) in
  Poller.Progress.step s (Poller.Start None) = idle
  /\ Poller.timers stopped = ∅
  /\ Poller.snapshot stopped = None
  /\ Poller.snapshot idle = None
  /\ Poller.snapshot later = Some (Sample.crawl7 "running")
  /\ Poller.snapshot later <> Poller.snapshot stopped.
Proof.
  intros s stopped idle later.
  split; [reflexivity|]. split; [vm_compute; reflexivity|].
  split; [reflexivity|]. split; [reflexivity|]. split; [reflexivity|].
  vm_compute. discriminate.
Qed.

(** * Further properties *)

(** ** The request interceptor and the session *)

Section RequestSide.
Import Browser Client ClientRequest.

Lemma rejected_world (T : Type) (error : AxiosError) (w : World) :
  snd (@response_rejected T error w)
  = if is_unauthorized error then torn_down w else w.
Proof.
  destruct (is_unauthorized error) eqn:H.
  - rewrite (response_rejected_unauthorized T error w H). reflexivity.
  - rewrite (response_rejected_other T error w H). reflexivity.
Qed.

Lemma torn_down_store (w : World) :
  localStorage (torn_down w) = delete "user" (delete "access_token" (localStorage w)).
Proof. unfold torn_down. destruct (on_login_page w); reflexivity. Qed.

Lemma torn_down_on_login_page (w : World) : on_login_page (torn_down w) = true.
Proof.
  unfold torn_down. destruct (on_login_page w) eqn:H; [exact H|reflexivity].
Qed.

Lemma torn_down_idempotent (w : World) : torn_down (torn_down w) = torn_down w.
Proof.
  unfold torn_down at 1. rewrite torn_down_on_login_page. cbn zeta.
  unfold removeItem. cbn [localStorage pathname href_assignments].
  rewrite torn_down_store.
  destruct (torn_down w) as [ls pn hs] eqn:E.
  apply (f_equal localStorage) in E as Els. rewrite torn_down_store in Els.
  cbn in Els. subst ls. f_equal.
  rewrite (delete_id _ "access_token").
  - apply delete_id. apply lookup_delete_eq.
  - rewrite lookup_delete_ne by discriminate. apply lookup_delete_eq.
Qed.

Lemma request_fulfilled_no_token (config : RequestConfig) (w : World) :
  getItem "access_token" w = None -> request_fulfilled config w = config.
Proof. intros H. unfold request_fulfilled. rewrite H. reflexivity. Qed.

Lemma torn_down_no_token (w : World) : getItem "access_token" (torn_down w) = None.
Proof.
  unfold getItem. rewrite torn_down_store.
  rewrite lookup_delete_ne by discriminate. apply lookup_delete_eq.
Qed.

Lemma torn_down_no_user (w : World) : getItem "user" (torn_down w) = None.
Proof. unfold getItem. rewrite torn_down_store. apply lookup_delete_eq. Qed.

Lemma removed_twice (store : gmap string string) :
  delete "user" (delete "access_token" (delete "user" (delete "access_token" store)))
  = delete "user" (delete "access_token" store).
Proof.
  apply map_eq. intros k.
  destruct (decide (k = "user")) as [->|Hu];
    [rewrite !lookup_delete_eq; reflexivity|].
  destruct (decide (k = "access_token")) as [->|Ht].
  - rewrite !(lookup_delete_ne _ "user" "access_token") by discriminate.
    rewrite !lookup_delete_eq. reflexivity.
  - repeat first [rewrite (lookup_delete_ne _ "user" k) by congruence
                 |rewrite (lookup_delete_ne _ "access_token" k) by congruence].
    reflexivity.
Qed.

(** A burst of rejections, as one function of the browser state. *)
Lemma after_rejections_value (errors : list AxiosError) (w : World) :
  after_rejections errors w
  = mkWorld
      (if existsb is_unauthorized errors
       then delete "user" (delete "access_token" (localStorage w))
       else localStorage w)
      (pathname w)
      (if on_login_page w then href_assignments w
       else (List.repeat "/login" (List.length (List.filter is_unauthorized errors))
             ++ href_assignments w)%list).
Proof.
  unfold after_rejections.
  assert (Hgen : forall w0 w',
    pathname w' = pathname w0 ->
    fold_left (fun w1 error => in_document w0 (snd (@response_rejected unit error w1)))
      errors w'
    = mkWorld
        (if existsb is_unauthorized errors
         then delete "user" (delete "access_token" (localStorage w'))
         else localStorage w')
        (pathname w0)
        (if on_login_page w0 then href_assignments w'
         else (List.repeat "/login" (List.length (List.filter is_unauthorized errors))
               ++ href_assignments w')%list)).
  { induction errors as [|e es IH]; intros w0 w' Hp.
    - cbn. destruct w' as [ls pn hs]. cbn in Hp. subst pn.
      destruct (on_login_page w0); reflexivity.
    - cbn [fold_left existsb List.filter].
      assert (Hon : on_login_page w' = on_login_page w0)
        by (unfold on_login_page; rewrite Hp; reflexivity).
      rewrite IH by reflexivity.
      rewrite rejected_world. unfold torn_down. rewrite Hon.
      destruct (is_unauthorized e) eqn:He; cbn [orb].
      + destruct (on_login_page w0) eqn:Hw0; cbn.
        * f_equal. destruct (existsb is_unauthorized es); [|reflexivity].
          apply removed_twice.
        * f_equal.
          -- destruct (existsb is_unauthorized es); [|reflexivity].
             apply removed_twice.
          -- change ("/login" :: href_assignments w')
               with (["/login"] ++ href_assignments w')%list.
             rewrite List.app_assoc, <- List.repeat_cons. reflexivity.
      + destruct w' as [ls pn hs]. reflexivity. }
  apply Hgen. reflexivity.
Qed.

End RequestSide.

(** X1. A request carries [Authorization: Bearer <token>] exactly when the
    store holds a non-empty token, and no other header is touched.  So the
    request after a fulfilled login carries the token just returned, while
    the request after a logout or after a 401 answer goes out with the
    headers it was built with. *)
Theorem bearer_follows_store :
  forall (JSON_stringify : Types.User -> string)
         (config : ClientRequest.RequestConfig) (w : Browser.World),
    (forall token,
       Browser.getItem "access_token" w = Some token -> token <> "" ->
       ClientRequest.headers (ClientRequest.request_fulfilled config w) !! "Authorization"
       = Some ("Bearer " ++ token)
       /\ ClientRequest.config_url (ClientRequest.request_fulfilled config w)
          = ClientRequest.config_url config
       /\ forall h, h <> "Authorization" ->
            ClientRequest.headers (ClientRequest.request_fulfilled config w) !! h
            = ClientRequest.headers config !! h)
    /\ (Browser.getItem "access_token" w = None \/ Browser.getItem "access_token" w = Some "" ->
        ClientRequest.request_fulfilled config w = config)
    /\ (forall arg password country response s s' w',
          AuthApi.access_token response <> "" ->
          AuthContext.login JSON_stringify arg password country
            (Client.Fulfilled response) s w = (Client.Fulfilled tt, s', w') ->
          ClientRequest.headers (ClientRequest.request_fulfilled config w') !! "Authorization"
          = Some ("Bearer " ++ AuthApi.access_token response))
    /\ (forall s,
          ClientRequest.request_fulfilled config (snd (AuthContext.logout s w)) = config)
    /\ (forall (T : Type) error,
          Client.is_unauthorized error = true ->
          ClientRequest.request_fulfilled config (snd (@Client.response_rejected T error w))
          = config).
Proof.
  intros JSON_stringify config w.
  split; [|split; [|split; [|split]]].
  - intros token Ht Hne. unfold ClientRequest.request_fulfilled.
    rewrite Ht, (truthy_string_true token Hne). cbn.
    split; [apply lookup_insert_eq|]. split; [reflexivity|].
    intros h Hh. apply lookup_insert_ne. congruence.
  - intros [H|H]; unfold ClientRequest.request_fulfilled; rewrite H; reflexivity.
  - intros arg password country response s s' w' Hne Hl.
    rewrite login_fulfilled in Hl. injection Hl as _ <-.
    unfold ClientRequest.request_fulfilled, Browser.getItem, Browser.setItem. cbn.
    rewrite lookup_insert_ne by discriminate. rewrite lookup_insert_eq.
    rewrite (truthy_string_true _ Hne). cbn. apply lookup_insert_eq.
  - intros s. apply request_fulfilled_no_token.
    unfold AuthContext.logout, Browser.getItem, Browser.removeItem. cbn.
    rewrite lookup_delete_ne by discriminate. apply lookup_delete_eq.
  - intros T error H. rewrite rejected_world, H.
    apply request_fulfilled_no_token, torn_down_no_token.
Qed.

Lemma bearer_follows_store_witness :
  Browser.getItem "access_token" Sample.w_library = Some "abc"
  /\ ClientRequest.headers
       (ClientRequest.request_fulfilled Fixture.get_documents Sample.w_library)
       !! "Authorization" = Some "Bearer abc"
  /\ ClientRequest.headers
       (ClientRequest.request_fulfilled Fixture.get_documents Sample.w_library)
       !! "Content-Type" = Some "application/json"
  /\ ClientRequest.request_fulfilled Fixture.get_documents Sample.w_empty
     = Fixture.get_documents
  /\ ClientRequest.request_fulfilled Fixture.get_documents
       (snd (@Client.response_rejected unit Sample.err401 Sample.w_library))
     = Fixture.get_documents.
Proof.
  destruct (bearer_follows_store Sample.stringify_by_name Fixture.get_documents
              Sample.w_library) as (H1 & _ & _ & _ & H5).
  destruct (H1 "abc" eq_refl ltac:(discriminate)) as (Ha & _ & Hb).
  destruct (bearer_follows_store Sample.stringify_by_name Fixture.get_documents
              Sample.w_empty) as (_ & H2 & _).
  split; [reflexivity|]. split; [exact Ha|].
  split; [rewrite (Hb "Content-Type" ltac:(discriminate)); reflexivity|].
  split; [apply H2; left; reflexivity|].
  apply H5. reflexivity.
Defined.

(** X2. A burst of rejected responses, all seen by the interceptor in the
    same document.  If none of them was a 401 the browser state is
    untouched.  If one was, the store is left without token and user and
    with every other key as it was.  On the login page the location is left
    alone; elsewhere the path read stays that of the document, so
    [window.location.href] is assigned [/login] once for each 401 of the
    burst, not once for the burst.  The order of the answers does not
    matter. *)
Theorem rejections_clear_session_in_any_order :
  forall (errors : list Client.AxiosError) (w : Browser.World),
    (forallb (fun e => negb (Client.is_unauthorized e)) errors = true ->
       ClientRequest.after_rejections errors w = w)
    /\ (existsb Client.is_unauthorized errors = true ->
          Browser.localStorage (ClientRequest.after_rejections errors w)
          = delete "user" (delete "access_token" (Browser.localStorage w)))
    /\ Browser.pathname (ClientRequest.after_rejections errors w) = Browser.pathname w
    /\ (Client.on_login_page w = true ->
          Browser.href_assignments (ClientRequest.after_rejections errors w)
          = Browser.href_assignments w)
    /\ (Client.on_login_page w = false ->
          Browser.href_assignments (ClientRequest.after_rejections errors w)
          = (List.repeat "/login"
               (List.length (List.filter Client.is_unauthorized errors))
             ++ Browser.href_assignments w)%list)
    /\ (forall errors', Permutation errors errors' ->
          ClientRequest.after_rejections errors' w
          = ClientRequest.after_rejections errors w).
Proof.
  intros errors w.
  assert (Hnone : forall es, forallb (fun e => negb (Client.is_unauthorized e)) es = true ->
                  existsb Client.is_unauthorized es = false
                  /\ List.filter Client.is_unauthorized es = []).
  { induction es as [|e es IH]; cbn; [split; reflexivity|].
    intros H. apply andb_prop in H as [He Hes].
    apply negb_true_iff in He. rewrite He. exact (IH Hes). }
  split; [|split; [|split; [|split; [|split]]]].
  - intros H. rewrite after_rejections_value.
    destruct (Hnone errors H) as [-> ->]. cbn.
    destruct (Client.on_login_page w); destruct w as [ls pn hs]; reflexivity.
  - intros H. rewrite after_rejections_value, H. reflexivity.
  - rewrite after_rejections_value. reflexivity.
  - intros Hon. rewrite after_rejections_value, Hon. reflexivity.
  - intros Hoff. rewrite after_rejections_value, Hoff. reflexivity.
  - intros errors' Hp. rewrite !after_rejections_value.
    assert (existsb Client.is_unauthorized errors'
            = existsb Client.is_unauthorized errors) as ->.
    { apply eq_true_iff_eq. rewrite !existsb_exists.
      split; intros (e & Hin & He); exists e; (split; [|exact He]).
      - apply (Permutation_in e (Permutation_sym Hp)) in Hin. exact Hin.
      - apply (Permutation_in e Hp) in Hin. exact Hin. }
    assert (List.length (List.filter Client.is_unauthorized errors')
            = List.length (List.filter Client.is_unauthorized errors)) as ->;
      [|reflexivity].
    clear Hnone. induction Hp as [|x l l' _ IH|x y l|l l' l'' _ IH1 _ IH2].
    + reflexivity.
    + cbn. destruct (Client.is_unauthorized x); cbn; congruence.
    + cbn. destruct (Client.is_unauthorized x), (Client.is_unauthorized y); reflexivity.
    + congruence.
Qed.

Lemma rejections_clear_session_in_any_order_witness :
  ClientRequest.after_rejections [Sample.err500; Sample.err_network] Sample.w_library
  = Sample.w_library
  /\ Client.on_login_page Sample.w_library = false
  /\ Browser.localStorage
       (ClientRequest.after_rejections
          [Sample.err500; Sample.err401; Sample.login401; Sample.err401] Sample.w_library)
     = delete "user" (delete "access_token" (Browser.localStorage Sample.w_library))
  /\ Browser.href_assignments
       (ClientRequest.after_rejections
          [Sample.err500; Sample.err401; Sample.login401; Sample.err401] Sample.w_library)
     = ["/login"; "/login"; "/login"]
  /\ Browser.href_assignments
       (ClientRequest.after_rejections
          [Sample.err500; Sample.err401; Sample.login401; Sample.err401] Sample.w_login)
     = [].
Proof.
  destruct (rejections_clear_session_in_any_order [Sample.err500; Sample.err_network]
              Sample.w_library) as (H1 & _).
  destruct (rejections_clear_session_in_any_order
              [Sample.err500; Sample.err401; Sample.login401; Sample.err401]
              Sample.w_library) as (_ & H2 & _ & _ & H3 & _).
  destruct (rejections_clear_session_in_any_order
              [Sample.err500; Sample.err401; Sample.login401; Sample.err401]
              Sample.w_login) as (_ & _ & _ & H4 & _).
  split; [apply H1; reflexivity|].
  split; [reflexivity|].
  split; [apply H2; reflexivity|].
  split; [rewrite (H3 eq_refl); reflexivity|].
  rewrite (H4 eq_refl). reflexivity.
Defined.

(** ** The session controller, continued *)

Section SessionLife.
Import Browser Client Types.

Lemma truthy_string_false (t : string) : Js.truthy_string t = false <-> t = "".
Proof.
  unfold Js.truthy_string. destruct (String.eqb_spec t ""); cbn; split; congruence.
Qed.

Lemma boot_some JSON_parse (w : World) (s : AuthContext.AuthState) :
  (forall text, getItem "user" w = Some text -> text <> "" ->
                exists u, JSON_parse text = Some u) ->
  exists s', AuthContext.boot JSON_parse w s = Some s'
             /\ AuthContext.loading s' = false.
Proof.
  intros H. unfold AuthContext.boot.
  destruct (getItem "user" w) as [text|] eqn:Hu.
  - destruct (Js.truthy_string text) eqn:Ht.
    + assert (Hne : text <> "").
      { intros ->. discriminate. }
      destruct (H text eq_refl Hne) as [u ->].
      eexists. split; reflexivity.
    + eexists. split; reflexivity.
  - eexists. split; reflexivity.
Qed.

(** What the mount effect leaves in the provider when it runs through. *)
Lemma boot_cells JSON_parse (w : World) (s s' : AuthContext.AuthState) :
  AuthContext.boot JSON_parse w s = Some s' ->
  AuthContext.loading s' = false
  /\ (forall text, getItem "user" w = Some text -> text <> "" ->
        JSON_parse text = Some (AuthContext.user s'))
  /\ (getItem "user" w = None \/ getItem "user" w = Some "" ->
        AuthContext.user s' = AuthContext.user s)
  /\ (forall t, getItem "access_token" w = Some t -> t <> "" ->
        AuthContext.token s' = Some t)
  /\ (getItem "access_token" w = None \/ getItem "access_token" w = Some "" ->
        AuthContext.token s' = AuthContext.token s).
Proof.
  unfold AuthContext.boot. intros Hb.
  { assert (Htok : forall s1,
      let s2 := match Browser.getItem "access_token" w with
                | Some t => if Js.truthy_string t
                            then AuthContext.setToken (Some t) s1 else s1
                | None => s1
                end in
      AuthContext.user s2 = AuthContext.user s1
      /\ (forall t, Browser.getItem "access_token" w = Some t -> t <> "" ->
            AuthContext.token s2 = Some t)
      /\ (Browser.getItem "access_token" w = None
          \/ Browser.getItem "access_token" w = Some "" ->
            AuthContext.token s2 = AuthContext.token s1)).
    { intros s1. destruct (Browser.getItem "access_token" w) as [t|].
      - destruct (Js.truthy_string t) eqn:Ht; cbn.
        + split; [reflexivity|]. split; [intros t' [= <-] _; reflexivity|].
          intros [H|[= ->]]; discriminate.
        + apply truthy_string_false in Ht. subst t.
          split; [reflexivity|]. split; [intros t' [= <-] Hne; contradiction|].
          reflexivity.
      - cbn. split; [reflexivity|]. split; [discriminate|reflexivity]. }
    destruct (Browser.getItem "user" w) as [text|] eqn:Hu.
    + destruct (Js.truthy_string text) eqn:Ht.
      * destruct (JSON_parse text) as [u|] eqn:Hp; [|discriminate].
        injection Hb as <-. cbn.
        destruct (Htok (AuthContext.setUser u s)) as (H1 & H2 & H3).
        split; [reflexivity|]. split.
        { intros t' [= <-] _. rewrite Hp. f_equal. symmetry. exact H1. }
        split.
        { intros [H|[= ->]]; discriminate. }
        split; [exact H2|exact H3].
      * apply truthy_string_false in Ht. subst text.
        injection Hb as <-. cbn.
        destruct (Htok s) as (H1 & H2 & H3).
        split; [reflexivity|]. split.
        { intros t' [= <-] Hne. contradiction. }
        split; [intros _; exact H1|]. split; [exact H2|exact H3].
    + injection Hb as <-. cbn.
      destruct (Htok s) as (H1 & H2 & H3).
      split; [reflexivity|]. split; [discriminate|].
      split; [intros _; exact H1|]. split; [exact H2|exact H3]. }
Qed.

End SessionLife.

(** X3. The mount effect is aborted in exactly one case: the store holds a
    non-empty [user] text that [JSON.parse] rejects; then [loading] is
    never cleared.  In every other case it ends with [loading = false],
    the user cell holding what the stored text parsed to (and left alone
    when the text is missing or empty) and the token cell holding the
    stored token (left alone when it is missing or empty). *)
Theorem boot_aborts_only_on_unparsable_user :
  forall (JSON_parse : string -> option (option Types.User))
         (w : Browser.World) (s : AuthContext.AuthState),
    (AuthContext.boot JSON_parse w s = None
     <-> exists text, Browser.getItem "user" w = Some text
                      /\ text <> "" /\ JSON_parse text = None)
    /\ (forall s', AuthContext.boot JSON_parse w s = Some s' ->
          AuthContext.loading s' = false
          /\ (forall text, Browser.getItem "user" w = Some text -> text <> "" ->
                JSON_parse text = Some (AuthContext.user s'))
          /\ (Browser.getItem "user" w = None \/ Browser.getItem "user" w = Some "" ->
                AuthContext.user s' = AuthContext.user s)
          /\ (forall t, Browser.getItem "access_token" w = Some t -> t <> "" ->
                AuthContext.token s' = Some t)
          /\ (Browser.getItem "access_token" w = None
              \/ Browser.getItem "access_token" w = Some "" ->
                AuthContext.token s' = AuthContext.token s)).
Proof.
  intros JSON_parse w s. unfold AuthContext.boot. split.
  - destruct (Browser.getItem "user" w) as [text|] eqn:Hu.
    + destruct (Js.truthy_string text) eqn:Ht.
      * assert (Hne : text <> "") by (intros ->; discriminate).
        destruct (JSON_parse text) as [u|] eqn:Hp.
        -- split; [discriminate|]. intros (t' & [= <-] & _ & Hp'). congruence.
        -- split; [|reflexivity]. intros _. exists text. auto.
      * apply truthy_string_false in Ht. subst text.
        split; [discriminate|]. intros (t' & [= <-] & Hne & _). contradiction.
    + split; [discriminate|]. intros (t' & Ht' & _). discriminate.
  - intros s' Hb. exact (boot_cells JSON_parse w s s' Hb).
Qed.

Lemma boot_aborts_only_on_unparsable_user_witness :
  AuthContext.boot Sample.parse_null_only Sample.w_library AuthContext.initial = None
  /\ exists s',
       AuthContext.boot Fixture.parse_alice
         (Browser.setItem "user" "{alice}" Sample.w_library) AuthContext.initial
       = Some s'
       /\ AuthContext.loading s' = false
       /\ AuthContext.user s' = Some Sample.alice
       /\ AuthContext.token s' = Some "abc".
Proof.
  split.
  - apply (boot_aborts_only_on_unparsable_user Sample.parse_null_only
             Sample.w_library AuthContext.initial).
    exists "{ }". repeat split. discriminate.
  - eexists. split; [reflexivity|].
    destruct (boot_aborts_only_on_unparsable_user Fixture.parse_alice
                (Browser.setItem "user" "{alice}" Sample.w_library)
                AuthContext.initial) as [_ H].
    destruct (H _ eq_refl) as (H1 & H2 & _ & H4 & _).
    split; [exact H1|]. split.
    + specialize (H2 "{alice}" eq_refl ltac:(discriminate)).
      change (Fixture.parse_alice "{alice}") with (Some (Some Sample.alice)) in H2.
      assert (E : forall a b : option Types.User, Some a = Some b -> b = a)
        by (intros a b [= ->]; reflexivity).
      exact (E _ _ H2).
    + apply (H4 "abc" eq_refl). discriminate.
Defined.

(** X4. Reloading after a login restores the session: when [JSON.parse]
    gives back the user that [JSON.stringify] wrote (as a non-empty text)
    and the token is non-empty, the mount effect run on the store a
    fulfilled [login] left ends authenticated with that very user and
    token. *)
Theorem reload_restores_session :
  forall (JSON_stringify : Types.User -> string)
         (JSON_parse : string -> option (option Types.User))
         arg password country response s w s' w',
    JSON_parse (JSON_stringify (AuthApi.user response))
      = Some (Some (AuthApi.user response)) ->
    JSON_stringify (AuthApi.user response) <> "" ->
    AuthApi.access_token response <> "" ->
    AuthContext.login JSON_stringify arg password country
      (Client.Fulfilled response) s w = (Client.Fulfilled tt, s', w') ->
    AuthContext.boot JSON_parse w' AuthContext.initial
    = Some (AuthContext.mkAuthState (Some (AuthApi.user response))
              (Some (AuthApi.access_token response)) false)
    /\ AuthContext.user s' = Some (AuthApi.user response)
    /\ AuthContext.token s' = Some (AuthApi.access_token response).
Proof.
  intros JSON_stringify JSON_parse arg password country response s w s' w'
    Hrt Hne Htok Hl.
  rewrite login_fulfilled in Hl. injection Hl as <- <-.
  split; [|split; reflexivity].
  unfold AuthContext.boot, Browser.getItem, Browser.setItem. cbn.
  rewrite lookup_insert_eq.
  rewrite lookup_insert_ne by discriminate. rewrite lookup_insert_eq.
  rewrite (truthy_string_true _ Hne), Hrt, (truthy_string_true _ Htok).
  reflexivity.
Qed.

Lemma reload_restores_session_witness :
  exists s' w',
    AuthContext.login Fixture.stringify_alice (inl "alice") (Some "secret") None
      (Client.Fulfilled Fixture.login_ok) AuthContext.initial Sample.w_empty
    = (Client.Fulfilled tt, s', w')
    /\ AuthContext.boot Fixture.parse_alice w' AuthContext.initial
       = Some (AuthContext.mkAuthState (Some Sample.alice) (Some "abc") false).
Proof.
  eexists _, _. split; [apply login_fulfilled|].
  apply (reload_restores_session Fixture.stringify_alice Fixture.parse_alice
           (inl "alice") (Some "secret") None Fixture.login_ok
           AuthContext.initial Sample.w_empty _ _ eq_refl
           ltac:(discriminate) ltac:(discriminate) (login_fulfilled _ _ _ _ _ _ _)).
Defined.

(** X5. [logout] removes the token and the user from the store and from
    the provider, touches no other key and does not navigate; doing it
    twice is the same as doing it once; the mount effect run afterwards
    ends unauthenticated whatever [JSON.parse] does; and on a store that
    held neither key, a fulfilled [login] followed by [logout] gives the
    store back as it was. *)
Theorem logout_clears_session :
  forall (JSON_stringify : Types.User -> string)
         (JSON_parse : string -> option (option Types.User))
         (s : AuthContext.AuthState) (w : Browser.World),
    let '(s1, w1) := AuthContext.logout s w in
    AuthContext.user s1 = None /\ AuthContext.token s1 = None
    /\ AuthContext.loading s1 = AuthContext.loading s
    /\ Browser.getItem "access_token" w1 = None
    /\ Browser.getItem "user" w1 = None
    /\ (forall k, k <> "access_token" -> k <> "user" ->
          Browser.getItem k w1 = Browser.getItem k w)
    /\ Browser.pathname w1 = Browser.pathname w
    /\ Browser.href_assignments w1 = Browser.href_assignments w
    /\ AuthContext.logout s1 w1 = (s1, w1)
    /\ AuthContext.boot JSON_parse w1 AuthContext.initial
       = Some (AuthContext.mkAuthState None None false)
    /\ (forall arg password country response s' w',
          Browser.getItem "access_token" w = None ->
          Browser.getItem "user" w = None ->
          AuthContext.login JSON_stringify arg password country
            (Client.Fulfilled response) s w = (Client.Fulfilled tt, s', w') ->
          Browser.localStorage (snd (AuthContext.logout s' w'))
          = Browser.localStorage w).
Proof.
  intros JSON_stringify JSON_parse s w.
  assert (Hlast : forall arg password country response s' w',
            Browser.getItem "access_token" w = None ->
            Browser.getItem "user" w = None ->
            AuthContext.login JSON_stringify arg password country
              (Client.Fulfilled response) s w = (Client.Fulfilled tt, s', w') ->
            Browser.localStorage (snd (AuthContext.logout s' w'))
            = Browser.localStorage w).
  { intros arg password country response s' w' Ht Hu Hl.
    rewrite login_fulfilled in Hl. injection Hl as _ <-. cbn.
    rewrite delete_insert_ne by discriminate.
    rewrite delete_insert_eq.
    rewrite delete_insert_eq.
    rewrite (delete_id _ "user") by (rewrite lookup_delete_ne by discriminate; exact Hu).
    apply delete_id, Ht. }
  unfold AuthContext.logout, Browser.getItem, Browser.removeItem. cbn.
  split; [reflexivity|]. split; [reflexivity|]. split; [reflexivity|].
  split; [rewrite lookup_delete_ne by discriminate; apply lookup_delete_eq|].
  split; [apply lookup_delete_eq|].
  split.
  { intros k H1 H2. rewrite !lookup_delete_ne by congruence. reflexivity. }
  split; [reflexivity|]. split; [reflexivity|].
  split.
  { f_equal. f_equal.
    rewrite (delete_id _ "access_token").
    - apply delete_id. apply lookup_delete_eq.
    - rewrite lookup_delete_ne by discriminate. apply lookup_delete_eq. }
  split.
  { unfold AuthContext.boot, Browser.getItem. cbn.
    rewrite lookup_delete_eq.
    rewrite lookup_delete_ne by discriminate. rewrite lookup_delete_eq.
    reflexivity. }
  exact Hlast.
Qed.

Lemma logout_clears_session_witness :
  Browser.getItem "access_token" Sample.w_empty = None
  /\ Browser.getItem "user" Sample.w_empty = None
  /\ exists s' w',
       AuthContext.login Sample.stringify_by_name (inl "alice") (Some "secret") None
         (Client.Fulfilled Fixture.login_ok) AuthContext.initial Sample.w_empty
       = (Client.Fulfilled tt, s', w')
       /\ Browser.localStorage (snd (AuthContext.logout s' w'))
          = Browser.localStorage Sample.w_empty.
Proof.
  split; [reflexivity|]. split; [reflexivity|].
  eexists _, _. split; [apply login_fulfilled|].
  pose proof (logout_clears_session Sample.stringify_by_name Sample.parse_null_only
                AuthContext.initial Sample.w_empty) as H.
  cbv beta iota zeta delta [AuthContext.logout] in H.
  destruct H as (_ & _ & _ & _ & _ & _ & _ & _ & _ & _ & H).
  apply (H (inl "alice") (Some "secret") None Fixture.login_ok _ _
           eq_refl eq_refl (login_fulfilled _ _ _ _ _ _ _)).
Defined.

(** ** Routes and forms *)

Section RoutesAndForms.
Import Browser Client Types.

Lemma ProtectedRoute_children (s : AuthContext.AuthState) :
  Routes.ProtectedRoute s = Routes.Children <-> AuthContext.isAuthenticated s = true.
Proof.
  unfold Routes.ProtectedRoute.
  destruct (AuthContext.isAuthenticated s); cbn; split; congruence.
Qed.

Lemma ProtectedRoute_navigate (s : AuthContext.AuthState) :
  AuthContext.isAuthenticated s = false ->
  Routes.ProtectedRoute s = Routes.Navigate "/login".
Proof. intros H. unfold Routes.ProtectedRoute. rewrite H. reflexivity. Qed.

Lemma detail_or_nonempty (err : AxiosError) (fallback : string) :
  fallback <> "" -> Forms.detail_or err fallback <> Text "".
Proof.
  intros Hf. unfold Forms.detail_or.
  assert (Hfb : Text fallback <> Text "") by congruence.
  destruct (response err) as [r|]; [|exact Hfb].
  destruct (detail r) as [[d|j]|]; [|discriminate|exact Hfb].
  destruct (Js.truthy_string d) eqn:Hd; [|exact Hfb].
  intros [= ->]. discriminate.
Qed.

Lemma detail_or_detail (err : AxiosError) (fallback : string) r d :
  response err = Some r -> detail r = Some (Text d) -> d <> "" ->
  Forms.detail_or err fallback = Text d.
Proof.
  intros Hr Hd Hne. unfold Forms.detail_or.
  rewrite Hr, Hd, (truthy_string_true d Hne). reflexivity.
Qed.

Lemma detail_or_structured (err : AxiosError) (fallback : string) r j :
  response err = Some r -> detail r = Some (Structured j) ->
  Forms.detail_or err fallback = Structured j.
Proof.
  intros Hr Hd. unfold Forms.detail_or. rewrite Hr, Hd. reflexivity.
Qed.

Lemma detail_or_fallback (err : AxiosError) (fallback : string) :
  response err = None
  \/ (exists r, response err = Some r
                /\ (detail r = None \/ detail r = Some (Text ""))) ->
  Forms.detail_or err fallback = Text fallback.
Proof.
  unfold Forms.detail_or.
  intros [Hr|(r & Hr & [Hd|Hd])]; rewrite Hr; [reflexivity| |]; rewrite Hd; reflexivity.
Qed.

(** The error cell after a failed submit. *)
Lemma failed_submit_error (err : AxiosError) (fallback : string) (f : Forms.form) :
  fallback <> "" ->
  let f' := Forms.setLoading false (Forms.setError (Forms.detail_or err fallback) f) in
  Forms.loading f' = false
  /\ Forms.has_error f' = true
  /\ (forall r d, response err = Some r -> detail r = Some (Text d) -> d <> "" ->
        Forms.error f' = Text d)
  /\ (forall r j, response err = Some r -> detail r = Some (Structured j) ->
        Forms.error f' = Structured j)
  /\ (response err = None
      \/ (exists r, response err = Some r
                    /\ (detail r = None \/ detail r = Some (Text ""))) ->
        Forms.error f' = Text fallback).
Proof.
  intros Hf f'. subst f'.
  cbn [Forms.loading Forms.error Forms.setLoading Forms.setError].
  split; [reflexivity|].
  split.
  { unfold Forms.has_error.
    cbn [Forms.loading Forms.error Forms.setLoading Forms.setError].
    pose proof (detail_or_nonempty err fallback Hf) as Hne.
    destruct (Forms.detail_or err fallback) as [t|j]; [|reflexivity].
    apply truthy_string_true. congruence. }
  split; [intros r d Hr Hd Hne; apply (detail_or_detail err _ r d Hr Hd Hne)|].
  split; [intros r j Hr Hd; apply (detail_or_structured err _ r j Hr Hd)|].
  apply detail_or_fallback.
Qed.

End RoutesAndForms.

(** X6. A protected route shows its children exactly when the provider
    holds a user and a non-empty token, and sends to [/login] otherwise:
    after [logout], after the mount effect has run on a store from which a
    401 removed the session, and after the mount effect on any store that
    lacks the user or the token; it shows its children after a [login]
    answered with a non-empty token. *)
Theorem protected_route_follows_session :
  forall (JSON_stringify : Types.User -> string)
         (JSON_parse : string -> option (option Types.User)),
    (forall s,
       Routes.ProtectedRoute s = Routes.Children
       <-> (exists u, AuthContext.user s = Some u)
           /\ (exists t, AuthContext.token s = Some t /\ t <> ""))
    /\ (forall s, Routes.ProtectedRoute s = Routes.Children
                  \/ Routes.ProtectedRoute s = Routes.Navigate "/login")
    /\ (forall s w,
          Routes.ProtectedRoute (fst (AuthContext.logout s w))
          = Routes.Navigate "/login")
    /\ (forall (T : Type) error w,
          Client.is_unauthorized error = true ->
          exists s',
            AuthContext.boot JSON_parse (snd (@Client.response_rejected T error w))
              AuthContext.initial = Some s'
            /\ Routes.ProtectedRoute s' = Routes.Navigate "/login")
    /\ (forall w s',
          Browser.getItem "user" w = None \/ Browser.getItem "access_token" w = None ->
          AuthContext.boot JSON_parse w AuthContext.initial = Some s' ->
          Routes.ProtectedRoute s' = Routes.Navigate "/login")
    /\ (forall arg password country response s w s' w',
          AuthApi.access_token response <> "" ->
          AuthContext.login JSON_stringify arg password country
            (Client.Fulfilled response) s w = (Client.Fulfilled tt, s', w') ->
          Routes.ProtectedRoute s' = Routes.Children).
Proof.
  intros JSON_stringify JSON_parse.
  split; [|split; [|split; [|split; [|split]]]].
  - intros s. rewrite ProtectedRoute_children. apply isAuthenticated_spec.
  - intros s. unfold Routes.ProtectedRoute.
    destruct (AuthContext.isAuthenticated s); auto.
  - intros s w. apply ProtectedRoute_navigate. reflexivity.
  - intros T error w H. rewrite rejected_world, H.
    unfold AuthContext.boot.
    rewrite torn_down_no_user, torn_down_no_token.
    eexists. split; [reflexivity|]. apply ProtectedRoute_navigate. reflexivity.
  - intros w s' Hmiss Hb.
    destruct (boot_cells JSON_parse w AuthContext.initial s' Hb)
      as (_ & _ & Hu & _ & Ht).
    apply ProtectedRoute_navigate. unfold AuthContext.isAuthenticated.
    destruct Hmiss as [Hm|Hm].
    + rewrite (Hu (or_introl Hm)). reflexivity.
    + rewrite (Ht (or_introl Hm)). cbn. apply andb_false_r.
  - intros arg password country response s w s' w' Hne Hl.
    rewrite login_fulfilled in Hl. injection Hl as <- _.
    apply ProtectedRoute_children. unfold AuthContext.isAuthenticated. cbn.
    apply truthy_string_true, Hne.
Qed.

Lemma protected_route_follows_session_witness :
  (exists s',
     AuthContext.boot Sample.parse_null_only
       (snd (@Client.response_rejected unit Sample.err401 Sample.w_library))
       AuthContext.initial = Some s'
     /\ Routes.ProtectedRoute s' = Routes.Navigate "/login")
  /\ (exists s',
        AuthContext.boot Sample.parse_null_only Sample.w_token_only AuthContext.initial
        = Some s'
        /\ Routes.ProtectedRoute s' = Routes.Navigate "/login")
  /\ (exists s' w',
        AuthContext.login Sample.stringify_by_name (inl "alice") (Some "secret") None
          (Client.Fulfilled Fixture.login_ok) AuthContext.initial Sample.w_empty
        = (Client.Fulfilled tt, s', w')
        /\ Routes.ProtectedRoute s' = Routes.Children).
Proof.
  destruct (protected_route_follows_session Sample.stringify_by_name
              Sample.parse_null_only) as (_ & _ & _ & H4 & H5 & H6).
  split; [apply (H4 unit Sample.err401 Sample.w_library eq_refl)|].
  split.
  - eexists. split; [reflexivity|].
    apply (H5 Sample.w_token_only _ (or_introl eq_refl) eq_refl).
  - eexists _, _. split; [apply login_fulfilled|].
    apply (H6 (inl "alice") (Some "secret") None Fixture.login_ok
             AuthContext.initial Sample.w_empty _ _ ltac:(discriminate)
             (login_fulfilled _ _ _ _ _ _ _)).
Defined.

(** X7. [Layout.handleLogout] ends on [/login] with the session gone from
    the provider (no user, no token, so a protected route sends to
    [/login]) and from the store, with every other key of the store as it
    was, and without assigning [window.location.href]; a 401 that arrives
    afterwards, from a request sent before the logout, finds nothing left
    to do and leaves the browser state exactly as it is. *)
Theorem handleLogout_lands_on_login :
  forall (s : AuthContext.AuthState) (w : Browser.World),
    let '(s1, w1) := Routes.handleLogout s w in
    Browser.pathname w1 = "/login"
    /\ Browser.href_assignments w1 = Browser.href_assignments w
    /\ Browser.getItem "access_token" w1 = None
    /\ Browser.getItem "user" w1 = None
    /\ Browser.localStorage w1
       = delete "user" (delete "access_token" (Browser.localStorage w))
    /\ AuthContext.user s1 = None
    /\ AuthContext.token s1 = None
    /\ AuthContext.isAuthenticated s1 = false
    /\ Routes.ProtectedRoute s1 = Routes.Navigate "/login"
    /\ (forall (T : Type) error,
          @Client.response_rejected T error w1 = (Client.Rejected error, w1)).
Proof.
  intros s w. unfold Routes.handleLogout, AuthContext.logout. cbn zeta.
  set (w1 := Router.navigate "/login"
               (Browser.removeItem "user" (Browser.removeItem "access_token" w))).
  assert (Ht : Browser.getItem "access_token" w1 = None).
  { unfold w1, Browser.getItem. cbn.
    rewrite lookup_delete_ne by discriminate. apply lookup_delete_eq. }
  assert (Hu : Browser.getItem "user" w1 = None).
  { unfold w1, Browser.getItem. cbn. apply lookup_delete_eq. }
  split; [reflexivity|]. split; [reflexivity|].
  split; [exact Ht|]. split; [exact Hu|]. split; [reflexivity|].
  split; [reflexivity|]. split; [reflexivity|]. split; [reflexivity|].
  split; [reflexivity|].
  intros T error. unfold Client.response_rejected, Client.reject.
  destruct (Client.is_unauthorized error); [|reflexivity].
  f_equal. cbn zeta.
  replace (Client.on_login_page
             (Browser.removeItem "user" (Browser.removeItem "access_token" w1)))
    with true by reflexivity.
  cbn [negb]. unfold Browser.removeItem.
  rewrite (delete_id _ "access_token") by exact Ht.
  rewrite (delete_id _ "user") by exact Hu.
  destruct w1; reflexivity.
Qed.

(** X8. [Login.handleSubmit] always ends with [loading = false].  When
    the login is fulfilled the error stays the empty text, the router goes
    to [/dashboard] and the store holds the new token.  When it is rejected
    the provider state is untouched and the error cell is never empty: it
    holds the server's [detail] when that is truthy, which is a non-empty
    text or a value that is not a text, kept as it came; and it holds the
    fixed message in every other case (no response, no detail, an empty
    detail).  Since the form lives on [/login], the page is neither left
    nor reloaded, not even by a 401. *)
Theorem login_form_outcomes :
  forall (JSON_stringify : Types.User -> string)
         (f : Forms.form) (s : AuthContext.AuthState) (w : Browser.World),
    (forall response,
       let '(f', s', w') :=
         Forms.login_handleSubmit JSON_stringify (Client.Fulfilled response) f s w in
       Forms.loading f' = false
       /\ Forms.error f' = Client.Text ""
       /\ Forms.has_error f' = false
       /\ Browser.pathname w' = "/dashboard"
       /\ Browser.href_assignments w' = Browser.href_assignments w
       /\ Browser.getItem "access_token" w' = Some (AuthApi.access_token response)
       /\ AuthContext.user s' = Some (AuthApi.user response)
       /\ AuthContext.token s' = Some (AuthApi.access_token response))
    /\ (forall err,
          let '(f', s', w') :=
            Forms.login_handleSubmit JSON_stringify (Client.Rejected err) f s w in
          Forms.loading f' = false
          /\ Forms.has_error f' = true
          /\ s' = s
          /\ (forall r d, Client.response err = Some r ->
                Client.detail r = Some (Client.Text d) -> d <> "" ->
                Forms.error f' = Client.Text d)
          /\ (forall r j, Client.response err = Some r ->
                Client.detail r = Some (Client.Structured j) ->
                Forms.error f' = Client.Structured j)
          /\ (Client.response err = None
              \/ (exists r, Client.response err = Some r
                            /\ (Client.detail r = None
                                \/ Client.detail r = Some (Client.Text ""))) ->
                Forms.error f' = Client.Text "Login failed — check your credentials.")
          /\ (Client.on_login_page w = true ->
                Browser.pathname w' = Browser.pathname w
                /\ Browser.href_assignments w' = Browser.href_assignments w)).
Proof.
  intros JSON_stringify f s w. split.
  - intros response. unfold Forms.login_handleSubmit.
    rewrite login_fulfilled. cbn.
    repeat split.
    unfold Browser.getItem. cbn.
    rewrite lookup_insert_ne by discriminate. apply lookup_insert_eq.
  - intros err. unfold Forms.login_handleSubmit.
    rewrite login_rejected.
    destruct (failed_submit_error err "Login failed — check your credentials."
                (Forms.setLoading true (Forms.setError (Client.Text "") f))
                ltac:(discriminate))
      as (Hl & Hh & Ht & Hj & Hfb).
    split; [exact Hl|]. split; [exact Hh|]. split; [reflexivity|].
    split; [exact Ht|]. split; [exact Hj|]. split; [exact Hfb|].
    intros Hon. rewrite rejected_world.
    destruct (Client.is_unauthorized err); [|split; reflexivity].
    unfold ClientRequest.torn_down. rewrite Hon. split; reflexivity.
Qed.

Lemma login_form_outcomes_witness :
  Client.on_login_page Sample.w_login = true
  /\ (let '(f', s', w') :=
        Forms.login_handleSubmit Sample.stringify_by_name
          (Client.Rejected Sample.login401) Fixture.blank_form
          AuthContext.initial Sample.w_login in
      Forms.error f' = Client.Text "Not authenticated"
      /\ Browser.pathname w' = "/login"
      /\ Browser.href_assignments w' = [])
  /\ (let '(f', s', w') :=
        Forms.login_handleSubmit Sample.stringify_by_name
          (Client.Rejected Sample.err_network) Fixture.blank_form
          AuthContext.initial Sample.w_login in
      Forms.error f' = Client.Text "Login failed — check your credentials.")
  /\ (let '(f', s', w') :=
        Forms.login_handleSubmit Sample.stringify_by_name
          (Client.Rejected Fixture.err422_list) Fixture.blank_form
          AuthContext.initial Sample.w_login in
      Forms.error f' = Client.Structured Fixture.validation_errors).
Proof.
  destruct (login_form_outcomes Sample.stringify_by_name Fixture.blank_form
              AuthContext.initial Sample.w_login) as [_ H].
  split; [reflexivity|]. split; [|split].
  - specialize (H Sample.login401).
    destruct (Forms.login_handleSubmit Sample.stringify_by_name
                (Client.Rejected Sample.login401) Fixture.blank_form
                AuthContext.initial Sample.w_login) as [[f' s'] w'].
    destruct H as (_ & _ & _ & Hd & _ & _ & Hon).
    split; [apply (Hd Sample.resp401 "Not authenticated" eq_refl eq_refl);
            discriminate|].
    exact (Hon eq_refl).
  - specialize (H Sample.err_network).
    destruct (Forms.login_handleSubmit Sample.stringify_by_name
                (Client.Rejected Sample.err_network) Fixture.blank_form
                AuthContext.initial Sample.w_login) as [[f' s'] w'].
    destruct H as (_ & _ & _ & _ & _ & Hn & _).
    apply Hn. left. reflexivity.
  - specialize (H Fixture.err422_list).
    destruct (Forms.login_handleSubmit Sample.stringify_by_name
                (Client.Rejected Fixture.err422_list) Fixture.blank_form
                AuthContext.initial Sample.w_login) as [[f' s'] w'].
    destruct H as (_ & _ & _ & _ & Hj & _).
    apply (Hj _ Fixture.validation_errors eq_refl eq_refl).
Defined.

(** X9. [Register.handleSubmit] signs in only after the registration was
    accepted.  If the registration is rejected no login is attempted (the
    outcome does not depend on what the login endpoint would answer) and
    the provider state is untouched.  If the registration is accepted and
    the login is rejected, the account exists but the session does not:
    provider state untouched, no move to [/dashboard].  In both cases the
    error cell is never empty: it holds the [detail] of the failed request
    when that is truthy, a non-empty text or a value that is not a text
    (the list of a validation error), kept as it came, and the fixed
    message in every other case.  If both are fulfilled the router goes to
    [/dashboard] with user and token set.  [loading] ends false in every
    case. *)
Theorem register_form_outcomes :
  forall (JSON_stringify : Types.User -> string)
         (f : Forms.form) (s : AuthContext.AuthState) (w : Browser.World),
    (forall err server_login server_login',
       Forms.register_handleSubmit JSON_stringify (Client.Rejected err) server_login f s w
       = Forms.register_handleSubmit JSON_stringify (Client.Rejected err) server_login' f s w
       /\ let '(f', s', w') :=
            Forms.register_handleSubmit JSON_stringify
              (Client.Rejected err) server_login f s w in
          Forms.loading f' = false /\ Forms.has_error f' = true /\ s' = s
          /\ w' = snd (@Client.response_rejected Types.User err w)
          /\ (forall r d, Client.response err = Some r ->
                Client.detail r = Some (Client.Text d) -> d <> "" ->
                Forms.error f' = Client.Text d)
          /\ (forall r j, Client.response err = Some r ->
                Client.detail r = Some (Client.Structured j) ->
                Forms.error f' = Client.Structured j)
          /\ (Client.response err = None
              \/ (exists r, Client.response err = Some r
                            /\ (Client.detail r = None
                                \/ Client.detail r = Some (Client.Text ""))) ->
                Forms.error f' = Client.Text "Registration failed. Please try again."))
    /\ (forall u err,
          let '(f', s', w') :=
            Forms.register_handleSubmit JSON_stringify
              (Client.Fulfilled u) (Client.Rejected err) f s w in
          Forms.loading f' = false /\ Forms.has_error f' = true /\ s' = s
          /\ w' = snd (@Client.response_rejected AuthApi.LoginResponse err w)
          /\ (forall r d, Client.response err = Some r ->
                Client.detail r = Some (Client.Text d) -> d <> "" ->
                Forms.error f' = Client.Text d)
          /\ (forall r j, Client.response err = Some r ->
                Client.detail r = Some (Client.Structured j) ->
                Forms.error f' = Client.Structured j)
          /\ (Client.response err = None
              \/ (exists r, Client.response err = Some r
                            /\ (Client.detail r = None
                                \/ Client.detail r = Some (Client.Text ""))) ->
                Forms.error f' = Client.Text "Registration failed. Please try again."))
    /\ (forall u response,
          let '(f', s', w') :=
            Forms.register_handleSubmit JSON_stringify
              (Client.Fulfilled u) (Client.Fulfilled response) f s w in
          Forms.loading f' = false /\ Forms.error f' = Client.Text ""
          /\ Browser.pathname w' = "/dashboard"
          /\ Browser.getItem "access_token" w' = Some (AuthApi.access_token response)
          /\ AuthContext.user s' = Some (AuthApi.user response)
          /\ AuthContext.token s' = Some (AuthApi.access_token response)).
Proof.
  intros JSON_stringify f s w. split; [|split].
  - intros err sl sl'.
    assert (Hr : forall sl0,
      Forms.register_handleSubmit JSON_stringify (Client.Rejected err) sl0 f s w
      = (Forms.setLoading false
           (Forms.setError (Forms.detail_or err "Registration failed. Please try again.")
              (Forms.setLoading true (Forms.setError (Client.Text "") f))),
         s, snd (@Client.response_rejected Types.User err w))).
    { intros sl0. unfold Forms.register_handleSubmit, AuthExports.register,
        AuthApi.register, Client.bind, Client.request.
      unfold Client.response_rejected, Client.reject. reflexivity. }
    split; [rewrite (Hr sl), (Hr sl'); reflexivity|].
    rewrite (Hr sl).
    destruct (failed_submit_error err "Registration failed. Please try again."
                (Forms.setLoading true (Forms.setError (Client.Text "") f))
                ltac:(discriminate))
      as (Hl & Hh & Ht & Hj & Hfb).
    split; [exact Hl|]. split; [exact Hh|]. split; [reflexivity|].
    split; [reflexivity|]. split; [exact Ht|]. split; [exact Hj|exact Hfb].
  - intros u err. unfold Forms.register_handleSubmit.
    change (AuthExports.register (inl (Forms.username f)) (Forms.password f)
              (Forms.name f) (Some (Forms.country f)) (Client.Fulfilled u) w)
      with (Client.Fulfilled u, w).
    cbv iota beta. rewrite login_rejected.
    destruct (failed_submit_error err "Registration failed. Please try again."
                (Forms.setLoading true (Forms.setError (Client.Text "") f))
                ltac:(discriminate))
      as (Hl & Hh & Ht & Hj & Hfb).
    split; [exact Hl|]. split; [exact Hh|]. split; [reflexivity|].
    split; [reflexivity|]. split; [exact Ht|]. split; [exact Hj|exact Hfb].
  - intros u response. unfold Forms.register_handleSubmit.
    change (AuthExports.register (inl (Forms.username f)) (Forms.password f)
              (Forms.name f) (Some (Forms.country f)) (Client.Fulfilled u) w)
      with (Client.Fulfilled u, w).
    cbv iota beta. rewrite login_fulfilled. cbn.
    repeat split.
    unfold Browser.getItem. cbn.
    rewrite lookup_insert_ne by discriminate. apply lookup_insert_eq.
Qed.

Lemma register_form_outcomes_witness :
  (let '(f', s', w') :=
     Forms.register_handleSubmit Sample.stringify_by_name
       (Client.Rejected Fixture.err422) (Client.Fulfilled Fixture.login_ok)
       Fixture.blank_form AuthContext.initial Sample.w_login in
   Forms.error f' = Client.Text "Username already registered"
   /\ s' = AuthContext.initial)
  /\ (let '(f', s', w') :=
        Forms.register_handleSubmit Sample.stringify_by_name
          (Client.Rejected Fixture.err422_list) (Client.Fulfilled Fixture.login_ok)
          Fixture.blank_form AuthContext.initial Sample.w_login in
      Forms.error f' = Client.Structured Fixture.validation_errors
      /\ Forms.has_error f' = true)
  /\ (let '(f', s', w') :=
        Forms.register_handleSubmit Sample.stringify_by_name
          (Client.Fulfilled Sample.alice) (Client.Rejected Sample.err500)
          Fixture.blank_form AuthContext.initial Sample.w_login in
      Forms.error f' = Client.Text "Registration failed. Please try again.").
Proof.
  destruct (register_form_outcomes Sample.stringify_by_name Fixture.blank_form
              AuthContext.initial Sample.w_login) as (H1 & H2 & _).
  split; [|split].
  - destruct (H1 Fixture.err422 (Client.Fulfilled Fixture.login_ok)
                (Client.Fulfilled Fixture.login_ok)) as [_ H].
    destruct (Forms.register_handleSubmit Sample.stringify_by_name
                (Client.Rejected Fixture.err422) (Client.Fulfilled Fixture.login_ok)
                Fixture.blank_form AuthContext.initial Sample.w_login) as [[f' s'] w'].
    destruct H as (_ & _ & Hs & _ & Ht & _).
    split; [|exact Hs].
    apply (Ht _ "Username already registered" eq_refl eq_refl). discriminate.
  - destruct (H1 Fixture.err422_list (Client.Fulfilled Fixture.login_ok)
                (Client.Fulfilled Fixture.login_ok)) as [_ H].
    destruct (Forms.register_handleSubmit Sample.stringify_by_name
                (Client.Rejected Fixture.err422_list) (Client.Fulfilled Fixture.login_ok)
                Fixture.blank_form AuthContext.initial Sample.w_login) as [[f' s'] w'].
    destruct H as (_ & Hh & _ & _ & _ & Hj & _).
    split; [|exact Hh].
    apply (Hj _ Fixture.validation_errors eq_refl eq_refl).
  - specialize (H2 Sample.alice Sample.err500).
    destruct (Forms.register_handleSubmit Sample.stringify_by_name
                (Client.Fulfilled Sample.alice) (Client.Rejected Sample.err500)
                Fixture.blank_form AuthContext.initial Sample.w_login) as [[f' s'] w'].
    destruct H2 as (_ & _ & _ & _ & _ & _ & Hfb).
    apply Hfb. right. exists Sample.resp500. split; [reflexivity|left; reflexivity].
Defined.

(** ** Resource clients and the pages that call them *)

Section Envelopes.
Import Browser Client Types.

Lemma getDocuments_always_fulfilled filters server (w : World) :
  exists r w', Documents.getDocuments filters server w = (Fulfilled r, w').
Proof.
  destruct server as [data|err].
  - eexists _, _. apply getDocuments_fulfilled.
  - unfold Documents.getDocuments, try_catch, bind, request, response_rejected, reject.
    eexists _, _. reflexivity.
Qed.

Lemma getDocuments_rejected filters err (w : World) :
  Documents.getDocuments filters (Rejected err) w
  = (Fulfilled Documents.EMPTY_RESPONSE,
     snd (@response_rejected (option Documents.DocumentsData) err w)).
Proof.
  unfold Documents.getDocuments, try_catch, bind, request, response_rejected, reject.
  reflexivity.
Qed.

Lemma getPipelineStats_rejected err (w : World) :
  Stats.getPipelineStats (Rejected err) w
  = (Fulfilled Stats.EMPTY_PIPELINE,
     snd (@response_rejected (option Stats.PipelineData) err w)).
Proof.
  unfold Stats.getPipelineStats, try_catch, bind, request, response_rejected, reject.
  reflexivity.
Qed.

Lemma getPipelineStats_fulfilled data (w : World) :
  Stats.getPipelineStats (Fulfilled data) w = (Fulfilled (Stats.merge data), w).
Proof. reflexivity. Qed.

End Envelopes.

(** X10. [getDocuments] never rejects, and in every envelope it returns
    [items] and [documents] are the same list, never missing, and
    [page_size] and [pages] are never 0.  For a fulfilled request the page
    size is chosen in this order, skipping 0 and [null]: the body's
    [limit], then [filters.limit], then 20.  The envelope's own [limit]
    field follows the body alone: it is what the body holds under that key,
    a 0 or a [null] included, and 20 when the key is missing, so it can
    differ from [page_size]. *)
Theorem getDocuments_envelope_shape :
  forall filters (w : Browser.World),
    (forall server, exists r w',
       Documents.getDocuments filters server w = (Client.Fulfilled r, w')
       /\ Documents.items r = Documents.documents r
       /\ Documents.page_size r <> 0
       /\ Documents.pages r <> 0)
    /\ (forall data,
          let r := Documents.normalize filters data in
          (forall d l, data = Some d -> Documents.data_documents d = Some l ->
             Documents.documents r = l)
          /\ ((data = None \/ exists d, data = Some d /\ Documents.data_documents d = None) ->
                Documents.documents r = [])
          /\ (forall d n, data = Some d -> Documents.data_limit d = Some n -> n <> 0 ->
                Documents.page_size r = n /\ Documents.limit r = Some n)
          /\ (forall m,
                (data = None \/ exists d, data = Some d
                   /\ (Documents.data_limit d = None \/ Documents.data_limit d = Some 0)) ->
                Documents.filter_limit filters = Some m -> m <> 0 ->
                Documents.page_size r = m)
          /\ ((data = None \/ exists d, data = Some d
                  /\ (Documents.data_limit d = None \/ Documents.data_limit d = Some 0)) ->
                (Documents.filter_limit filters = None
                 \/ Documents.filter_limit filters = Some 0) ->
                Documents.page_size r = 20)
          /\ (forall d n, data = Some d -> Documents.key_limit d = Js.Value n ->
                Documents.limit r = Some n)
          /\ (forall d, data = Some d -> Documents.key_limit d = Js.Null ->
                Documents.limit r = None)
          /\ ((data = None
               \/ exists d, data = Some d /\ Documents.key_limit d = Js.Missing) ->
                Documents.limit r = Some 20)).
Proof.
  intros filters w. split.
  - intros [data|err].
    + eexists _, _. split; [apply getDocuments_fulfilled|].
      split; [reflexivity|]. split; [apply normalize_page_size_nonzero|].
      change (Documents.pages (Documents.normalize filters data))
        with (Js.or_number
                (Some (Js.Math_ceil_div
                         (Documents.total (Documents.normalize filters data))
                         (Documents.page_size (Documents.normalize filters data)))) 1).
      apply or_number_nonzero. discriminate.
    + eexists _, _. split; [apply getDocuments_rejected|].
      repeat split; discriminate.
  - intros data r. subst r.
    assert (Hsize : Documents.page_size (Documents.normalize filters data)
                    = Js.or_number
                        (Js.or_opt_number
                           (Documents.data_limit (Js.or_object data Documents.empty_data))
                           (Documents.filter_limit filters)) 20) by reflexivity.
    assert (Hlim : Documents.limit (Documents.normalize filters data)
                   = Js.spread (Some 20)
                       (Documents.key_limit (Js.or_object data Documents.empty_data)))
      by reflexivity.
    assert (Hdocs : Documents.documents (Documents.normalize filters data)
                    = Js.or_array
                        (Documents.data_documents (Js.or_object data Documents.empty_data)) [])
      by reflexivity.
    rewrite Hsize, Hlim, Hdocs.
    split; [|split; [|split; [|split; [|split; [|split; [|split]]]]]].
    + intros d l -> Hl. cbn [Js.or_object]. rewrite Hl. reflexivity.
    + intros [->|(d & -> & Hl)]; cbn [Js.or_object]; [reflexivity|].
      rewrite Hl. reflexivity.
    + intros d n -> Hn Hnz. cbn [Js.or_object]. rewrite Hn.
      unfold Js.or_opt_number. cbn.
      destruct (Z.eqb_spec n 0); [contradiction|]. cbn.
      destruct (Z.eqb_spec n 0); [contradiction|]. split; [reflexivity|].
      unfold Documents.data_limit in Hn.
      destruct (Documents.key_limit d); try discriminate.
      cbn in Hn. injection Hn as ->. reflexivity.
    + intros m Hd Hm Hmz.
      assert (Hl : Js.or_opt_number
                     (Documents.data_limit (Js.or_object data Documents.empty_data))
                     (Documents.filter_limit filters) = Some m).
      { destruct Hd as [->|(d & -> & [Hl|Hl])]; cbn [Js.or_object];
          [reflexivity || exact Hm| |]; rewrite Hl; exact Hm. }
      rewrite Hl. cbn.
      destruct (Z.eqb_spec m 0); [contradiction|reflexivity].
    + intros Hd Hf.
      destruct Hd as [->|(d & -> & [Hl|Hl])], Hf as [Hf|Hf]; cbn [Js.or_object];
        try rewrite Hl; unfold Js.or_opt_number; cbn; rewrite Hf; reflexivity.
    + intros d n -> Hk. cbn [Js.or_object]. rewrite Hk. reflexivity.
    + intros d -> Hk. cbn [Js.or_object]. rewrite Hk. reflexivity.
    + intros [->|(d & -> & Hk)]; cbn [Js.or_object]; [reflexivity|].
      rewrite Hk. reflexivity.
Qed.

Lemma getDocuments_envelope_shape_witness :
  let filters := Documents.mkDocumentFilters None None None None (Some 100) None None None in
  let partial := Some (Documents.mkDocumentsData None (Some 3) None None None) in
  let full := Some (Documents.mkDocumentsData (Some [Sample.doc1]) (Some 3) (Some 50) None None) in
  let zero := Some (Documents.mkDocumentsData None None (Some 0) None None) in
  let null := Some (Documents.mkBody Js.Missing Js.Missing Js.Null Js.Missing Js.Missing) in
  Documents.page_size (Documents.normalize filters partial) = 100
  /\ Documents.limit (Documents.normalize filters partial) = Some 20
  /\ Documents.documents (Documents.normalize filters partial) = []
  /\ Documents.page_size (Documents.normalize filters full) = 50
  /\ Documents.documents (Documents.normalize filters full) = [Sample.doc1]
  /\ Documents.page_size (Documents.normalize Documents.no_filters partial) = 20
  /\ Documents.limit (Documents.normalize filters zero) = Some 0
  /\ Documents.page_size (Documents.normalize filters zero) = 100
  /\ Documents.limit (Documents.normalize filters null) = None
  /\ Documents.page_size (Documents.normalize filters null) = 100.
Proof.
  intros filters partial full zero null.
  destruct (getDocuments_envelope_shape filters Sample.w_library) as [_ H].
  destruct (H partial) as (_ & Hd0 & _ & Hf & _ & _ & _ & Hl).
  destruct (H full) as (Hd1 & _ & Hs & _).
  destruct (H zero) as (_ & _ & _ & Hfz & _ & Hlz & _).
  destruct (H null) as (_ & _ & _ & Hfn & _ & _ & Hln & _).
  destruct (getDocuments_envelope_shape Documents.no_filters Sample.w_library) as [_ H'].
  destruct (H' partial) as (_ & _ & _ & _ & H20 & _).
  split.
  { apply (Hf 100); [right; eexists; split; [reflexivity|left; reflexivity]
                    |reflexivity|discriminate]. }
  split.
  { apply Hl. right. eexists. split; reflexivity. }
  split.
  { apply Hd0. right. eexists. split; reflexivity. }
  split.
  { apply (Hs _ 50 eq_refl eq_refl). discriminate. }
  split.
  { apply (Hd1 _ _ eq_refl eq_refl). }
  split.
  { apply H20; [right; eexists; split; [reflexivity|left; reflexivity]|left; reflexivity]. }
  split.
  { apply (Hlz _ 0 eq_refl eq_refl). }
  split.
  { apply (Hfz 100); [right; eexists; split; [reflexivity|right; reflexivity]
                     |reflexivity|discriminate]. }
  split.
  { apply (Hln _ eq_refl eq_refl). }
  apply (Hfn 100); [right; eexists; split; [reflexivity|left; reflexivity]
                   |reflexivity|discriminate].
Defined.

(** X11. [getAuditLog] never rejects.  For a fulfilled request each of the
    four fields of the envelope is what the body holds under that key, a
    [null] included, and the module default when the key is missing,
    whatever the filters: the limit asked for never becomes the page
    size. *)
Theorem getAuditLog_ignores_filters :
  forall (server : Client.settled (option Audit.AuditData)) (w : Browser.World),
    (forall filters, exists r w',
       Audit.getAuditLog filters server w = (Client.Fulfilled r, w'))
    /\ (forall filters d,
          server = Client.Fulfilled (Some d) ->
          exists r, Audit.getAuditLog filters server w = (Client.Fulfilled r, w)
            /\ Audit.entries r
               = match Audit.data_entries d with
                 | Js.Missing => Some [] | Js.Null => None | Js.Value l => Some l
                 end
            /\ Audit.total r
               = match Audit.data_total d with
                 | Js.Missing => Some 0 | Js.Null => None | Js.Value n => Some n
                 end
            /\ Audit.page r
               = match Audit.data_page d with
                 | Js.Missing => Some 1 | Js.Null => None | Js.Value n => Some n
                 end
            /\ Audit.page_size r
               = match Audit.data_page_size d with
                 | Js.Missing => Some 50 | Js.Null => None | Js.Value n => Some n
                 end)
    /\ (forall filters,
          server = Client.Fulfilled None ->
          Audit.getAuditLog filters server w
          = (Client.Fulfilled
               {| Audit.entries := Some []; Audit.total := Some 0;
                  Audit.page := Some 1; Audit.page_size := Some 50 |}, w)).
Proof.
  intros server w. split; [|split].
  - intros filters. destruct server as [data|err].
    + eexists _, _. apply getAuditLog_fulfilled.
    + unfold Audit.getAuditLog, Client.try_catch, Client.bind, Client.request,
        Client.response_rejected, Client.reject.
      eexists _, _. reflexivity.
  - intros filters d ->. eexists. split; [apply getAuditLog_fulfilled|].
    cbn. destruct (Audit.data_entries d), (Audit.data_total d),
           (Audit.data_page d), (Audit.data_page_size d); repeat split.
  - intros filters ->. reflexivity.
Qed.

Lemma getAuditLog_ignores_filters_witness :
  exists r,
    Audit.getAuditLog (Audit.mkAuditLogFilters None None None None (Some 25))
      (Client.Fulfilled
         (Some (Audit.mkAuditData Js.Null (Js.Value 3) Js.Missing Js.Missing)))
      Sample.w_library
    = (Client.Fulfilled r, Sample.w_library)
    /\ Audit.total r = Some 3 /\ Audit.page_size r = Some 50 /\ Audit.entries r = None.
Proof.
  destruct (getAuditLog_ignores_filters
              (Client.Fulfilled
                 (Some (Audit.mkAuditData Js.Null (Js.Value 3) Js.Missing Js.Missing)))
              Sample.w_library) as (_ & H & _).
  destruct (H (Audit.mkAuditLogFilters None None None None (Some 25)) _ eq_refl)
    as (r & Hr & He & Ht & _ & Hs).
  exists r. repeat split; assumption.
Defined.

(** X12. The pager of the library never leaves the range: [previous]
    never goes below 1 and [next] never goes above [pages]; on a page
    inside [1..pages] both stay inside, [previous] steps back by one except
    on page 1 and [next] steps forward by one except on the last page,
    where they do nothing, and one undoes the other away from the ends.
    Typing in the search box or choosing a country goes back to page 1. *)
Theorem library_pager_stays_in_range :
  forall s : LibraryPage.state,
    1 <= LibraryPage.page (LibraryPage.previous s)
    /\ LibraryPage.page (LibraryPage.next s) <= LibraryPage.pages s
    /\ LibraryPage.pages (LibraryPage.previous s) = LibraryPage.pages s
    /\ LibraryPage.pages (LibraryPage.next s) = LibraryPage.pages s
    /\ (forall text, LibraryPage.page (LibraryPage.onSearch text s) = 1
                     /\ LibraryPage.search (LibraryPage.onSearch text s) = text)
    /\ (forall code, LibraryPage.page (LibraryPage.onCountry code s) = 1
                     /\ LibraryPage.countryFilter (LibraryPage.onCountry code s) = code)
    /\ (1 <= LibraryPage.page s <= LibraryPage.pages s ->
          1 <= LibraryPage.page (LibraryPage.next s) <= LibraryPage.pages s
          /\ LibraryPage.page (LibraryPage.previous s) <= LibraryPage.pages s
          /\ (LibraryPage.page s = 1 -> LibraryPage.previous s = s)
          /\ (LibraryPage.page s = LibraryPage.pages s -> LibraryPage.next s = s)
          /\ (1 < LibraryPage.page s ->
                LibraryPage.page (LibraryPage.previous s) = LibraryPage.page s - 1
                /\ LibraryPage.next (LibraryPage.previous s) = s)
          /\ (LibraryPage.page s < LibraryPage.pages s ->
                LibraryPage.page (LibraryPage.next s) = LibraryPage.page s + 1
                /\ LibraryPage.previous (LibraryPage.next s) = s)).
Proof.
  intros [docs total page pages search country loading].
  unfold LibraryPage.previous, LibraryPage.next, LibraryPage.onSearch,
    LibraryPage.onCountry, LibraryPage.setPage, LibraryPage.setSearch,
    LibraryPage.setCountryFilter. cbn.
  split; [lia|]. split; [lia|]. split; [reflexivity|]. split; [reflexivity|].
  split; [intros; split; reflexivity|]. split; [intros; split; reflexivity|].
  intros [H1 H2]. split; [lia|]. split; [lia|].
  split; [intros ->; f_equal; lia|].
  split; [intros ->; f_equal; lia|].
  split.
  - intros H. split; [lia|]. f_equal. lia.
  - intros H. split; [lia|]. f_equal. lia.
Qed.

Lemma library_pager_stays_in_range_witness :
  let s := LibraryPage.mkState [] 45 2 3 "" "" false in
  1 <= LibraryPage.page s <= LibraryPage.pages s
  /\ LibraryPage.page (LibraryPage.next s) = 3
  /\ LibraryPage.next (LibraryPage.next s) = LibraryPage.next s
  /\ LibraryPage.previous (LibraryPage.next s) = s.
Proof.
  intros s.
  assert (Hr : 1 <= LibraryPage.page s <= LibraryPage.pages s) by (cbn; lia).
  destruct (library_pager_stays_in_range s)
    as (_ & _ & _ & _ & _ & _ & H).
  destruct (H Hr) as (_ & _ & _ & _ & _ & Hn).
  destruct (Hn ltac:(cbn; lia)) as [Hn1 Hn2].
  split; [exact Hr|]. split; [exact Hn1|]. split; [|exact Hn2].
  destruct (library_pager_stays_in_range (LibraryPage.next s))
    as (_ & _ & _ & _ & _ & _ & H').
  destruct (H' ltac:(cbn; lia)) as (_ & _ & _ & Hlast & _).
  apply Hlast. reflexivity.
Defined.

Section Pages.
Import Browser Client Types.

Lemma foldr_max_lower (vs : list Z) : 1 <= foldr Z.max 1 vs.
Proof. induction vs as [|v vs IH]; cbn; lia. Qed.

Lemma foldr_max_upper (vs : list Z) :
  Forall (fun v => v <= foldr Z.max 1 vs) vs.
Proof.
  induction vs as [|v vs IH]; cbn; constructor; [lia|].
  eapply Forall_impl; [exact IH|]. cbn. intros x Hx. lia.
Qed.

Lemma dashboard_load_value server_stats server_documents stats_first
    (s : DashboardPage.state) (w : World) :
  exists st all w',
    DashboardPage.load server_stats server_documents stats_first s w
    = (DashboardPage.mkState (Some st)
         (DashboardPage.mkCounts (Documents.total all) 0 (Documents.total all)) false,
       w')
    /\ Stats.getPipelineStats server_stats w = (Fulfilled st, snd (Stats.getPipelineStats server_stats w))
    /\ Documents.getDocuments DashboardPage.one_document server_documents w
       = (Fulfilled all,
          snd (Documents.getDocuments DashboardPage.one_document server_documents w))
    /\ w' = (if existsb is_unauthorized
                  (match server_stats with Rejected e => [e] | _ => [] end
                   ++ match server_documents with Rejected e => [e] | _ => [] end)
             then ClientRequest.torn_down w else w).
Proof.
  unfold DashboardPage.load.
  destruct server_stats as [ds|es], server_documents as [dd|ed], stats_first;
    rewrite ?getPipelineStats_fulfilled, ?getPipelineStats_rejected,
      ?getDocuments_fulfilled, ?getDocuments_rejected;
    cbn [fst snd];
    rewrite ?getPipelineStats_fulfilled, ?getPipelineStats_rejected,
      ?getDocuments_fulfilled, ?getDocuments_rejected;
    eexists _, _, _; (split; [reflexivity|]); (split; [reflexivity|]);
    (split; [reflexivity|]);
    rewrite ?rejected_world; cbn [app existsb orb snd];
    repeat match goal with
           | |- context [is_unauthorized ?e] => destruct (is_unauthorized e)
           end;
    cbn [orb]; rewrite ?torn_down_idempotent; reflexivity.
Qed.

End Pages.

(** X13. [Library.load] always ends with [loading = false] and never
    moves the page number.  A fulfilled search shows the body's documents;
    when the body carries a total [n >= 0] and no [limit], the page count
    is the larger of 1 and [ceil(n / 20)], so the pages hold all [n]
    documents.  A rejected search does not keep the previous results: the
    list is emptied, the total is 0 and the page count 1. *)
Theorem library_load_outcomes :
  forall (s : LibraryPage.state) (w : Browser.World),
    (forall err,
       let '(s', w') := LibraryPage.load (Client.Rejected err) s w in
       LibraryPage.loading s' = false
       /\ LibraryPage.docs s' = []
       /\ LibraryPage.total s' = 0
       /\ LibraryPage.pages s' = 1
       /\ LibraryPage.page s' = LibraryPage.page s)
    /\ (forall data,
          let '(s', w') := LibraryPage.load (Client.Fulfilled data) s w in
          LibraryPage.loading s' = false
          /\ w' = w
          /\ LibraryPage.page s' = LibraryPage.page s
          /\ (forall d l, data = Some d -> Documents.data_documents d = Some l ->
                LibraryPage.docs s' = l)
          /\ (forall d n, data = Some d -> Documents.data_total d = Some n ->
                Documents.data_limit d = None -> 0 <= n ->
                LibraryPage.total s' = n
                /\ LibraryPage.pages s' = Z.max 1 (Js.Math_ceil_div n 20)
                /\ 1 <= LibraryPage.pages s'
                /\ n <= LibraryPage.pages s' * 20)).
Proof.
  intros s w. split.
  - intros err. unfold LibraryPage.load. rewrite getDocuments_rejected.
    cbn. repeat split.
  - intros data. unfold LibraryPage.load. rewrite getDocuments_fulfilled.
    cbn [LibraryPage.loading LibraryPage.docs LibraryPage.total LibraryPage.pages
         LibraryPage.page LibraryPage.setLoading LibraryPage.setPages
         LibraryPage.setTotal LibraryPage.setDocs].
    split; [reflexivity|]. split; [reflexivity|]. split; [reflexivity|].
    split.
    + intros d l -> Hl. cbn. rewrite Hl. reflexivity.
    + intros d n -> Hn Hl Hpos.
      assert (Ht : Documents.total (Documents.normalize (LibraryPage.filters s) (Some d)) = n).
      { cbn. rewrite Hn. cbn. destruct (Z.eqb_spec n 0); congruence. }
      assert (Hp : Documents.pages (Documents.normalize (LibraryPage.filters s) (Some d))
                   = Js.or_number (Some (Js.Math_ceil_div n 20)) 1).
      { cbn. rewrite Hn, Hl. cbn. destruct (Z.eqb_spec n 0) as [->|_]; reflexivity. }
      rewrite Ht, Hp. cbn [Js.or_number].
      pose proof (Math_ceil_div_spec n 20 ltac:(lia)) as Hc.
      pose proof (Math_ceil_div_nonneg n 20 Hpos ltac:(lia)) as Hc0.
      destruct (Z.eqb_spec (Js.Math_ceil_div n 20) 0) as [Hz|Hz].
      * rewrite Hz in *. repeat split; lia.
      * repeat split; lia.
Qed.

Lemma library_load_outcomes_witness :
  let s := LibraryPage.mkState [Sample.doc1] 1 2 1 "pds" "" false in
  let body := Documents.mkDocumentsData (Some []) (Some 41) None None None in
  (let '(s', w') := LibraryPage.load (Client.Fulfilled (Some body)) s Sample.w_library in
   LibraryPage.total s' = 41 /\ LibraryPage.pages s' = 3 /\ LibraryPage.docs s' = [])
  /\ (let '(s', w') := LibraryPage.load (Client.Rejected Sample.err500) s Sample.w_library in
      LibraryPage.docs s' = [] /\ LibraryPage.pages s' = 1).
Proof.
  intros s body.
  destruct (library_load_outcomes s Sample.w_library) as [Hr Hf].
  split.
  - specialize (Hf (Some body)).
    destruct (LibraryPage.load (Client.Fulfilled (Some body)) s Sample.w_library)
      as [s' w'].
    destruct Hf as (_ & _ & _ & Hd & Hn).
    destruct (Hn body 41 eq_refl eq_refl eq_refl ltac:(lia)) as (Ht & Hp & _).
    split; [exact Ht|]. split; [rewrite Hp; reflexivity|].
    apply (Hd body [] eq_refl eq_refl).
  - specialize (Hr Sample.err500).
    destruct (LibraryPage.load (Client.Rejected Sample.err500) s Sample.w_library)
      as [s' w'].
    destruct Hr as (_ & Hd & _ & Hp & _). split; assumption.
Defined.

(** X14. The dashboard always has something to show: whatever the two
    endpoints answer, and whichever answer comes first, [load] ends with
    [loading = false] and a statistics record in place, the "approved"
    count equal to the total and "needs review" 0; the outcome, browser
    state included, is the same for both orders of arrival.  The scale
    [maxStageValue] is at least 1 and at least every stage value. *)
Theorem dashboard_always_renders :
  forall server_stats server_documents stats_first
         (s : DashboardPage.state) (w : Browser.World),
    let '(s', w') :=
      DashboardPage.load server_stats server_documents stats_first s w in
    DashboardPage.loading s' = false
    /\ (exists st, DashboardPage.stats s' = Some st)
    /\ DashboardPage.needsReview (DashboardPage.docCounts s') = 0
    /\ DashboardPage.approved (DashboardPage.docCounts s')
       = DashboardPage.total (DashboardPage.docCounts s')
    /\ DashboardPage.load server_stats server_documents (negb stats_first) s w = (s', w')
    /\ (forall e, server_stats = Client.Rejected e ->
          DashboardPage.stats s' = Some Stats.EMPTY_PIPELINE)
    /\ (forall e, server_documents = Client.Rejected e ->
          DashboardPage.total (DashboardPage.docCounts s') = 0)
    /\ 1 <= DashboardPage.maxStageValue s'
    /\ Forall (fun v => v <= DashboardPage.maxStageValue s') (DashboardPage.stageValues s').
Proof.
  intros server_stats server_documents stats_first s w.
  destruct (dashboard_load_value server_stats server_documents stats_first s w)
    as (st & all & w' & Hl & Hs & Hd & Hw).
  destruct (dashboard_load_value server_stats server_documents (negb stats_first) s w)
    as (st2 & all2 & w2 & Hl2 & Hs2 & Hd2 & Hw2).
  rewrite Hl.
  assert (st2 = st) as -> by congruence.
  assert (all2 = all) as -> by congruence.
  assert (w2 = w') as -> by congruence.
  split; [reflexivity|]. split; [eexists; reflexivity|].
  split; [reflexivity|]. split; [reflexivity|]. split; [exact Hl2|].
  split.
  { intros e ->. rewrite getPipelineStats_rejected in Hs. cbn. congruence. }
  split.
  { intros e ->. rewrite getDocuments_rejected in Hd. cbn.
    injection Hd as <-. reflexivity. }
  unfold DashboardPage.maxStageValue.
  destruct (DashboardPage.stageValues _) as [|v vs] eqn:Hv.
  - split; [lia|constructor].
  - split; [apply foldr_max_lower|apply foldr_max_upper].
Qed.

Lemma dashboard_always_renders_witness :
  let '(s', w') :=
    DashboardPage.load (Client.Rejected Sample.err500) (Client.Rejected Sample.err401)
      true DashboardPage.initial Sample.w_library in
  DashboardPage.stats s' = Some Stats.EMPTY_PIPELINE
  /\ DashboardPage.total (DashboardPage.docCounts s') = 0
  /\ DashboardPage.loading s' = false.
Proof.
  pose proof (dashboard_always_renders (Client.Rejected Sample.err500)
                (Client.Rejected Sample.err401) true DashboardPage.initial
                Sample.w_library) as H.
  destruct (DashboardPage.load (Client.Rejected Sample.err500)
              (Client.Rejected Sample.err401) true DashboardPage.initial
              Sample.w_library) as [s' w'].
  destruct H as (Hl & _ & _ & _ & _ & Hs & Hd & _).
  split; [apply (Hs _ eq_refl)|]. split; [apply (Hd _ eq_refl)|exact Hl].
Defined.

(** ** The pollers, continued *)

Section PollerTargets.
Import Client Types Poller.

Context {Job StartArg : Type}.
Variable start : StartArg -> state Job -> state Job.
Variable initial_rejected : state Job -> state Job.

Hypothesis initial_rejected_frame : forall s,
  timers (initial_rejected s) = timers s
  /\ pollRef (initial_rejected s) = pollRef s
  /\ cleanup_registered (initial_rejected s) = cleanup_registered s
  /\ fetches (initial_rejected s) = fetches s.

Lemma single_timer_size (s : state Job) :
  single_timer s -> (size (timers s) <= 1)%nat.
Proof.
  intros Hs. pose proof (clear_current_timers s Hs) as Hc.
  unfold clear_current in Hc. destruct (pollRef s) as [p|].
  - cbn in Hc. apply (f_equal size) in Hc.
    rewrite map_size_delete, map_size_empty in Hc.
    destruct (timers s !! p); cbn in Hc; lia.
  - rewrite Hc, map_size_empty. lia.
Qed.

Lemma clear_current_sub (s : state Job) t iv :
  timers (clear_current s) !! t = Some iv -> timers s !! t = Some iv.
Proof.
  unfold clear_current. destruct (pollRef s) as [p|]; cbn; [|auto].
  intros H. apply lookup_delete_Some in H as [_ H]. exact H.
Qed.

(** An event that is not a start arms no timer, and the only request it
    can send is the one of an active timer. *)
Lemma step_targets (j : Job) (s : state Job) (e : event StartArg) :
  (forall t iv, timers s !! t = Some iv -> crawlId iv = j) ->
  is_start e = false ->
  (forall t iv, timers (step start initial_rejected s e) !! t = Some iv ->
                timers s !! t = Some iv)
  /\ (fetches (step start initial_rejected s e) = fetches s
      \/ fetches (step start initial_rejected s e) = j :: fetches s).
Proof.
  intros Hj He. destruct e as [a|t|r res|]; cbn in *.
  - discriminate.
  - unfold interval_fires. destruct (timers s !! t) as [iv|] eqn:Ht.
    + split; [auto|]. right. cbn. rewrite (Hj t iv Ht). reflexivity.
    + split; auto.
  - unfold settles. destruct (inflight s !! r) as [[j' o]|]; [|split; auto].
    destruct o, res as [v|err].
    + split; auto.
    + destruct (initial_rejected_frame (forget_request r s)) as (H1 & _ & _ & H4).
      rewrite H1, H4. split; auto.
    + unfold interval_resolved. destruct (is_terminal (status v)).
      * rewrite clear_current_fetches. split; [|auto].
        intros t iv H. apply clear_current_sub in H. exact H.
      * split; auto.
    + unfold interval_rejected. rewrite clear_current_fetches. split; [|auto].
      intros t iv H. apply clear_current_sub in H. exact H.
  - unfold teardown, cleanup. destruct (cleanup_registered s); [|split; auto].
    rewrite clear_current_fetches. split; [|auto].
    intros t iv H. apply clear_current_sub in H. exact H.
Qed.

Lemma run_targets (j : Job) (evs : list (event StartArg)) (s : state Job) :
  (forall t iv, timers s !! t = Some iv -> crawlId iv = j) ->
  no_start evs = true ->
  exists new, fetches (run start initial_rejected evs s) = (new ++ fetches s)%list
              /\ Forall (eq j) new.
Proof.
  revert s. induction evs as [|e evs IH]; intros s Hj Hq.
  - exists []. split; [reflexivity|constructor].
  - rewrite run_cons. cbn in Hq. apply andb_prop in Hq as [He Hq].
    apply negb_true_iff in He.
    destruct (step_targets j s e Hj He) as [Hsub Hf].
    destruct (IH (step start initial_rejected s e)) as (new & Hnew & Hall).
    { intros t iv H. apply (Hj t iv). apply Hsub, H. }
    { exact Hq. }
    destruct Hf as [Hf|Hf]; rewrite Hf in Hnew.
    + exists new. split; assumption.
    + exists (new ++ [j])%list. split.
      * rewrite Hnew, <- app_assoc. reflexivity.
      * apply Forall_app. split; [exact Hall|]. constructor; [reflexivity|constructor].
Qed.

End PollerTargets.

(** X15. On both pages at most one interval is active at any time. *)
Theorem at_most_one_interval :
  (forall s : Poller.state Z,
     Poller.CrawlPage.reachable s -> (size (Poller.timers s) <= 1)%nat)
  /\ (forall s : Poller.state string,
        Poller.Progress.reachable s -> (size (Poller.timers s) <= 1)%nat).
Proof.
  split; intros s Hr; apply single_timer_size.
  - apply crawl_reachable_invariant in Hr as [H _]. exact H.
  - apply progress_reachable_single_timer, Hr.
Qed.

Lemma at_most_one_interval_witness :
  let s := Poller.CrawlPage.run
             [Poller.Start 7; Poller.TimerFires 1%positive; Poller.Start 8;
              Poller.Start 9] Poller.CrawlPage.mounted in
  Poller.CrawlPage.reachable s
  /\ (size (Poller.timers s) <= 1)%nat
  /\ Poller.timers s !! 3%positive = Some (Poller.mkInterval 9 2000).
Proof.
  intros s.
  assert (Hr : Poller.CrawlPage.reachable s) by (eexists; reflexivity).
  split; [exact Hr|]. split; [|vm_compute; reflexivity].
  apply (proj1 at_most_one_interval s Hr).
Defined.

(** X16. Starting a poll takes over from the previous one: from the new
    start until the next one, the first request and every request a timer
    sends are for the id just started, whatever was being polled before
    and whatever is still in flight. *)
Theorem requests_after_start_are_for_its_id :
  (forall (s : Poller.state Z) (crawlId : Z) (evs : list (Poller.event Z)),
     Poller.CrawlPage.reachable s ->
     Poller.no_start evs = true ->
     exists new,
       Poller.fetches (Poller.CrawlPage.run (Poller.Start crawlId :: evs) s)
       = (new ++ crawlId :: Poller.fetches s)%list
       /\ Forall (eq crawlId) new)
  /\ (forall (s : Poller.state string) (id : string)
             (evs : list (Poller.event (option string))),
        Poller.Progress.reachable s ->
        id <> "" ->
        Poller.no_start evs = true ->
        exists new,
          Poller.fetches (Poller.Progress.run (Poller.Start (Some id) :: evs) s)
          = (new ++ id :: Poller.fetches s)%list
          /\ Forall (eq id) new).
Proof.
  split.
  - intros s crawlId evs Hr Hq.
    apply crawl_reachable_invariant in Hr as [Hs _].
    destruct (pollStatus_effect crawlId s Hs) as (Hf & _ & Ht & _).
    unfold Poller.CrawlPage.run. rewrite run_cons.
    change (Poller.step Poller.CrawlPage.pollStatus Poller.CrawlPage.initial_rejected
              s (Poller.Start crawlId))
      with (Poller.CrawlPage.pollStatus crawlId s).
    destruct (run_targets Poller.CrawlPage.pollStatus Poller.CrawlPage.initial_rejected
                crawl_initial_rejected_frame crawlId evs
                (Poller.CrawlPage.pollStatus crawlId s)) as (new & Hnew & Hall).
    { intros t iv. rewrite Ht. intros H.
      apply lookup_insert_Some in H as [[_ <-]|[_ H]]; [reflexivity|].
      rewrite lookup_empty in H. discriminate. }
    { exact Hq. }
    exists new. rewrite Hnew, Hf. split; [reflexivity|exact Hall].
  - intros s id evs Hr Hid Hq.
    apply progress_reachable_single_timer in Hr as Hs.
    destruct (rerun_effect id s Hid Hs) as (Hf & _ & Ht & _).
    unfold Poller.Progress.run. rewrite run_cons.
    change (Poller.step Poller.Progress.rerun Poller.Progress.initial_rejected
              s (Poller.Start (Some id)))
      with (Poller.Progress.rerun (Some id) s).
    destruct (run_targets Poller.Progress.rerun Poller.Progress.initial_rejected
                progress_initial_rejected_frame id evs
                (Poller.Progress.rerun (Some id) s)) as (new & Hnew & Hall).
    { intros t iv. rewrite Ht. intros H.
      apply lookup_insert_Some in H as [[_ <-]|[_ H]]; [reflexivity|].
      rewrite lookup_empty in H. discriminate. }
    { exact Hq. }
    exists new. rewrite Hnew, Hf. split; [reflexivity|exact Hall].
Qed.

Lemma requests_after_start_are_for_its_id_witness :
  let s := Poller.CrawlPage.run
             [Poller.Start 7; Poller.TimerFires 1%positive] Poller.CrawlPage.mounted in
  let evs := [Poller.TimerFires 1%positive; Poller.TimerFires 2%positive;
              Poller.Settles 2%positive (Client.Fulfilled (Sample.crawl7 "running"));
              Poller.TimerFires 2%positive] in
  Poller.CrawlPage.reachable s
  /\ Poller.fetches (Poller.CrawlPage.run (Poller.Start 8 :: evs) s) = [8; 8; 8; 7; 7]
  /\ exists new,
       Poller.fetches (Poller.CrawlPage.run (Poller.Start 8 :: evs) s)
       = (new ++ 8 :: Poller.fetches s)%list
       /\ Forall (eq 8) new.
Proof.
  intros s evs.
  assert (Hr : Poller.CrawlPage.reachable s) by (eexists; reflexivity).
  split; [exact Hr|]. split; [vm_compute; reflexivity|].
  apply (proj1 requests_after_start_are_for_its_id s 8 evs Hr eq_refl).
Defined.

(** X17. On [Progress], a missing or empty [crawl_id] starts nothing: the
    effect cancels what the previous run armed, sends no request, arms no
    timer and registers no cleanup, and nothing is sent until a usable id
    arrives.  The snapshot of the crawl shown before is left in place. *)
Theorem progress_without_id_polls_nothing :
  forall (s : Poller.state string) (crawlIdParam : option string)
         (evs : list (Poller.event (option string))),
    Poller.Progress.reachable s ->
    crawlIdParam = None \/ crawlIdParam = Some "" ->
    Poller.no_start evs = true ->
    let s' := Poller.Progress.step s (Poller.Start crawlIdParam) in
    Poller.fetches s' = Poller.fetches s
    /\ Poller.timers s' = ∅
    /\ Poller.cleanup_registered s' = false
    /\ Poller.snapshot s' = Poller.snapshot s
    /\ Poller.fetches (Poller.Progress.run evs s') = Poller.fetches s
    /\ Poller.timers (Poller.Progress.run evs s') = ∅.
Proof.
  intros s crawlIdParam evs Hr Hp Hq s'.
  apply progress_reachable_single_timer in Hr as Hs.
  assert (Hs' : s' = Poller.set_cleanup_registered false (Poller.teardown s)).
  { destruct Hp as [->| ->]; reflexivity. }
  assert (Hf : Poller.fetches s' = Poller.fetches s)
    by (rewrite Hs'; cbn; apply teardown_fetches).
  assert (Ht : Poller.timers s' = ∅)
    by (rewrite Hs'; cbn; apply teardown_timers, Hs).
  destruct (progress_run_quiet evs s' Ht Hq) as [Ht' Hf'].
  split; [exact Hf|]. split; [exact Ht|].
  split; [rewrite Hs'; reflexivity|].
  split; [rewrite Hs'; cbn; apply teardown_snapshot|].
  split; [congruence|exact Ht'].
Qed.

Lemma progress_without_id_polls_nothing_witness :
  let s := Poller.Progress.run
             [Poller.Start (Some "7");
              Poller.Settles 1%positive (Client.Fulfilled (Sample.crawl7 "running"))]
             Poller.Progress.rendered in
  let s' := Poller.Progress.step s (Poller.Start (Some "")) in
  Poller.Progress.reachable s
  /\ Poller.timers s <> ∅
  /\ Poller.timers s' = ∅
  /\ Poller.snapshot s' = Some (Sample.crawl7 "running")
  /\ Poller.fetches
       (Poller.Progress.run [Poller.TimerFires 1%positive; Poller.Teardown] s')
     = ["7"].
Proof.
  intros s s'.
  assert (Hr : Poller.Progress.reachable s) by (eexists; reflexivity).
  destruct (progress_without_id_polls_nothing s (Some "")
              [Poller.TimerFires 1%positive; Poller.Teardown] Hr
              (or_intror eq_refl) eq_refl) as (_ & Ht & _ & Hsn & Hf & _).
  split; [exact Hr|].
  split; [intros H; apply (f_equal (fun m => m !! 1%positive)) in H;
          vm_compute in H; discriminate|].
  split; [exact Ht|]. split; [exact Hsn|exact Hf].
Defined.

(** X18. Only the three terminal words stop a poll.  When a tick's answer
    carries any other status (running, queued, or a word the page does not
    know) the snapshot becomes that answer and the schedule is left as it
    is, so the timer that sent the request sends the next one when it
    fires again. *)
Theorem other_status_keeps_polling :
  (forall (s : Poller.state Z) r j v,
     Poller.inflight s !! r = Some (j, Poller.Tick) ->
     Types.status v <> "completed" -> Types.status v <> "failed" ->
     Types.status v <> "stopped" ->
     let s' := Poller.CrawlPage.step s (Poller.Settles r (Client.Fulfilled v)) in
     Poller.snapshot s' = Some v
     /\ Poller.timers s' = Poller.timers s
     /\ Poller.pollRef s' = Poller.pollRef s
     /\ Poller.fetches s' = Poller.fetches s
     /\ forall t iv, Poller.timers s !! t = Some iv ->
          Poller.fetches (Poller.CrawlPage.step s' (Poller.TimerFires t))
          = Poller.crawlId iv :: Poller.fetches s)
  /\ (forall (s : Poller.state string) r j v,
        Poller.inflight s !! r = Some (j, Poller.Tick) ->
        Types.status v <> "completed" -> Types.status v <> "failed" ->
        Types.status v <> "stopped" ->
        let s' := Poller.Progress.step s (Poller.Settles r (Client.Fulfilled v)) in
        Poller.snapshot s' = Some v
        /\ Poller.timers s' = Poller.timers s
        /\ Poller.pollRef s' = Poller.pollRef s
        /\ Poller.fetches s' = Poller.fetches s
        /\ forall t iv, Poller.timers s !! t = Some iv ->
             Poller.fetches (Poller.Progress.step s' (Poller.TimerFires t))
             = Poller.crawlId iv :: Poller.fetches s).
Proof.
  assert (Hnt : forall st, st <> "completed" -> st <> "failed" -> st <> "stopped" ->
                           Poller.is_terminal st = false).
  { intros st H1 H2 H3. destruct (Poller.is_terminal st) eqn:E; [|reflexivity].
    apply is_terminal_spec in E. tauto. }
  assert (Hgen : forall (Job : Type) (ir : Poller.state Job -> Poller.state Job)
                        (s : Poller.state Job) r j v,
            Poller.inflight s !! r = Some (j, Poller.Tick) ->
            Poller.is_terminal (Types.status v) = false ->
            Poller.settles ir r (Client.Fulfilled v) s
            = Poller.setSnapshot v (Poller.forget_request r s)).
  { intros Job ir s r j v Hr Hv. unfold Poller.settles. rewrite Hr.
    unfold Poller.interval_resolved. rewrite Hv. reflexivity. }
  split; intros s r j v Hr H1 H2 H3 s'.
  - assert (Hs' : s' = Poller.setSnapshot v (Poller.forget_request r s))
      by (apply (Hgen _ Poller.CrawlPage.initial_rejected s r j v Hr), Hnt; assumption).
    rewrite Hs'. repeat split.
    intros t iv Ht. cbn. unfold Poller.interval_fires. cbn. rewrite Ht. reflexivity.
  - assert (Hs' : s' = Poller.setSnapshot v (Poller.forget_request r s))
      by (apply (Hgen _ Poller.Progress.initial_rejected s r j v Hr), Hnt; assumption).
    rewrite Hs'. repeat split.
    intros t iv Ht. cbn. unfold Poller.interval_fires. cbn. rewrite Ht. reflexivity.
Qed.

Lemma other_status_keeps_polling_witness :
  let s := Poller.CrawlPage.run
             [Poller.Start 7; Poller.TimerFires 1%positive] Poller.CrawlPage.mounted in
  let s' := Poller.CrawlPage.step s
              (Poller.Settles 2%positive (Client.Fulfilled (Sample.crawl7 "paused"))) in
  Poller.inflight s !! 2%positive = Some (7, Poller.Tick)
  /\ Poller.snapshot s' = Some (Sample.crawl7 "paused")
  /\ Poller.fetches (Poller.CrawlPage.step s' (Poller.TimerFires 1%positive)) = [7; 7; 7].
Proof.
  intros s s'.
  assert (Hr : Poller.inflight s !! 2%positive = Some (7, Poller.Tick))
    by (vm_compute; reflexivity).
  destruct (proj1 other_status_keeps_polling s 2%positive 7 (Sample.crawl7 "paused") Hr
              ltac:(discriminate) ltac:(discriminate) ltac:(discriminate))
    as (Hsn & _ & _ & _ & Hf).
  split; [exact Hr|]. split; [exact Hsn|].
  apply (Hf 1%positive (Poller.mkInterval 7 2000)). vm_compute. reflexivity.
Defined.

(** ** The seed list *)

Section SeedUrlFacts.
Import Stdlib.Strings.Ascii Stdlib.Strings.String SeedUrls.
Local Open Scope list_scope.

Lemma strip_prefix_Some (tok s r : list ascii) :
  strip_prefix tok s = Some r -> s = tok ++ r.
Proof.
  revert s. induction tok as [|t tok IH]; intros s H; cbn in *.
  - congruence.
  - destruct s as [|c s]; [discriminate|].
    destruct (Ascii.eqb_spec t c) as [->|]; [|discriminate].
    f_equal. apply IH, H.
Qed.

Lemma strip_prefix_app (tok r : list ascii) : strip_prefix tok (tok ++ r) = Some r.
Proof.
  induction tok as [|t tok IH]; cbn; [reflexivity|].
  rewrite Ascii.eqb_refl. exact IH.
Qed.

Lemma strip_prefix_None_prefix (tok x z : list ascii) :
  strip_prefix tok (x ++ z) = None -> strip_prefix tok x = None.
Proof.
  intros H. destruct (strip_prefix tok x) as [r|] eqn:E; [|reflexivity].
  apply strip_prefix_Some in E. subst x.
  rewrite <- app_assoc, strip_prefix_app in H. discriminate.
Qed.

Lemma strip_any_Some (toks : list (list ascii)) (s r : list ascii) :
  strip_any toks s = Some r -> exists tok, In tok toks /\ s = tok ++ r.
Proof.
  induction toks as [|tok toks IH]; cbn; [discriminate|].
  destruct (strip_prefix tok s) as [r'|] eqn:E.
  - intros [= <-]. exists tok. split; [left; reflexivity|].
    apply strip_prefix_Some, E.
  - intros H. destruct (IH H) as (tok' & Hin & Hs). exists tok'. auto.
Qed.

Lemma strip_any_None (toks : list (list ascii)) (s : list ascii) :
  strip_any toks s = None <-> forall tok, In tok toks -> strip_prefix tok s = None.
Proof.
  induction toks as [|tok toks IH]; cbn.
  - split; [intros _ tok []|reflexivity].
  - destruct (strip_prefix tok s) as [r|] eqn:E.
    + split; [discriminate|]. intros H. rewrite (H tok (or_introl eq_refl)) in E.
      discriminate.
    + rewrite IH. split.
      * intros H tok' [<-|Hin]; [exact E|apply H, Hin].
      * intros H tok' Hin. apply H. right. exact Hin.
Qed.

Lemma strip_any_None_prefix (toks : list (list ascii)) (x z : list ascii) :
  strip_any toks (x ++ z) = None -> strip_any toks x = None.
Proof.
  rewrite !strip_any_None. intros H tok Hin.
  apply (strip_prefix_None_prefix tok x z), H, Hin.
Qed.

Lemma strip_any_nil (toks : list (list ascii)) :
  Forall (fun tok => tok <> []) toks -> strip_any toks [] = None.
Proof.
  intros Hne. apply strip_any_None. intros tok Hin.
  rewrite Forall_forall in Hne. specialize (Hne tok).
  destruct tok as [|t tok]; [|reflexivity].
  exfalso. apply Hne; [|reflexivity]. apply list_elem_of_In, Hin.
Qed.

Lemma drop_leading_suffix (toks : list (list ascii)) (n : nat) (s : list ascii) :
  exists p, s = p ++ drop_leading toks n s.
Proof.
  revert s. induction n as [|n IH]; intros s; cbn.
  - exists []. reflexivity.
  - destruct (strip_any toks s) as [r|] eqn:E.
    + apply strip_any_Some in E as (tok & _ & ->).
      destruct (IH r) as [p Hp]. exists (tok ++ p).
      rewrite <- app_assoc. f_equal. exact Hp.
    + exists []. reflexivity.
Qed.

Lemma drop_leading_done (toks : list (list ascii)) (n : nat) (s : list ascii) :
  Forall (fun tok => tok <> []) toks -> (List.length s <= n)%nat ->
  strip_any toks (drop_leading toks n s) = None.
Proof.
  intros Hne. revert s. induction n as [|n IH]; intros s Hlen; cbn.
  - destruct s; [apply strip_any_nil, Hne|cbn in Hlen; lia].
  - destruct (strip_any toks s) as [r|] eqn:E; [|exact E].
    apply IH. apply strip_any_Some in E as (tok & Hin & ->).
    rewrite Forall_forall in Hne.
    assert (tok <> []) by (apply Hne, list_elem_of_In, Hin).
    rewrite List.length_app in Hlen. destruct tok; [contradiction|]. cbn in Hlen. lia.
Qed.

Lemma drop_leading_fixed (toks : list (list ascii)) (n : nat) (s : list ascii) :
  strip_any toks s = None -> drop_leading toks n s = s.
Proof. intros H. destruct n; cbn; [reflexivity|]. rewrite H. reflexivity. Qed.

Lemma whitespace_nonempty : Forall (fun tok : list ascii => tok <> []) whitespace.
Proof. unfold whitespace. cbn. repeat constructor; discriminate. Qed.

Lemma rev_whitespace_nonempty :
  Forall (fun tok : list ascii => tok <> []) (map (@rev ascii) whitespace).
Proof. unfold whitespace. cbn. repeat constructor; discriminate. Qed.

Lemma trimStart_suffix (s : list ascii) : exists p, s = p ++ trimStart s.
Proof. apply drop_leading_suffix. Qed.

Lemma trimStart_clean (s : list ascii) : strip_any whitespace (trimStart s) = None.
Proof. apply drop_leading_done; [apply whitespace_nonempty|lia]. Qed.

Lemma trimEnd_prefix (s : list ascii) : exists q, s = trimEnd s ++ q.
Proof.
  unfold trimEnd.
  destruct (drop_leading_suffix (map (@rev ascii) whitespace) (List.length s) (rev s))
    as [p Hp].
  exists (rev p). rewrite <- rev_app_distr, <- Hp, rev_involutive. reflexivity.
Qed.

Lemma trimEnd_clean (s : list ascii) :
  strip_any (map (@rev ascii) whitespace) (rev (trimEnd s)) = None.
Proof.
  unfold trimEnd. rewrite rev_involutive.
  apply drop_leading_done; [apply rev_whitespace_nonempty|].
  rewrite List.length_rev. lia.
Qed.

Lemma trim_bytes_clean_start (s : list ascii) :
  strip_any whitespace (trim_bytes s) = None.
Proof.
  unfold trim_bytes. destruct (trimEnd_prefix (trimStart s)) as [q Hq].
  apply (strip_any_None_prefix whitespace _ q). rewrite <- Hq.
  apply trimStart_clean.
Qed.

Lemma trim_bytes_clean_end (s : list ascii) :
  strip_any (map (@rev ascii) whitespace) (rev (trim_bytes s)) = None.
Proof. apply trimEnd_clean. Qed.

Lemma trim_bytes_fixed (u : list ascii) :
  strip_any whitespace u = None ->
  strip_any (map (@rev ascii) whitespace) (rev u) = None ->
  trim_bytes u = u.
Proof.
  intros Hs He. unfold trim_bytes, trimStart.
  rewrite (drop_leading_fixed _ _ _ Hs). unfold trimEnd.
  rewrite (drop_leading_fixed _ _ _ He). apply rev_involutive.
Qed.

Lemma trim_bytes_idempotent (s : list ascii) :
  trim_bytes (trim_bytes s) = trim_bytes s.
Proof.
  apply trim_bytes_fixed; [apply trim_bytes_clean_start|apply trim_bytes_clean_end].
Qed.

Lemma trim_bytes_Forall (P : ascii -> Prop) (s : list ascii) :
  Forall P s -> Forall P (trim_bytes s).
Proof.
  intros H. unfold trim_bytes.
  destruct (trimStart_suffix s) as [p Hp].
  destruct (trimEnd_prefix (trimStart s)) as [q Hq].
  rewrite Hp in H. apply Forall_app in H as [_ H].
  rewrite Hq in H. apply Forall_app in H as [H _]. exact H.
Qed.

Lemma split_lines_nonempty (s : list ascii) : split_lines s <> [].
Proof.
  induction s as [|c s IH]; cbn; [discriminate|].
  destruct (Ascii.eqb c LF); [discriminate|].
  destruct (split_lines s); discriminate.
Qed.

Lemma split_lines_LF_free (s : list ascii) :
  Forall (Forall (fun c => c <> LF)) (split_lines s).
Proof.
  induction s as [|c s IH]; cbn.
  - repeat constructor.
  - destruct (Ascii.eqb_spec c LF) as [->|Hc].
    + constructor; [constructor|exact IH].
    + destruct (split_lines s) as [|line others].
      * repeat constructor. exact Hc.
      * inversion IH as [|? ? Hl Ho]; subst.
        constructor; [constructor; assumption|assumption].
Qed.

Lemma split_lines_app (x t : list ascii) :
  Forall (fun c => c <> LF) x ->
  split_lines (x ++ LF :: t) = x :: split_lines t.
Proof.
  induction x as [|c x IH]; intros H; cbn.
  - rewrite Ascii.eqb_refl. reflexivity.
  - inversion H as [|? ? Hc Hx]; subst.
    destruct (Ascii.eqb_spec c LF); [contradiction|].
    rewrite (IH Hx). reflexivity.
Qed.

Lemma split_lines_line (x : list ascii) :
  Forall (fun c => c <> LF) x -> split_lines x = [x].
Proof.
  induction x as [|c x IH]; intros H; cbn; [reflexivity|].
  inversion H as [|? ? Hc Hx]; subst.
  destruct (Ascii.eqb_spec c LF); [contradiction|].
  rewrite (IH Hx). reflexivity.
Qed.

Lemma split_join (l : list (list ascii)) :
  l <> [] -> Forall (Forall (fun c => c <> LF)) l ->
  split_lines (join_lines l) = l.
Proof.
  induction l as [|x l IH]; intros Hne H; [contradiction|].
  inversion H as [|? ? Hx Hl]; subst.
  destruct l as [|y l].
  - cbn. apply split_lines_line, Hx.
  - change (join_lines (x :: y :: l)) with (x ++ LF :: join_lines (y :: l)).
    rewrite (split_lines_app _ _ Hx). f_equal. apply IH; [discriminate|exact Hl].
Qed.

Lemma parse_bytes_elem (u s : list ascii) :
  In u (parse_bytes s) ->
  u <> [] /\ Forall (fun c => c <> LF) u /\ trim_bytes u = u.
Proof.
  unfold parse_bytes. intros H. apply List.filter_In in H as [H Hne].
  apply List.in_map_iff in H as (line & <- & Hin).
  split; [destruct (trim_bytes line); [discriminate|discriminate]|].
  split; [|apply trim_bytes_idempotent].
  apply trim_bytes_Forall.
  pose proof (split_lines_LF_free s) as Hall.
  rewrite Forall_forall in Hall. apply Hall, list_elem_of_In, Hin.
Qed.

Lemma parse_bytes_join (l : list (list ascii)) :
  Forall (fun u => u <> [] /\ Forall (fun c => c <> LF) u /\ trim_bytes u = u) l ->
  parse_bytes (join_lines l) = l.
Proof.
  intros H. destruct l as [|x l]; [reflexivity|].
  unfold parse_bytes. rewrite split_join.
  - induction H as [|u l' (Hne & _ & Ht) _ IH]; [reflexivity|].
    cbn. rewrite Ht. destruct u; [contradiction|]. cbn. f_equal. exact IH.
  - discriminate.
  - eapply Forall_impl; [exact H|]. cbn. intros u (_ & Hu & _). exact Hu.
Qed.

Lemma parse_bytes_length (s : list ascii) :
  (List.length (parse_bytes s) <= List.length (split_lines s))%nat.
Proof.
  unfold parse_bytes.
  etransitivity; [apply List.filter_length_le|]. rewrite List.length_map. lia.
Qed.

End SeedUrlFacts.

Section SeedUrlStrings.
Import Stdlib.Strings.Ascii Stdlib.Strings.String SeedUrls.
Local Open Scope list_scope.

Lemma seed_urls_bytes (text : string) :
  map list_ascii_of_string (seed_urls text) = parse_bytes (list_ascii_of_string text).
Proof.
  unfold seed_urls. rewrite List.map_map.
  erewrite List.map_ext; [apply List.map_id|].
  intros l. apply list_ascii_of_string_of_list_ascii.
Qed.

Lemma clean_bytes (u : string) :
  u <> EmptyString -> ~ In LF (list_ascii_of_string u) -> trim u = u ->
  list_ascii_of_string u <> []
  /\ Forall (fun c => c <> LF) (list_ascii_of_string u)
  /\ trim_bytes (list_ascii_of_string u) = list_ascii_of_string u.
Proof.
  intros Hne Hlf Ht. split; [|split].
  - destruct u; [contradiction|discriminate].
  - apply Forall_forall. intros c Hc ->. apply Hlf, list_elem_of_In, Hc.
  - unfold trim in Ht. apply (f_equal list_ascii_of_string) in Ht.
    rewrite list_ascii_of_string_of_list_ascii in Ht. exact Ht.
Qed.

(** What every entry of the parsed seed list satisfies. *)
Lemma seed_urls_elem (text u : string) :
  In u (seed_urls text) ->
  u <> EmptyString
  /\ ~ In LF (list_ascii_of_string u)
  /\ trim u = u
  /\ trim_bytes (list_ascii_of_string u) = list_ascii_of_string u.
Proof.
  intros Hin. unfold seed_urls in Hin.
  apply List.in_map_iff in Hin as (b & <- & Hb).
  apply parse_bytes_elem in Hb as (Hne & Hlf & Ht).
  rewrite list_ascii_of_string_of_list_ascii.
  split.
  { intros H. apply (f_equal list_ascii_of_string) in H.
    rewrite list_ascii_of_string_of_list_ascii in H.
    cbn in H. contradiction. }
  split.
  { intros H. rewrite Forall_forall in Hlf.
    apply (Hlf LF); [apply list_elem_of_In, H|reflexivity]. }
  split; [|exact Ht].
  unfold trim. rewrite list_ascii_of_string_of_list_ascii, Ht. reflexivity.
Qed.

(** A trimmed text neither starts nor ends with a white space token. *)
Lemma trimmed_no_whitespace (u tok rest : list ascii) :
  trim_bytes u = u -> In tok whitespace ->
  u <> tok ++ rest /\ u <> rest ++ tok.
Proof.
  intros Ht Hin. split; intros Hu.
  - pose proof (trim_bytes_clean_start u) as Hs. rewrite Ht in Hs.
    rewrite strip_any_None in Hs. specialize (Hs tok Hin).
    rewrite Hu, strip_prefix_app in Hs. discriminate.
  - pose proof (trim_bytes_clean_end u) as He. rewrite Ht in He.
    rewrite strip_any_None in He.
    specialize (He (rev tok) (List.in_map (@rev ascii) _ _ Hin)).
    rewrite Hu, List.rev_app_distr, strip_prefix_app in He. discriminate.
Qed.

End SeedUrlStrings.

(** X19. Every entry of the seed list sent with a crawl is a usable line:
    it is not empty, contains no line feed, and has no white space left at
    either end: it neither starts nor ends with a tab, line feed, vertical
    tab, form feed, carriage return or space, nor with the UTF-8 bytes of
    U+00A0, U+1680, U+2000 to U+200A, U+2028, U+2029, U+202F, U+205F,
    U+3000 or U+FEFF, so that trimming it again changes nothing.  There
    are never more entries than lines in the text box. *)
Theorem seed_urls_are_clean :
  forall (text u : string),
    In u (SeedUrls.seed_urls text) ->
    u <> ""
    /\ ~ In SeedUrls.LF (Stdlib.Strings.String.list_ascii_of_string u)
    /\ SeedUrls.trim u = u
    /\ (forall codes rest,
          In codes
            [ [9%nat]; [10%nat]; [11%nat]; [12%nat]; [13%nat]; [32%nat];
              [194; 160]%nat; [225; 154; 128]%nat;
              [226; 128; 128]%nat; [226; 128; 129]%nat; [226; 128; 130]%nat;
              [226; 128; 131]%nat; [226; 128; 132]%nat; [226; 128; 133]%nat;
              [226; 128; 134]%nat; [226; 128; 135]%nat; [226; 128; 136]%nat;
              [226; 128; 137]%nat; [226; 128; 138]%nat;
              [226; 128; 168]%nat; [226; 128; 169]%nat; [226; 128; 175]%nat;
              [226; 129; 159]%nat; [227; 128; 128]%nat; [239; 187; 191]%nat ] ->
          Stdlib.Strings.String.list_ascii_of_string u
          <> (map Stdlib.Strings.Ascii.ascii_of_nat codes ++ rest)%list
          /\ Stdlib.Strings.String.list_ascii_of_string u
             <> (rest ++ map Stdlib.Strings.Ascii.ascii_of_nat codes)%list)
    /\ (List.length (SeedUrls.seed_urls text)
        <= List.length
             (SeedUrls.split_lines (Stdlib.Strings.String.list_ascii_of_string text)))%nat.
Proof.
  intros text u Hin.
  destruct (seed_urls_elem text u Hin) as (Hne & Hlf & Ht & Hb).
  split; [exact Hne|]. split; [exact Hlf|]. split; [exact Ht|].
  split.
  { intros codes rest Hc.
    apply (trimmed_no_whitespace _ _ rest Hb).
    exact (List.in_map (map Stdlib.Strings.Ascii.ascii_of_nat) _ _ Hc). }
  unfold SeedUrls.seed_urls. rewrite List.length_map. apply parse_bytes_length.
Qed.

Lemma seed_urls_are_clean_witness :
  In "https://b.nz/y" (SeedUrls.seed_urls "  https://a.nz/x
https://b.nz/y   

")
  /\ SeedUrls.trim "https://b.nz/y" = "https://b.nz/y"
  /\ (forall rest,
        Stdlib.Strings.String.list_ascii_of_string "https://b.nz/y"
        <> (rest ++ map Stdlib.Strings.Ascii.ascii_of_nat [32%nat])%list).
Proof.
  assert (Hin : In "https://b.nz/y" (SeedUrls.seed_urls "  https://a.nz/x
https://b.nz/y   

")) by (vm_compute; right; left; reflexivity).
  split; [exact Hin|].
  destruct (seed_urls_are_clean _ _ Hin) as (_ & _ & Ht & Hw & _).
  split; [exact Ht|].
  intros rest. exact (proj2 (Hw [32%nat] rest ltac:(do 5 right; left; reflexivity))).
Defined.

(** X20. Writing a clean seed list into the text box, one entry per line,
    and reading it back gives the same list: for entries that are not
    empty, hold no line feed and are already trimmed, parsing the joined
    text returns them unchanged.  So what the page parsed once it parses
    again to the same list, and the list the page starts with is the
    default one. *)
Theorem seed_urls_round_trip :
  (forall urls : list string,
     (forall u, In u urls ->
        u <> "" /\ ~ In SeedUrls.LF (Stdlib.Strings.String.list_ascii_of_string u)
        /\ SeedUrls.trim u = u) ->
     SeedUrls.seed_urls (SeedUrls.join urls) = urls)
  /\ (forall text : string,
        SeedUrls.seed_urls (SeedUrls.join (SeedUrls.seed_urls text))
        = SeedUrls.seed_urls text)
  /\ Types.seed_urls (CrawlPageView.config_of CrawlPageView.initial)
     = CrawlPageView.DEFAULT_seed_urls.
Proof.
  assert (H1 : forall urls : list string,
     (forall u, In u urls ->
        u <> "" /\ ~ In SeedUrls.LF (Stdlib.Strings.String.list_ascii_of_string u)
        /\ SeedUrls.trim u = u) ->
     SeedUrls.seed_urls (SeedUrls.join urls) = urls).
  { intros urls H. unfold SeedUrls.seed_urls, SeedUrls.join.
    rewrite Stdlib.Strings.String.list_ascii_of_string_of_list_ascii.
    rewrite parse_bytes_join.
    - rewrite List.map_map. erewrite List.map_ext; [apply List.map_id|].
      intros s. apply Stdlib.Strings.String.string_of_list_ascii_of_string.
    - apply Forall_forall. intros b Hb. apply list_elem_of_In in Hb.
      apply List.in_map_iff in Hb as (u & <- & Hu).
      destruct (H u Hu) as (Hne & Hlf & Ht). apply clean_bytes; assumption. }
  split; [exact H1|]. split.
  - intros text. apply H1. intros u Hu.
    destruct (seed_urls_elem text u Hu) as (A & B & C & _). auto.
  - apply H1. intros u Hu.
    cbn in Hu. destruct Hu as [<-|[<-|[<-|[]]]];
      (split; [discriminate|]); (split; [|vm_compute; reflexivity]);
      vm_compute; intuition discriminate.
Qed.

Lemma seed_urls_round_trip_witness :
  SeedUrls.seed_urls (SeedUrls.join ["https://a.nz/x"; "https://b.nz/y z"])
  = ["https://a.nz/x"; "https://b.nz/y z"].
Proof.
  apply (proj1 seed_urls_round_trip).
  intros u [<-|[<-|[]]];
    (split; [discriminate|]); (split; [|vm_compute; reflexivity]);
    vm_compute; intuition discriminate.
Defined.

(** X21. [handleStart] on the crawl page.  If [startCrawl] is rejected no
    status request is sent and the timers are left as they are, so a poll
    already running goes on; the error text is the server's [detail] when
    that is a non-empty text, what [JSON.stringify] makes of it when it is
    a truthy value that is not a text, and the fixed message in every other
    case (no response, no detail, an empty detail); as [JSON.stringify]
    gives no empty text for such a value, the error text is never empty.
    If it is fulfilled the error is cleared, one status request goes out
    for the returned [crawl_id] and exactly one interval is left, for that
    id.  The seed list sent is the parsed one, [starting] is false again
    in both cases, and the page invariant is kept. *)
Theorem handleStart_outcomes :
  forall (v : CrawlPageView.view) (w : Browser.World),
    Poller.CrawlPage.invariant (CrawlPageView.poll v) ->
    (forall err,
       let '(v', w') := CrawlPageView.handleStart (Client.Rejected err) v w in
       CrawlPageView.starting v' = false
       /\ (forall r d, Client.response err = Some r ->
             Client.detail r = Some (Client.Text d) -> d <> "" ->
             Poller.error (CrawlPageView.poll v') = d)
       /\ (forall r j, Client.response err = Some r ->
             Client.detail r = Some (Client.Structured j) ->
             Poller.error (CrawlPageView.poll v') = j)
       /\ (Client.response err = None
           \/ (exists r, Client.response err = Some r
                         /\ (Client.detail r = None
                             \/ Client.detail r = Some (Client.Text ""))) ->
             Poller.error (CrawlPageView.poll v') = "Failed to start crawl.")
       /\ ((forall r j, Client.response err = Some r ->
              Client.detail r = Some (Client.Structured j) -> j <> "") ->
             Poller.error (CrawlPageView.poll v') <> "")
       /\ Poller.fetches (CrawlPageView.poll v') = Poller.fetches (CrawlPageView.poll v)
       /\ Poller.timers (CrawlPageView.poll v') = Poller.timers (CrawlPageView.poll v)
       /\ Poller.snapshot (CrawlPageView.poll v') = Poller.snapshot (CrawlPageView.poll v)
       /\ Poller.CrawlPage.invariant (CrawlPageView.poll v')
       /\ w' = snd (@Client.response_rejected Types.Crawl err w))
    /\ (forall result,
          let '(v', w') := CrawlPageView.handleStart (Client.Fulfilled result) v w in
          CrawlPageView.starting v' = false
          /\ Poller.error (CrawlPageView.poll v') = ""
          /\ Poller.fetches (CrawlPageView.poll v')
             = Types.crawl_id result :: Poller.fetches (CrawlPageView.poll v)
          /\ Poller.timers (CrawlPageView.poll v')
             = <[Poller.next_timer (CrawlPageView.poll v)
                   := Poller.mkInterval (Types.crawl_id result) 2000]> ∅
          /\ Poller.pollRef (CrawlPageView.poll v')
             = Some (Poller.next_timer (CrawlPageView.poll v))
          /\ Poller.CrawlPage.invariant (CrawlPageView.poll v')
          /\ w' = w)
    /\ Types.seed_urls (CrawlPageView.config_of v)
       = SeedUrls.seed_urls (CrawlPageView.seedUrls v).
Proof.
  intros v w Hinv.
  assert (Hinv1 : Poller.CrawlPage.invariant (Poller.setError "" (CrawlPageView.poll v))).
  { apply (crawl_invariant_transfer (CrawlPageView.poll v));
      [reflexivity|reflexivity|left; reflexivity|exact Hinv]. }
  split; [|split; [|reflexivity]].
  - intros err.
    unfold CrawlPageView.handleStart, CrawlApi.startCrawl, Client.bind, Client.request,
      Client.response_rejected, Client.reject.
    cbn [CrawlPageView.starting CrawlPageView.poll CrawlPageView.setStarting
         CrawlPageView.set_poll Poller.error Poller.setError Poller.fetches
         Poller.timers Poller.snapshot fst snd].
    split; [reflexivity|].
    split.
    { intros r d Hr Hd Hne. rewrite (detail_or_detail err _ r d Hr Hd Hne). reflexivity. }
    split.
    { intros r j Hr Hd. rewrite (detail_or_structured err _ r j Hr Hd). reflexivity. }
    split.
    { intros H. rewrite (detail_or_fallback err _ H). reflexivity. }
    split.
    { intros Hj.
      pose proof (detail_or_nonempty err "Failed to start crawl." ltac:(discriminate))
        as Hne.
      destruct (Forms.detail_or err "Failed to start crawl.") as [t|j] eqn:E;
        cbn [CrawlPageView.error_text]; [congruence|].
      unfold Forms.detail_or in E.
      destruct (Client.response err) as [r|]; [|discriminate].
      destruct (Client.detail r) as [[d|j']|] eqn:Ed; [|injection E as <-|discriminate].
      - destruct (Js.truthy_string d); discriminate.
      - exact (Hj r j' eq_refl Ed). }
    split; [reflexivity|]. split; [reflexivity|]. split; [reflexivity|].
    split; [|reflexivity].
    apply (crawl_invariant_transfer (CrawlPageView.poll v));
      [reflexivity|reflexivity|left; reflexivity|exact Hinv].
  - intros result.
    unfold CrawlPageView.handleStart, CrawlApi.startCrawl, Client.bind, Client.request,
      Client.response_fulfilled, Client.resolve.
    cbn [CrawlPageView.starting CrawlPageView.poll CrawlPageView.setStarting
         CrawlPageView.set_poll fst snd].
    destruct (pollStatus_effect (Types.crawl_id result)
                (Poller.setError "" (CrawlPageView.poll v)) (proj1 Hinv1))
      as (Hf & Hp & Ht & _ & _).
    split; [reflexivity|].
    split.
    { destruct (CrawlPageView.poll v) as [snap err [p|] reg tm nt fl nr fs];
        reflexivity. }
    split; [exact Hf|]. split; [exact Ht|]. split; [exact Hp|].
    split; [apply pollStatus_invariant, Hinv1|reflexivity].
Qed.

Lemma handleStart_outcomes_witness :
  Poller.CrawlPage.invariant (CrawlPageView.poll CrawlPageView.initial)
  /\ (let '(v', w') :=
        CrawlPageView.handleStart (Client.Rejected Fixture.err422)
          CrawlPageView.initial Sample.w_library in
      Poller.error (CrawlPageView.poll v') = "Username already registered"
      /\ Poller.fetches (CrawlPageView.poll v') = [])
  /\ (let '(v', w') :=
        CrawlPageView.handleStart (Client.Rejected Fixture.err422_list)
          CrawlPageView.initial Sample.w_library in
      Poller.error (CrawlPageView.poll v') = Fixture.validation_errors)
  /\ (let '(v', w') :=
        CrawlPageView.handleStart
          (Client.Fulfilled (Types.mkCrawl 7 "queued" "started" 1 3))
          CrawlPageView.initial Sample.w_library in
      Poller.fetches (CrawlPageView.poll v') = [7]
      /\ Poller.pollRef (CrawlPageView.poll v') = Some 1%positive).
Proof.
  pose proof crawl_mounted_invariant as Hinv.
  destruct (handleStart_outcomes CrawlPageView.initial Sample.w_library Hinv)
    as (Hr & Hf & _).
  split; [exact Hinv|]. split; [|split].
  - specialize (Hr Fixture.err422).
    destruct (CrawlPageView.handleStart (Client.Rejected Fixture.err422)
                CrawlPageView.initial Sample.w_library) as [v' w'].
    destruct Hr as (_ & Hd & _ & _ & _ & Hfe & _).
    split; [|exact Hfe].
    apply (Hd _ "Username already registered" eq_refl eq_refl). discriminate.
  - specialize (Hr Fixture.err422_list).
    destruct (CrawlPageView.handleStart (Client.Rejected Fixture.err422_list)
                CrawlPageView.initial Sample.w_library) as [v' w'].
    destruct Hr as (_ & _ & Hj & _).
    apply (Hj _ Fixture.validation_errors eq_refl eq_refl).
  - specialize (Hf (Types.mkCrawl 7 "queued" "started" 1 3)).
    destruct (CrawlPageView.handleStart
                (Client.Fulfilled (Types.mkCrawl 7 "queued" "started" 1 3))
                CrawlPageView.initial Sample.w_library) as [v' w'].
    destruct Hf as (_ & _ & Hfe & _ & Hp & _).
    split; [exact Hfe|exact Hp].
Defined.

(** ** More on the provider and on late answers *)

(** X22. [isAdmin] looks at the user record only: it is true exactly when
    the provider holds a user whose role is [admin], whatever the token
    cell holds; after a fulfilled [login] it tells whether the returned
    user is an admin, and after [logout] it is false. *)
Theorem isAdmin_follows_user_role :
  forall (JSON_stringify : Types.User -> string) (s : AuthContext.AuthState),
    (AuthContext.isAdmin s = true
     <-> exists u, AuthContext.user s = Some u /\ Types.role u = "admin")
    /\ (forall t, AuthContext.isAdmin (AuthContext.setToken t s) = AuthContext.isAdmin s)
    /\ (forall w, AuthContext.isAdmin (fst (AuthContext.logout s w)) = false)
    /\ (forall arg password country response w s' w',
          AuthContext.login JSON_stringify arg password country
            (Client.Fulfilled response) s w = (Client.Fulfilled tt, s', w') ->
          (AuthContext.isAdmin s' = true
           <-> Types.role (AuthApi.user response) = "admin")).
Proof.
  intros JSON_stringify s. split; [|split; [|split]].
  - unfold AuthContext.isAdmin. destruct (AuthContext.user s) as [u|].
    + rewrite String.eqb_eq. split.
      * intros H. exists u. auto.
      * intros (u' & [= <-] & H). exact H.
    + split; [discriminate|]. intros (u & Hu & _). discriminate.
  - intros t. reflexivity.
  - intros w. reflexivity.
  - intros arg password country response w s' w' Hl.
    rewrite login_fulfilled in Hl. injection Hl as <- _.
    unfold AuthContext.isAdmin. cbn. apply String.eqb_eq.
Qed.

Lemma isAdmin_follows_user_role_witness :
  exists s' w',
    AuthContext.login Sample.stringify_by_name (inl "alice") (Some "secret") None
      (Client.Fulfilled Fixture.login_ok) AuthContext.initial Sample.w_empty
    = (Client.Fulfilled tt, s', w')
    /\ AuthContext.isAdmin s' = true
    /\ AuthContext.isAdmin (AuthContext.setToken None s') = true.
Proof.
  eexists _, _. split; [apply login_fulfilled|].
  destruct (isAdmin_follows_user_role Sample.stringify_by_name AuthContext.initial)
    as (_ & _ & _ & H).
  assert (Ha : AuthContext.isAdmin
                 (AuthContext.setToken (Some (AuthApi.access_token Fixture.login_ok))
                    (AuthContext.setUser (Some (AuthApi.user Fixture.login_ok))
                       AuthContext.initial)) = true).
  { apply (H (inl "alice") (Some "secret") None Fixture.login_ok Sample.w_empty _ _
             (login_fulfilled _ _ _ _ _ _ _)). reflexivity. }
  split; [exact Ha|].
  destruct (isAdmin_follows_user_role Sample.stringify_by_name
              (AuthContext.setToken (Some (AuthApi.access_token Fixture.login_ok))
                 (AuthContext.setUser (Some (AuthApi.user Fixture.login_ok))
                    AuthContext.initial))) as (_ & Ht & _).
  rewrite Ht. exact Ha.
Defined.

Section LateAnswers.
Import Client Types Poller.

Lemma settles_inflight_other {Job : Type} (ir : state Job -> state Job)
    (s : state Job) r r' res :
  (forall s0, inflight (ir s0) = inflight s0) ->
  r <> r' ->
  inflight (settles ir r res s) !! r' = inflight s !! r'.
Proof.
  intros Hir Hne. unfold settles.
  destruct (inflight s !! r) as [[j o]|]; [|reflexivity].
  assert (Hf : inflight (forget_request r s) !! r' = inflight s !! r')
    by (cbn; apply lookup_delete_ne; exact Hne).
  destruct o, res as [v|err]; cbn [setSnapshot inflight].
  - exact Hf.
  - rewrite Hir. exact Hf.
  - unfold interval_resolved. destruct (is_terminal (status v)).
    + rewrite clear_current_inflight. exact Hf.
    + exact Hf.
  - unfold interval_rejected. rewrite clear_current_inflight. exact Hf.
Qed.

Lemma pollStatus_inflight (crawlId : Z) (s : state Z) r x :
  inflight s !! r = Some x -> r <> next_request s ->
  inflight (CrawlPage.pollStatus crawlId s) !! r = Some x.
Proof.
  intros Hr Hne.
  destruct s as [snap err [p|] reg tm nt fl nr fs];
    unfold CrawlPage.pollStatus, getCrawlStatus, clear_current, setInterval,
      set_pollRef, clearInterval; cbn in *;
    rewrite lookup_insert_ne by congruence; exact Hr.
Qed.

(** Request handles are never reused: every request in flight was issued
    before the next handle. *)
Lemma getCrawlStatus_fresh {Job : Type} (j : Job) (o : origin) (s : state Job) :
  (forall r x, inflight s !! r = Some x -> (r < next_request s)%positive) ->
  forall r x, inflight (getCrawlStatus j o s) !! r = Some x ->
              (r < next_request (getCrawlStatus j o s))%positive.
Proof.
  intros H r x. cbn. intros Hr.
  apply lookup_insert_Some in Hr as [[<- _]|[_ Hr]]; [lia|].
  specialize (H r x Hr). lia.
Qed.

Lemma crawl_step_fresh (s : state Z) (e : event Z) :
  (forall r x, inflight s !! r = Some x -> (r < next_request s)%positive) ->
  forall r x, inflight (CrawlPage.step s e) !! r = Some x ->
              (r < next_request (CrawlPage.step s e))%positive.
Proof.
  intros H r x. destruct e as [a|t|r0 res|]; cbn.
  - pose proof (getCrawlStatus_fresh a Initial s H r x) as Hg.
    destruct s as [snap err [p|] reg tm nt fl nr fs]; exact Hg.
  - unfold interval_fires. destruct (timers s !! t) as [iv|]; [|apply H].
    apply getCrawlStatus_fresh, H.
  - unfold settles. destruct (inflight s !! r0) as [[j o]|]; [|apply H].
    assert (Hf : inflight (forget_request r0 s) !! r = Some x ->
                 (r < next_request s)%positive).
    { cbn. intros Hr. apply lookup_delete_Some in Hr as [_ Hr]. apply (H r x Hr). }
    destruct o, res as [v|err]; try exact Hf.
    + unfold interval_resolved. destruct (is_terminal (status v)); [|exact Hf].
      rewrite clear_current_inflight.
      unfold clear_current. destruct (pollRef _); exact Hf.
    + unfold interval_rejected. rewrite clear_current_inflight.
      unfold clear_current. destruct (pollRef _); exact Hf.
  - rewrite teardown_inflight.
    unfold teardown, cleanup, clear_current.
    destruct (cleanup_registered s); [|apply H].
    destruct (pollRef s); apply H.
Qed.

Lemma crawl_reachable_fresh (s : state Z) :
  CrawlPage.reachable s ->
  forall r x, inflight s !! r = Some x -> (r < next_request s)%positive.
Proof.
  intros [evs ->].
  assert (Hgen : forall evs s0,
            (forall r x, inflight s0 !! r = Some x -> (r < next_request s0)%positive) ->
            forall r x, inflight (CrawlPage.run evs s0) !! r = Some x ->
                        (r < next_request (CrawlPage.run evs s0))%positive).
  { clear evs. induction evs as [|e evs IH]; intros s0 H0; [exact H0|].
    unfold CrawlPage.run. rewrite run_cons.
    apply (IH (CrawlPage.step s0 e)), crawl_step_fresh, H0. }
  apply Hgen. intros r x Hr. cbn in Hr. rewrite lookup_empty in Hr. discriminate.
Qed.

End LateAnswers.

(** X23. Answers are applied in the order they arrive, not in the order
    the requests were sent: of two requests in flight, the one answered
    last decides the snapshot, whichever was sent first.  On both pages. *)
Theorem last_answer_wins :
  (forall (s : Poller.state Z) r r' j j' o o' v v',
     r <> r' ->
     Poller.inflight s !! r = Some (j, o) ->
     Poller.inflight s !! r' = Some (j', o') ->
     Poller.snapshot
       (Poller.CrawlPage.run
          [Poller.Settles r (Client.Fulfilled v); Poller.Settles r' (Client.Fulfilled v')] s)
     = Some v')
  /\ (forall (s : Poller.state string) r r' j j' o o' v v',
        r <> r' ->
        Poller.inflight s !! r = Some (j, o) ->
        Poller.inflight s !! r' = Some (j', o') ->
        Poller.snapshot
          (Poller.Progress.run
             [Poller.Settles r (Client.Fulfilled v); Poller.Settles r' (Client.Fulfilled v')] s)
        = Some v').
Proof.
  split; intros s r r' j j' o o' v v' Hne Hr Hr'.
  - apply (settles_fulfilled_snapshot Poller.CrawlPage.initial_rejected _ r' j' o' v').
    change (Poller.step Poller.CrawlPage.pollStatus Poller.CrawlPage.initial_rejected s
              (Poller.Settles r (Client.Fulfilled v)))
      with (Poller.settles Poller.CrawlPage.initial_rejected r (Client.Fulfilled v) s).
    rewrite settles_inflight_other; [exact Hr'|reflexivity|exact Hne].
  - apply (settles_fulfilled_snapshot Poller.Progress.initial_rejected _ r' j' o' v').
    change (Poller.step Poller.Progress.rerun Poller.Progress.initial_rejected s
              (Poller.Settles r (Client.Fulfilled v)))
      with (Poller.settles Poller.Progress.initial_rejected r (Client.Fulfilled v) s).
    rewrite settles_inflight_other; [exact Hr'|reflexivity|exact Hne].
Qed.

Lemma last_answer_wins_witness :
  let s := Poller.CrawlPage.run
             [Poller.Start 7; Poller.TimerFires 1%positive; Poller.TimerFires 1%positive]
             Poller.CrawlPage.mounted in
  Poller.inflight s !! 2%positive = Some (7, Poller.Tick)
  /\ Poller.inflight s !! 3%positive = Some (7, Poller.Tick)
  /\ Poller.snapshot
       (Poller.CrawlPage.run
          [Poller.Settles 3%positive (Client.Fulfilled (Sample.crawl7 "running"));
           Poller.Settles 2%positive (Client.Fulfilled (Sample.crawl7 "queued"))] s)
     = Some (Sample.crawl7 "queued").
Proof.
  intros s.
  assert (H2 : Poller.inflight s !! 2%positive = Some (7, Poller.Tick))
    by (vm_compute; reflexivity).
  assert (H3 : Poller.inflight s !! 3%positive = Some (7, Poller.Tick))
    by (vm_compute; reflexivity).
  split; [exact H2|]. split; [exact H3|].
  apply (proj1 last_answer_wins s 3%positive 2%positive 7 7 Poller.Tick Poller.Tick
           (Sample.crawl7 "running") (Sample.crawl7 "queued")
           ltac:(discriminate) H3 H2).
Defined.

(** X24. The continuation of a tick cancels whichever interval [pollRef]
    holds when the answer arrives, not the interval that sent the request.
    On the crawl page, if a new crawl is started while a tick of the
    previous one is still unanswered, then a terminal or failed answer to
    that old request stops the polling of the new crawl: no interval is
    left and no further status request is made until the next start. *)
Theorem stale_answer_stops_new_poll :
  forall (s : Poller.state Z) r old new (res : Client.settled Types.CrawlStatusResponse)
         (evs : list (Poller.event Z)),
    Poller.CrawlPage.reachable s ->
    Poller.inflight s !! r = Some (old, Poller.Tick) ->
    (forall v, res = Client.Fulfilled v ->
       Types.status v = "completed" \/ Types.status v = "failed"
       \/ Types.status v = "stopped") ->
    Poller.no_start evs = true ->
    let s1 := Poller.CrawlPage.step s (Poller.Start new) in
    let s2 := Poller.CrawlPage.step s1 (Poller.Settles r res) in
    Poller.timers s1 = <[Poller.next_timer s := Poller.mkInterval new 2000]> ∅
    /\ Poller.timers s2 = ∅
    /\ Poller.fetches (Poller.CrawlPage.run evs s2) = new :: Poller.fetches s.
Proof.
  intros s r old new res evs Hreach Hr Hres Hq s1 s2.
  assert (Hfresh : r <> Poller.next_request s).
  { pose proof (crawl_reachable_fresh s Hreach r _ Hr). lia. }
  apply crawl_reachable_invariant in Hreach as Hinv.
  destruct (pollStatus_effect new s (proj1 Hinv)) as (Hf & _ & Ht & _).
  assert (Hinv1 : Poller.CrawlPage.invariant s1)
    by (apply pollStatus_invariant, Hinv).
  assert (Hr1 : Poller.inflight s1 !! r = Some (old, Poller.Tick))
    by (apply pollStatus_inflight; assumption).
  assert (H2 : Poller.timers s2 = ∅ /\ Poller.fetches s2 = Poller.fetches s1).
  { destruct res as [v|err].
    - destruct (settles_tick_terminal Poller.CrawlPage.initial_rejected s1 r old v
                  (proj1 Hinv1) Hr1) as (_ & A & B).
      { apply is_terminal_spec, (Hres v eq_refl). }
      split; [exact A|exact B].
    - destruct (settles_tick_rejected Poller.CrawlPage.initial_rejected s1 r old err
                  (proj1 Hinv1) Hr1) as (_ & A & B).
      split; [exact A|exact B]. }
  destruct H2 as [Ht2 Hf2].
  destruct (crawl_run_quiet evs s2 Ht2 Hq) as [_ Hfq].
  split; [exact Ht|]. split; [exact Ht2|].
  rewrite Hfq, Hf2. exact Hf.
Qed.

Lemma stale_answer_stops_new_poll_witness :
  let s := Poller.CrawlPage.run
             [Poller.Start 7; Poller.TimerFires 1%positive] Poller.CrawlPage.mounted in
  let s2 := Poller.CrawlPage.run
              [Poller.Start 8;
               Poller.Settles 2%positive (Client.Fulfilled (Sample.crawl7 "completed"))] s in
  Poller.CrawlPage.reachable s
  /\ Poller.inflight s !! 2%positive = Some (7, Poller.Tick)
  /\ Poller.timers s2 = ∅
  /\ Poller.fetches
       (Poller.CrawlPage.run [Poller.TimerFires 2%positive; Poller.TimerFires 2%positive] s2)
     = [8; 7; 7].
Proof.
  intros s s2.
  assert (Hreach : Poller.CrawlPage.reachable s) by (eexists; reflexivity).
  assert (Hr : Poller.inflight s !! 2%positive = Some (7, Poller.Tick))
    by (vm_compute; reflexivity).
  destruct (stale_answer_stops_new_poll s 2%positive 7 8
              (Client.Fulfilled (Sample.crawl7 "completed"))
              [Poller.TimerFires 2%positive; Poller.TimerFires 2%positive]
              Hreach Hr ltac:(intros v [= <-]; left; reflexivity) eq_refl)
    as (_ & Ht & Hf).
  split; [exact Hreach|]. split; [exact Hr|]. split; [exact Ht|exact Hf].
Defined.
